(** * Arquea: the generic entity-access layer

    A shallow embedding of the filter-criteria compiler
    ([sql/crud_filter_sqlalchemy.py]), the SQLAlchemy repository
    ([sql/crud_repository_interface_sqlalchemy.py]), the CRUD facade
    ([sql/crud_facade_interface_sqlalchemy.py]) and the error boundary
    ([exc/db_exceptions_decorators.py], [exc/exc.py]).

    Python exceptions are values of a sum type, the database session is an
    explicit table of rows, and the relational engine behind the session is
    an interface ([Engine]) with the few properties the repository relies
    on. *)

From Stdlib Require Import ZArith String Ascii List Bool Lia DecimalString.
From stdpp Require Import base option gmap strings list sorting.

Open Scope string_scope.
Open Scope Z_scope.

(** ** Python string primitives *)

(** [sub in s] on [str]. *)
Fixpoint py_in (sub s : string) : bool :=
  String.prefix sub s ||
  match s with
  | "" => false
  | String _ rest => py_in sub rest
  end.

(** [s.startswith(p)]. *)
Definition py_startswith (s p : string) : bool := String.prefix p s.

Definition cons_head (c : ascii) (parts : list string) : list string :=
  match parts with
  | [] => [String c ""]
  | h :: t => String c h :: t
  end.

(** [s.split(sep)] for a non-empty [sep]: the separators are found left to
    right and do not overlap.  [skip] counts the characters of a separator
    that has just been recognised and is still to be passed over. *)
Fixpoint py_split_go (sep : string) (skip : nat) (s : string) : list string :=
  match s with
  | "" => [""]
  | String c rest =>
      match skip with
      | S k => py_split_go sep k rest
      | O =>
          if String.prefix sep s
          then "" :: py_split_go sep (String.length sep - 1) rest
          else cons_head c (py_split_go sep 0 rest)
      end
  end.

Definition py_split (s sep : string) : list string := py_split_go sep 0 s.

(** [s.replace(old, new)] for a non-empty [old]. *)
Fixpoint py_replace_go (old new : string) (skip : nat) (s : string) : string :=
  match s with
  | "" => ""
  | String c rest =>
      match skip with
      | S k => py_replace_go old new k rest
      | O =>
          if String.prefix old s
          then new +:+ py_replace_go old new (String.length old - 1) rest
          else String c (py_replace_go old new 0 rest)
      end
  end.

Definition py_replace (s old new : string) : string := py_replace_go old new 0 s.

(** [repr(s)] of a [str]: single quotes unless the text holds a single quote
    and no double quote; backslash, the chosen quote and the ASCII control
    characters are escaped. *)
Definition hex_digit (n : N) : ascii :=
  match n with
  | 0%N => "0" | 1%N => "1" | 2%N => "2" | 3%N => "3" | 4%N => "4"
  | 5%N => "5" | 6%N => "6" | 7%N => "7" | 8%N => "8" | 9%N => "9"
  | 10%N => "a" | 11%N => "b" | 12%N => "c" | 13%N => "d" | 14%N => "e"
  | _ => "f"
  end%char.

Definition py_repr_char (quote c : ascii) : string :=
  let n := N_of_ascii c in
  if Ascii.eqb c "\"%char then "\\"
  else if Ascii.eqb c quote then String "\"%char (String quote "")
  else if N.eqb n 10 then "\n"
  else if N.eqb n 13 then "\r"
  else if N.eqb n 9 then "\t"
  else if (N.ltb n 32 || N.eqb n 127)%bool
       then String "\"%char (String "x"%char
              (String (hex_digit (N.div n 16)) (String (hex_digit (N.modulo n 16)) "")))
  else String c "".

Fixpoint py_repr_body (quote : ascii) (s : string) : string :=
  match s with
  | "" => ""
  | String c rest => py_repr_char quote c +:+ py_repr_body quote rest
  end.

Definition double_quote : ascii := ascii_of_N 34.

Definition py_repr_str (s : string) : string :=
  let quote : ascii :=
    if (py_in "'" s && negb (py_in (String double_quote "") s))%bool
    then double_quote else "'"%char in
  String quote (py_repr_body quote s +:+ String quote "").

(** ** Values *)

(** Column values and filter operands.  UUIDs and timestamps travel as
    strings and integers. *)
Inductive scalar :=
| SNone
| SBool (b : bool)
| SInt (n : Z)
| SStr (s : string).

(** What a filter carries ([Any]): one value or a sequence of them. *)
Inductive Any :=
| Scalar (x : scalar)
| Seq (xs : list scalar).

Coercion Scalar : scalar >-> Any.

Global Instance scalar_eq_dec : EqDecision scalar.
Proof. solve_decision. Defined.

Global Instance Any_eq_dec : EqDecision Any.
Proof. solve_decision. Defined.

Definition py_repr (x : scalar) : string :=
  match x with
  | SNone => "None"
  | SBool true => "True"
  | SBool false => "False"
  | SInt n => NilZero.string_of_int (Z.to_int n)
  | SStr s => py_repr_str s
  end.

(** [", ".join(parts)] and the like. *)
Fixpoint py_join (sep : string) (parts : list string) : string :=
  match parts with
  | [] => ""
  | [p] => p
  | p :: rest => p +:+ sep +:+ py_join sep rest
  end.

(** [str(xs)] of a list. *)
Definition py_str_list (xs : list scalar) : string :=
  "[" +:+ py_join ", " (map py_repr xs) +:+ "]".

(** ** Exceptions ([exc/exc.py] and the built-in ones the code meets) *)

(** Exceptions that are not [ArqueaError]s: Python built-ins and those of
    SQLAlchemy and pydantic.  All of them derive from [Exception]. *)
Inductive py_exception :=
| KeyError (key : string)
| ValueError (msg : string)
| TypeError (msg : string)
| AttributeError (msg : string)
| NoResultFound (msg : string)
| MultipleResultsFound (msg : string)
| ValidationError (msg : string)
| CompileError (msg : string)
| DBAPIError (msg : string).

(** [ArqueaError] and its subclasses; [ResourceError] and below carry the
    dataclass fields [resource] and [params]. *)
Inductive exn :=
| Py (e : py_exception)
| ArqueaError
| ResourceError (resource params : string)
| ResourceUniqueError (resource params : string)
| ResourceMissingError (resource params : string).

Global Instance py_exception_eq_dec : EqDecision py_exception.
Proof. solve_decision. Defined.

Global Instance exn_eq_dec : EqDecision exn.
Proof. solve_decision. Defined.

(** [isinstance(error, ArqueaError)]. *)
Definition isinstance_ArqueaError (e : exn) : bool :=
  match e with
  | Py _ => false
  | _ => true
  end.

(** [ArqueaError._type] as overridden by the subclasses. *)
Definition _type (e : exn) : option string :=
  match e with
  | Py _ => None
  | ArqueaError | ResourceError _ _ => Some "undefined_error"
  | ResourceUniqueError _ _ => Some "resource_unique"
  | ResourceMissingError _ _ => Some "resource_missing"
  end.

(** [str(error)] of an exception that is not an [ArqueaError]: the message,
    and for a [KeyError] the [repr] of the key. *)
Definition py_str_exception (e : py_exception) : string :=
  match e with
  | KeyError key => py_repr_str key
  | ValueError msg | TypeError msg | AttributeError msg
  | NoResultFound msg | MultipleResultsFound msg
  | ValidationError msg | CompileError msg | DBAPIError msg => msg
  end.

(** A call either raises or returns. *)
Definition Result (A : Type) : Type := exn + A.

Definition raise {A} (e : exn) : Result A := inl e.

Global Instance Result_ret : MRet (sum exn) := fun A x => inr x.
Global Instance Result_bind : MBind (sum exn) :=
  fun A B f m => match m with inl e => inl e | inr x => f x end.
Global Instance Result_fmap : FMap (sum exn) :=
  fun A B f m => match m with inl e => inl e | inr x => inr (f x) end.

(** ** Mapped classes and SQL expressions *)

(** Modelled from the spec: [conf/conf_types.py] is not part of the
    sources; its [FilterOperator] is the logical combinator (AND/OR) of
    section 4.1, an enumeration whose members are truthy. *)
Inductive FilterOperator := AND | OR.

Global Instance FilterOperator_eq_dec : EqDecision FilterOperator.
Proof. solve_decision. Defined.

(** [operator or default] on [FilterOperator | None]. *)
Definition operator_or (operator : option FilterOperator) (default : FilterOperator)
  : FilterOperator :=
  match operator with
  | Some op => op
  | None => default
  end.

(** A mapped class ([DeclarativeBase] subclass): its name, its column
    attributes, and its relationship attributes with their configured
    [lazy] strategy and related class. *)
Inductive Model :=
| MkModel (class_name : string) (columns : list string)
          (relationships : list Relationship)
with Relationship :=
| MkRelationship (key : string) (lazy : string) (mapper_class : Model).

Definition class_name (m : Model) : string :=
  let 'MkModel n _ _ := m in n.
Definition columns (m : Model) : list string :=
  let 'MkModel _ cs _ := m in cs.
Definition relationships (m : Model) : list Relationship :=
  let 'MkModel _ _ rs := m in rs.
Definition rel_key (r : Relationship) : string :=
  let 'MkRelationship k _ _ := r in k.
Definition rel_lazy (r : Relationship) : string :=
  let 'MkRelationship _ l _ := r in l.
Definition rel_mapper_class (r : Relationship) : Model :=
  let 'MkRelationship _ _ m := r in m.

(** An [InstrumentedAttribute]: the class it belongs to and its name. *)
Record InstrumentedAttribute := {
  attr_class : string;
  attr_name : string;
}.

Global Instance InstrumentedAttribute_eq_dec : EqDecision InstrumentedAttribute.
Proof. solve_decision. Defined.

Definition lookup_relationship (m : Model) (name : string) : option Relationship :=
  find (fun r => String.eqb (rel_key r) name) (relationships m).

Definition has_attribute (m : Model) (name : string) : bool :=
  existsb (String.eqb name) (columns m) || bool_decide (is_Some (lookup_relationship m name)).

(** [getattr(model, name)]: the mapped attribute, or [AttributeError].
    Expressions over attributes are built as syntax; what they select is
    the engine's business.  The other attributes of a Python class (methods,
    [metadata], the names with double underscores) are left out. *)
Definition getattr_model (m : Model) (name : string) : Result InstrumentedAttribute :=
  if has_attribute m name
  then mret {| attr_class := class_name m; attr_name := name |}
  else raise (Py (AttributeError
         ("type object '" +:+ class_name m +:+ "' has no attribute '" +:+ name +:+ "'"))).

(** [getattr(model_field, operator)(field_value)]. *)
Record BinaryExpression := {
  be_left : InstrumentedAttribute;
  be_operator : string;
  be_right : Any;
}.

Global Instance BinaryExpression_eq_dec : EqDecision BinaryExpression.
Proof. solve_decision. Defined.

(** The result of [and_(...)] / [or_(...)]. *)
Inductive ColumnElement :=
| and_ (clauses : list BinaryExpression)
| or_ (clauses : list BinaryExpression).

Global Instance ColumnElement_eq_dec : EqDecision ColumnElement.
Proof. solve_decision. Defined.

(** Loader options: [joinedload(attr)] and [selectinload(attr)]. *)
Inductive Load :=
| joinedload (attr : InstrumentedAttribute)
| selectinload (attr : InstrumentedAttribute).

Global Instance Load_eq_dec : EqDecision Load.
Proof. solve_decision. Defined.

(** ** [sql/crud_filter_sqlalchemy.py] *)

Inductive Direction := ASC | DESC.

Global Instance Direction_eq_dec : EqDecision Direction.
Proof. solve_decision. Defined.

(** [getattr(order_by_field, direction)()]. *)
Record UnaryExpression := {
  ue_element : InstrumentedAttribute;
  ue_modifier : Direction;
}.

Global Instance UnaryExpression_eq_dec : EqDecision UnaryExpression.
Proof. solve_decision. Defined.

(** The helper is annotated for [str]; on other operands Python's
    [in] and the f-string do what is written here. *)
Definition _backward_compatible_value_for_like_and_ilike (value : Any) : Result Any :=
  match value with
  | Scalar (SStr s) =>
      if negb (py_in "%" s) then mret (Scalar (SStr ("%" +:+ s +:+ "%"))) else mret value
  | Seq xs =>
      if negb (bool_decide (SStr "%" ∈ xs))
      then mret (Scalar (SStr ("%" +:+ py_str_list xs +:+ "%")))
      else mret value
  | Scalar SNone => raise (Py (TypeError "argument of type 'NoneType' is not iterable"))
  | Scalar (SBool _) => raise (Py (TypeError "argument of type 'bool' is not iterable"))
  | Scalar (SInt _) => raise (Py (TypeError "argument of type 'int' is not iterable"))
  end.

(** [value is True]. *)
Definition is_True (value : Any) : bool :=
  match value with
  | Scalar (SBool true) => true
  | _ => false
  end.

Definition orm_operator_transformer : gmap string (Any → Result (string * Any)) :=
  list_to_map [
    ("neq", fun value => mret ("__ne__", value));
    ("gt", fun value => mret ("__gt__", value));
    ("gte", fun value => mret ("__ge__", value));
    ("in", fun value => mret ("in_", value));
    ("isnull", fun value =>
       if is_True value then mret ("is_", Scalar SNone) else mret ("is_not", Scalar SNone));
    ("isempty", fun value =>
       if is_True value then mret ("__eq__", Scalar (SStr "")) else mret ("__ne__", Scalar (SStr "")));
    ("lt", fun value => mret ("__lt__", value));
    ("lte", fun value => mret ("__le__", value));
    ("like", fun value =>
       v ← _backward_compatible_value_for_like_and_ilike value; mret ("like", v));
    ("ilike", fun value =>
       v ← _backward_compatible_value_for_like_and_ilike value; mret ("ilike", v));
    ("not", fun value => mret ("is_not", value));
    ("not_in", fun value => mret ("not_in", value))
  ].

Definition orm_lazy_load : gmap string (InstrumentedAttribute → Load) :=
  list_to_map [("joined", joinedload); ("selectin", selectinload)].

(** Unpacking a list into exactly two names. *)
Definition unpack2 (parts : list string) : Result (string * string) :=
  match parts with
  | [a; b] => mret (a, b)
  | [] => raise (Py (ValueError "not enough values to unpack (expected 2, got 0)"))
  | [_] => raise (Py (ValueError "not enough values to unpack (expected 2, got 1)"))
  | _ => raise (Py (ValueError "too many values to unpack (expected 2)"))
  end.

Definition get_operator (filter_name : string) (filter_value : Any)
  : Result (string * string * Any) :=
  if py_in "__" filter_name then
    '(filter_name, operator) ← unpack2 (py_split filter_name "__");
    match orm_operator_transformer !! operator with
    | Some transform =>
        '(operator, filter_value) ← transform filter_value;
        mret (operator, filter_name, filter_value)
    | None => raise (Py (KeyError operator))
    end
  else mret ("__eq__", filter_name, filter_value).

Definition get_column_criteria (model : Model) (filter_name : string) (filter_value : Any)
  : Result BinaryExpression :=
  '(operator, field_name, field_value) ← get_operator filter_name filter_value;
  model_field ← getattr_model model field_name;
  mret {| be_left := model_field; be_operator := operator; be_right := field_value |}.

Definition get_lazy_load (model : Model) (column_name : string) : Result (Load * Model) :=
  match lookup_relationship model column_name with
  | Some column =>
      match orm_lazy_load !! rel_lazy column with
      | Some loader =>
          mret (loader {| attr_class := class_name model; attr_name := column_name |},
                rel_mapper_class column)
      | None => raise (Py (KeyError (rel_lazy column)))
      end
  | None => raise (Py (AttributeError ("Invalid filtering attribute: " +:+ column_name)))
  end.

Definition get_join_column_criteria (model : Model) (filter_name : string) (filter_value : Any)
  : Result (BinaryExpression * Load) :=
  '(join_column, filter_name) ← unpack2 (py_split filter_name "___");
  '(lazy_load, related) ← get_lazy_load model join_column;
  criteria ← get_column_criteria related filter_name filter_value;
  mret (criteria, lazy_load).

(** The loop of [get_criteria], with its two accumulators. *)
Fixpoint get_criteria_loop (model : Model) (filters : list (string * Any))
    (criteria : list BinaryExpression) (join_criteria : list Load)
  : Result (list BinaryExpression * list Load) :=
  match filters with
  | [] => mret (criteria, join_criteria)
  | (filter_name, filter_value) :: rest =>
      if py_in "___" filter_name then
        '(column_criteria, column_load) ←
          get_join_column_criteria model filter_name filter_value;
        get_criteria_loop model rest (criteria ++ [column_criteria]) (join_criteria ++ [column_load])
      else
        column_criteria ← get_column_criteria model filter_name filter_value;
        get_criteria_loop model rest (criteria ++ [column_criteria]) join_criteria
  end.

(** [filters] is a [dict] (its items, in insertion order) or a list of
    pairs. *)
Definition get_criteria (model : Model) (filters : list (string * Any))
  : Result (list BinaryExpression * list Load) :=
  get_criteria_loop model filters [] [].

Definition get_filter_criteria (model : Model) (filters : list (string * Any))
    (operator : FilterOperator) : Result (ColumnElement * list Load) :=
  '(criteria, join_criteria) ← get_criteria model filters;
  mret (if bool_decide (operator = OR) then or_ criteria else and_ criteria, join_criteria).

(** One turn of the loop of [get_sort_criteria]: the body of the [try],
    which may raise [AttributeError]. *)
Definition sort_clause (model : Model) (sort_name : string) : Result UnaryExpression :=
  let direction := if py_startswith sort_name "-" then DESC else ASC in
  let field_name := py_replace (py_replace sort_name "-" "") "+" "" in
  order_by_field ← getattr_model model field_name;
  mret {| ue_element := order_by_field; ue_modifier := direction |}.

Fixpoint get_sort_criteria_loop (model : Model) (ordering_values : list string)
    (sorting : list UnaryExpression) : Result (list UnaryExpression) :=
  match ordering_values with
  | [] => mret sorting
  | sort_name :: rest =>
      match sort_clause model sort_name with
      | inr clause => get_sort_criteria_loop model rest (sorting ++ [clause])
      | inl (Py (AttributeError _)) => get_sort_criteria_loop model rest sorting
      | inl e => raise e
      end
  end.

Definition get_sort_criteria (model : Model) (ordering_values : list string)
  : Result (list UnaryExpression) :=
  get_sort_criteria_loop model ordering_values [].

(** ** The session and the engine behind it *)

(** An entity instance: column name to value. *)
Abbreviation Row := (gmap string scalar).

(** The relational engine, as far as the repository depends on it: the rows
    of the table that the criteria of a [WHERE] select, all criteria having
    to hold (a criterion on a related class may bring a row more than
    once), and how [ORDER BY] arranges rows (it only rearranges them). *)
Class Engine := {
  where_rows : list ColumnElement → list Row → list Row;
  order_rows : list UnaryExpression → list Row → list Row;
  order_rows_perm : ∀ clauses rows, order_rows clauses rows ≡ₚ rows;
}.

(** A [Select] statement as the repository builds it. *)
Record Select := {
  sel_entity : Model;
  sel_options : list Load;
  sel_where : list ColumnElement;
  sel_offset : option Z;
  sel_limit : option Z;
  sel_order_by : list UnaryExpression;
}.

Definition select (model : Model) : Select :=
  {| sel_entity := model; sel_options := []; sel_where := [];
     sel_offset := None; sel_limit := None; sel_order_by := [] |}.

Definition q_options (q : Select) (opts : list Load) : Select :=
  {| sel_entity := sel_entity q; sel_options := sel_options q ++ opts;
     sel_where := sel_where q; sel_offset := sel_offset q;
     sel_limit := sel_limit q; sel_order_by := sel_order_by q |}.

Definition q_filter (q : Select) (criterion : ColumnElement) : Select :=
  {| sel_entity := sel_entity q; sel_options := sel_options q;
     sel_where := sel_where q ++ [criterion]; sel_offset := sel_offset q;
     sel_limit := sel_limit q; sel_order_by := sel_order_by q |}.

Definition q_offset (q : Select) (n : Z) : Select :=
  {| sel_entity := sel_entity q; sel_options := sel_options q;
     sel_where := sel_where q; sel_offset := Some n;
     sel_limit := sel_limit q; sel_order_by := sel_order_by q |}.

Definition q_limit (q : Select) (n : Z) : Select :=
  {| sel_entity := sel_entity q; sel_options := sel_options q;
     sel_where := sel_where q; sel_offset := sel_offset q;
     sel_limit := Some n; sel_order_by := sel_order_by q |}.

Definition q_order_by (q : Select) (clauses : list UnaryExpression) : Select :=
  {| sel_entity := sel_entity q; sel_options := sel_options q;
     sel_where := sel_where q; sel_offset := sel_offset q;
     sel_limit := sel_limit q; sel_order_by := sel_order_by q ++ clauses |}.

Section Execution.
Context `{Engine}.

(** [session.scalars(query).all()]: [WHERE] (every [.filter(...)] of the
    statement), then [ORDER BY], then [OFFSET], then [LIMIT]. *)
Definition session_scalars_all (session : list Row) (q : Select) : list Row :=
  let rows := where_rows (sel_where q) session in
  let rows := match sel_order_by q with
              | [] => rows
              | clauses => order_rows clauses rows
              end in
  let rows := match sel_offset q with
              | Some n => drop (Z.to_nat n) rows
              | None => rows
              end in
  match sel_limit q with
  | Some n => take (Z.to_nat n) rows
  | None => rows
  end.

(** [session.scalars(query).one()]. *)
Definition session_scalars_one (session : list Row) (q : Select) : Result Row :=
  match session_scalars_all session q with
  | [] => raise (Py (NoResultFound "No row was found when one was required"))
  | [r] => mret r
  | _ => raise (Py (MultipleResultsFound
                      "Multiple rows were found when exactly one was required"))
  end.

(** [session.scalar(query)]: the first row, or [None]. *)
Definition session_scalar (session : list Row) (q : Select) : option Row :=
  head (session_scalars_all session q).

(** [session.scalar(select(func.count()).select_from(query.subquery()))]. *)
Definition session_scalar_count (session : list Row) (q : Select) : Z :=
  Z.of_nat (length (session_scalars_all session q)).
End Execution.

(** [entity.id]; every mapped class has the column. *)
Definition entity_id (entity : Row) : scalar := default SNone (entity !! "id").

(** [session.get(model, key)]: the row with that primary key. *)
Definition session_get (session : list Row) (key : scalar) : option Row :=
  find (fun r => bool_decide (entity_id r = key)) session.

(** The [UPDATE ... SET kwargs WHERE id = key] of [update_by_key], executed:
    names that are not columns of the model are refused when the statement
    is compiled; otherwise the matching rows take the new values. *)
Definition unconsumed (model : Model) (kwargs : gmap string scalar) : list string :=
  List.filter (fun k => negb (existsb (String.eqb k) (columns model)))
              (fst <$> map_to_list kwargs).

Definition execute_update (model : Model) (session : list Row) (key : scalar)
    (kwargs : gmap string scalar) : list Row * Result () :=
  match unconsumed model kwargs with
  | [] =>
      ((fun r => if bool_decide (entity_id r = key) then kwargs ∪ r else r) <$> session,
       mret ())
  | names =>
      (session, raise (Py (CompileError ("Unconsumed column names: " +:+ py_join ", " names))))
  end.

(** ** [sql/crud_repository_interface_sqlalchemy.py] *)

(** [str(x)] of a value, and of the [kwargs] dictionary. *)
Definition py_str (x : scalar) : string :=
  match x with
  | SStr s => s
  | _ => py_repr x
  end.

Definition py_repr_any (v : Any) : string :=
  match v with
  | Scalar x => py_repr x
  | Seq xs => py_str_list xs
  end.

Definition py_str_dict (kwargs : list (string * Any)) : string :=
  "{" +:+ py_join ", " (map (fun kv => py_repr_str (fst kv) +:+ ": " +:+ py_repr_any (snd kv)) kwargs)
      +:+ "}".

Module Repository.

Record SqlAlchemyRepository := {
  resource : string;
  model : Model;
}.

(** The defaults of [offset] and [limit] in the repository's signatures. *)
Definition default_offset : Z := 0.
Definition default_limit : Z := 15.

Section Repository.
Context `{Engine}.
Variable self : SqlAlchemyRepository.

Definition _get_filter_query
    (mandatory filters : option (list (string * Any)))
    (operator : option FilterOperator) : Result Select :=
  '(_mandatory, _mandatory_join_criteria) ←
    get_filter_criteria (model self) (default [] mandatory) (operator_or operator OR);
  '(_filter, _join_criteria) ←
    get_filter_criteria (model self) (default [] filters) (operator_or operator OR);
  let _options := (_mandatory_join_criteria ++ _join_criteria)%list in
  mret (q_filter (q_filter (q_options (select (model self)) _options) _filter) _mandatory).

(** [x and x < bound] followed by the truth test of the result. *)
Definition int_and_lt (x : option Z) (bound : Z) : bool :=
  match x with
  | Some n => negb (n =? 0) && (n <? bound)
  | None => false
  end.

(** Truth of an [int | None]. *)
Definition int_truthy (x : option Z) : option Z :=
  match x with
  | Some n => if n =? 0 then None else Some n
  | None => None
  end.

Definition _apply_paginated_query (query : Select)
    (offset limit : option Z) (sort_by : option (list string)) : Result Select :=
  let _offset := if int_and_lt offset 0 then None else offset in
  let _limit := if int_and_lt limit 1 then None else limit in
  _sort ← get_sort_criteria (model self) (default [] sort_by);
  let query := match int_truthy _offset with
               | Some n => q_offset query n
               | None => query
               end in
  let query := match int_truthy _limit with
               | Some n => q_limit query n
               | None => query
               end in
  let query := match _sort with
               | [] => query
               | _ => q_order_by query _sort
               end in
  mret query.

Definition _get_query
    (mandatory filters : option (list (string * Any)))
    (operator : option FilterOperator)
    (offset limit : option Z) (sort_by : option (list string)) : Result Select :=
  query ← _get_filter_query mandatory filters operator;
  _apply_paginated_query query offset limit sort_by.

Definition get_all (session : list Row) (offset limit : Z)
    (sort_by : option (list string)) (operator : option FilterOperator)
    (mandatory : option (list (string * Any))) (kwargs : list (string * Any))
  : Result (list Row) :=
  query ← _get_query mandatory (Some kwargs) operator (Some offset) (Some limit) sort_by;
  mret (session_scalars_all session query).

Definition count_by (session : list Row) (operator : option FilterOperator)
    (mandatory : option (list (string * Any))) (kwargs : list (string * Any))
  : Result Z :=
  query ← _get_filter_query mandatory (Some kwargs) operator;
  mret (session_scalar_count session query).

Definition get_and_count (session : list Row) (offset limit : Z)
    (sort_by : option (list string)) (operator : option FilterOperator)
    (mandatory : option (list (string * Any))) (kwargs : list (string * Any))
  : Result (list Row * Z) :=
  query ← _get_filter_query mandatory (Some kwargs) operator;
  query_paginated ← _apply_paginated_query query (Some offset) (Some limit) sort_by;
  let entities := session_scalars_all session query_paginated in
  let count := session_scalar_count session query in
  mret (entities, count).

Definition get_by_key (session : list Row) (key : scalar) : option Row :=
  session_get session key.

(** The last line raises a tuple, which Python refuses with a
    [TypeError]. *)
Definition get_by_key_or_fail (session : list Row) (key : scalar) : Result Row :=
  match get_by_key session key with
  | Some entity => mret entity
  | None => raise (Py (TypeError "exceptions must derive from BaseException"))
  end.

Definition get_one_by (session : list Row) (offset limit : Z)
    (sort_by : option (list string)) (operator : option FilterOperator)
    (mandatory : option (list (string * Any))) (kwargs : list (string * Any))
  : Result (option Row) :=
  query ← _get_query mandatory (Some kwargs) (Some (operator_or operator AND))
                     (Some offset) (Some limit) sort_by;
  mret (session_scalar session query).

Definition get_one_by_or_fail (session : list Row) (offset limit : Z)
    (sort_by : option (list string)) (operator : option FilterOperator)
    (mandatory : option (list (string * Any))) (kwargs : list (string * Any))
  : Result Row :=
  query ← _get_query mandatory (Some kwargs) (Some (operator_or operator AND))
                     (Some offset) (Some limit) sort_by;
  match session_scalars_one session query with
  | inl (Py (MultipleResultsFound _)) =>
      raise (ResourceUniqueError (resource self)
               ("Multiple entities found: " +:+ py_str_dict kwargs))
  | inl (Py (NoResultFound _)) =>
      raise (ResourceMissingError (resource self)
               ("Resource not found: " +:+ py_str_dict kwargs))
  | result => result
  end.

(** [utc_now] is the reading of the clock when the call is made. *)
Definition update_by_key (session : list Row) (utc_now : scalar)
    (key : scalar) (data : gmap string scalar) : list Row * Result Row :=
  let kwargs := <["updated_at" := utc_now]> data in
  match execute_update (model self) session key kwargs with
  | (session, inl e) => (session, raise e)
  | (session, inr _) => (session, get_by_key_or_fail session key)
  end.

(** The keyword arguments are the criteria; pagination, sort, operator and
    mandatory criteria keep their defaults. *)
Definition update_one_by_or_fail (session : list Row) (utc_now : scalar)
    (data : gmap string scalar) (kwargs : list (string * Any))
  : list Row * Result Row :=
  match get_one_by_or_fail session default_offset default_limit None None None kwargs with
  | inl e => (session, raise e)
  | inr entity =>
      update_by_key session utc_now (entity_id entity) data
  end.
End Repository.

Section RepositoryDelete.
Context `{Engine}.
Variable self : SqlAlchemyRepository.

Definition delete_by_key (session : list Row) (key : scalar) : list Row :=
  List.filter (fun r => negb (bool_decide (entity_id r = key))) session.

Definition delete_by (session : list Row) (kwargs : list (string * Any))
  : list Row * Result () :=
  match get_filter_criteria (model self) kwargs AND with
  | inl e => (session, raise e)
  | inr (criteria, _join_criteria) =>
      (List.filter (fun r => bool_decide (r ∉ where_rows [criteria] session)) session,
       mret ())
  end.
End RepositoryDelete.

End Repository.
Import Repository.

(** ** [exc/db_exceptions_decorators.py] *)

(** The dataclass [repr] behind [ArqueaError.__str__]. *)
Definition py_str_exn (error : exn) : string :=
  let fields r p := "(resource=" +:+ py_repr_str r +:+ ", params=" +:+ py_repr_str p +:+ ")" in
  match error with
  | Py e => py_str_exception e
  | ArqueaError => "ArqueaError()"
  | ResourceError r p => "ResourceError" +:+ fields r p
  | ResourceUniqueError r p => "ResourceUniqueError" +:+ fields r p
  | ResourceMissingError r p => "ResourceMissingError" +:+ fields r p
  end.

(** What [_retrieve_resource] sees of the first positional argument: an
    instance of a class descending from [SqlAlchemyCrudFacade], with its
    [resource] property, or some other object. *)
Inductive receiver :=
| FacadeInstance (resource : string)
| OtherObject.

Definition _retrieve_resource (resource : string) (args : list receiver) : string :=
  match args with
  | FacadeInstance r :: _ => r
  | _ => resource
  end.

(** The decorator: [run_func] is the decorated function applied to the
    arguments, [wrapper] what the caller gets. *)
Definition db_catch_exception {T} (resource : string)
    (run_func : list receiver → Result T) (args : list receiver) : Result T :=
  match run_func args with
  | inr result => mret result
  | inl error =>
      if isinstance_ArqueaError error then raise error
      else raise (ResourceError (_retrieve_resource resource args) (py_str_exn error))
  end.

(** ** [conf/model.py] *)

Record PaginationFilter := {
  pf_offset : Z;
  pf_limit : Z;
}.

Record SortBy := {
  sort : list string;
}.

Record Pagination (DataT : Type) := {
  pag_offset : Z;
  pag_limit : Z;
  pag_total_count : Z;
  pag_data : list DataT;
}.
Arguments pag_offset {DataT}.
Arguments pag_limit {DataT}.
Arguments pag_total_count {DataT}.
Arguments pag_data {DataT}.

(** An update DTO ([UpdateBaseModel]): the value of every declared field
    and the names of those the caller set. *)
Record UpdateDto := {
  model_fields : gmap string scalar;
  model_fields_set : gset string;
}.

(** [data.model_dump(exclude_unset=True)]. *)
Definition model_dump_exclude_unset (data : UpdateDto) : gmap string scalar :=
  filter (fun kv => kv.1 ∈ model_fields_set data) (model_fields data).

(** ** [sql/crud_facade_interface_sqlalchemy.py] *)

(** A facade over one repository; [_dto] stands for
    [_dto.model_validate], which returns the DTO or raises. *)
Record SqlAlchemyCrudFacade (DtoT : Type) := {
  _repository : SqlAlchemyRepository;
  _dto : Row → Result DtoT;
}.
Arguments _repository {DtoT}.
Arguments _dto {DtoT}.

(** A record of [logging.warning]: the entity and the error it reports. *)
Record warning := {
  w_entity : Row;
  w_error : exn;
}.

Module Facade.

Definition _resource : string := "SqlAlchemyCrudFacade".
Definition _default_pagination : PaginationFilter := {| pf_offset := 0; pf_limit := 1000000 |}.
Definition _default_sort_by : SortBy := {| sort := ["+code"; "+slug"; "-created_at"; "-updated_at"] |}.
Definition _sort_latest : SortBy := {| sort := ["-created_at"; "-updated_at"] |}.

Section Facade.
Context `{Engine} {DtoT : Type}.
Variable self : SqlAlchemyCrudFacade DtoT.

(** The positional arguments the decorator sees: [self] comes first. *)
Definition facade_args : list receiver := [FacadeInstance (resource (_repository self))].

Definition decorated {T} (body : Result T) : Result T :=
  db_catch_exception _resource (fun _ => body) facade_args.

Definition _mapping_key_from_dto_to_entity (key : scalar) : scalar := key.

Definition _mapping_from_dto_update_to_dict (data : UpdateDto) : gmap string scalar :=
  model_dump_exclude_unset data.

Definition _mapping_from_entity_to_dto (entity : Row) : Result DtoT :=
  _dto self entity.

Definition _mapping_from_entity_to_dto_or_none (entity : Row)
  : Result (option DtoT) * list warning :=
  match _mapping_from_entity_to_dto entity with
  | inr dto => (mret (Some dto), [])
  | inl (Py (ValidationError msg)) =>
      (mret None, [{| w_entity := entity; w_error := Py (ValidationError msg) |}])
  | inl error => (raise error, [])
  end.

(** The list comprehension of [get_list]: map every entity, keep the DTOs
    that are not [None]. *)
Fixpoint map_entities_or_none (entities : list Row) : Result (list DtoT) * list warning :=
  match entities with
  | [] => (mret [], [])
  | entity :: rest =>
      match _mapping_from_entity_to_dto_or_none entity with
      | (inl error, log) => (raise error, log)
      | (inr dto, log) =>
          let '(data, log') := map_entities_or_none rest in
          ((fun data => match dto with Some d => d :: data | None => data end) <$> data,
           (log ++ log')%list)
      end
  end.

(** [entity.__dict__] without [_sa_instance_state]: the row. *)
Definition _mapping_from_entity_to_dict (entity : Row) : Row := entity.

Definition get_raw_list (session : list Row)
    (pagination : option PaginationFilter) (sort_by : option SortBy)
    (operator : option FilterOperator) (mandatory : option (list (string * Any)))
    (kwargs : list (string * Any)) : Result (list Row * Z) :=
  decorated (
    let _pagination := default _default_pagination pagination in
    let _sort_by := match sort_by with
                    | None => _default_sort_by
                    | Some s => match sort s with [] => _default_sort_by | _ => s end
                    end in
    '(entities, total) ←
      get_and_count (_repository self) session (pf_offset _pagination) (pf_limit _pagination)
        (Some (sort _sort_by)) operator mandatory kwargs;
    let data := _mapping_from_entity_to_dict <$> entities in
    mret (data, total)).

Definition get_raw_paginated (session : list Row)
    (pagination : option PaginationFilter) (sort_by : option SortBy)
    (operator : option FilterOperator) (mandatory : option (list (string * Any)))
    (kwargs : list (string * Any)) : Result (Pagination Row) :=
  decorated (
    let _pagination := default _default_pagination pagination in
    '(data, total) ← get_raw_list session (Some _pagination) sort_by operator mandatory kwargs;
    mret {| pag_offset := pf_offset _pagination; pag_limit := pf_limit _pagination;
            pag_total_count := total; pag_data := data |}).

Definition get (session : list Row) (key : scalar) : Result DtoT :=
  decorated (
    let entity_key := _mapping_key_from_dto_to_entity key in
    entity ← get_by_key_or_fail session entity_key;
    _mapping_from_entity_to_dto entity).

Definition get_one_by (session : list Row) (kwargs : list (string * Any)) : Result DtoT :=
  decorated (
    entity ← get_one_by_or_fail (_repository self) session
               default_offset default_limit None None None kwargs;
    _mapping_from_entity_to_dto entity).

Definition get_latest_by (session : list Row) (kwargs : list (string * Any)) : Result DtoT :=
  decorated (
    entity ← get_one_by_or_fail (_repository self) session
               default_offset 1 (Some (sort _sort_latest)) None None kwargs;
    _mapping_from_entity_to_dto entity).

Definition get_list (session : list Row)
    (pagination : option PaginationFilter) (sort_by : option SortBy)
    (operator : option FilterOperator) (mandatory : option (list (string * Any)))
    (kwargs : list (string * Any)) : Result (list DtoT * Z) * list warning :=
  let _pagination := default _default_pagination pagination in
  let _sort_by := match sort_by with
                  | None => _default_sort_by
                  | Some s => match sort s with [] => _default_sort_by | _ => s end
                  end in
  match get_and_count (_repository self) session (pf_offset _pagination) (pf_limit _pagination)
          (Some (sort _sort_by)) operator mandatory kwargs with
  | inl error => (decorated (raise error), [])
  | inr (entities, total) =>
      let '(data, log) := map_entities_or_none entities in
      (decorated (data ← data; mret (data, total)), log)
  end.

Definition get_paginated (session : list Row)
    (pagination : option PaginationFilter) (sort_by : option SortBy)
    (operator : option FilterOperator) (mandatory : option (list (string * Any)))
    (kwargs : list (string * Any)) : Result (Pagination DtoT) * list warning :=
  let _pagination := default _default_pagination pagination in
  let '(result, log) := get_list session (Some _pagination) sort_by operator mandatory kwargs in
  (decorated (
     '(data, total) ← result;
     mret {| pag_offset := pf_offset _pagination; pag_limit := pf_limit _pagination;
             pag_total_count := total; pag_data := data |}),
   log).

Definition update (session : list Row) (utc_now : scalar) (key : scalar) (data : UpdateDto)
  : list Row * Result DtoT :=
  let entity_key := _mapping_key_from_dto_to_entity key in
  let entity_data := _mapping_from_dto_update_to_dict data in
  let '(session, entity_updated) :=
    update_by_key (_repository self) session utc_now entity_key entity_data in
  (session, decorated (entity ← entity_updated; _mapping_from_entity_to_dto entity)).

Definition update_one_by (session : list Row) (utc_now : scalar) (data : UpdateDto)
    (kwargs : list (string * Any)) : list Row * Result DtoT :=
  let entity_data := _mapping_from_dto_update_to_dict data in
  let '(session, entity) :=
    update_one_by_or_fail (_repository self) session utc_now entity_data kwargs in
  (session, decorated (entity ← entity; _mapping_from_entity_to_dto entity)).

Definition delete (session : list Row) (key : scalar) : list Row * Result DtoT :=
  match get session key with
  | inl error => (session, decorated (raise error))
  | inr dto => (delete_by_key session key, decorated (mret dto))
  end.

Definition delete_one_by (session : list Row) (kwargs : list (string * Any))
  : list Row * Result DtoT :=
  match get_one_by session kwargs with
  | inl error => (session, decorated (raise error))
  | inr dto =>
      let '(session, deleted) := delete_by (_repository self) session kwargs in
      (session, decorated (_ ← deleted; mret dto))
  end.

Definition delete_paginated (session : list Row) (operator : option FilterOperator)
    (kwargs : list (string * Any)) : list Row * Result (Pagination DtoT) * list warning :=
  let '(dtos, log) :=
    get_paginated session (Some {| pf_offset := 0; pf_limit := 0 |}) None operator None kwargs in
  match dtos with
  | inl error => (session, decorated (raise error), log)
  | inr dtos =>
      let '(session, deleted) := delete_by (_repository self) session kwargs in
      (session,
       decorated (_ ← deleted;
                  mret {| pag_offset := pag_offset dtos;
                          pag_limit := Z.max (pag_limit dtos) (pag_total_count dtos);
                          pag_total_count := pag_total_count dtos;
                          pag_data := pag_data dtos |}),
       log)
  end.
End Facade.

End Facade.

(** ** The rest of the repository: construction, insertion, bulk writes *)

(** Truth of a value, as [not data.get(field)] tests it. *)
Definition py_truthy (x : scalar) : bool :=
  match x with
  | SNone => false
  | SBool b => b
  | SInt n => negb (n =? 0)
  | SStr s => negb (String.eqb s "")
  end.

(** A [dict] whose order counts: its items in insertion order.  [d.get(k)]
    and [d[k] = v], which keeps the place of a key already there. *)
Definition dict_get (d : list (string * scalar)) (k : string) : option scalar :=
  snd <$> find (fun kv => String.eqb (fst kv) k) d.

Fixpoint dict_set (d : list (string * scalar)) (k : string) (v : scalar)
  : list (string * scalar) :=
  match d with
  | [] => [(k, v)]
  | (k', v') :: rest =>
      if String.eqb k' k then (k, v) :: rest else (k', v') :: dict_set rest k v
  end.

(** What the table's constraints object to in a row to be inserted (the text
    of the error the engine raises), the primary key being one of them. *)
Class Constraints := {
  violation : list Row → Row → option string;
  violation_primary_key :
    ∀ session entity,
      is_Some (session_get session (entity_id entity)) → is_Some (violation session entity);
}.

(** [session.add(entity)] flushed: the [INSERT].  An [IntegrityError] (a
    [DBAPIError]) leaves the session's transaction unusable, so no table
    comes back with it.  Server-side defaults are left out: the row is
    stored as given. *)
Definition session_insert `{Constraints} (session : list Row) (entity : Row)
  : option (list Row) * Result Row :=
  match violation session entity with
  | Some msg => (None, raise (Py (DBAPIError msg)))
  | None => (Some (session ++ [entity])%list, mret entity)
  end.

(** The mapped class called with the dictionary as keywords (the
    constructor SQLAlchemy gives it): a keyword that names no attribute is
    refused.  As for [getattr_model], the attributes are the mapped ones. *)
Definition model_construct (model : Model) (data : list (string * scalar)) : Result Row :=
  match find (fun kv => negb (has_attribute model (fst kv))) data with
  | Some (k, _) =>
      raise (Py (TypeError (py_repr_str k +:+ " is an invalid keyword argument for "
                              +:+ class_name model)))
  | None => mret (list_to_map data)
  end.

Module RepositoryWrites.

Section RepositoryWrites.
Context `{Constraints}.
Variable self : SqlAlchemyRepository.

(** [flush(entity)] after [session.add(entity)]: the entity comes back as
    the table holds it. *)
Definition add (session : list Row) (entity : Row) : option (list Row) * Result Row :=
  session_insert session entity.

(** One flush for all the entities, inserted in their order. *)
Fixpoint add_all (session : list Row) (entities : list Row)
  : option (list Row) * Result () :=
  match entities with
  | [] => (Some session, mret ())
  | entity :: rest =>
      match violation session entity with
      | Some msg => (None, raise (Py (DBAPIError msg)))
      | None => add_all (session ++ [entity])%list rest
      end
  end.

Definition entity_to_dict (entity : Row) (exclude : option (list string))
  : gmap string scalar :=
  list_to_map
    ((fun column => (column, default SNone (entity !! column)))
       <$> List.filter (fun column => negb (existsb (String.eqb column) (default [] exclude)))
             (columns (model self))).

Definition update (session : list Row) (utc_now : scalar) (entity : Row)
  : list Row * Result Row :=
  let kwargs := entity_to_dict entity (Some ["id"]) in
  update_by_key self session utc_now (entity_id entity) kwargs.

Definition delete_all_by_keys (session : list Row) (keys : list scalar) : list Row :=
  List.filter (fun r => negb (bool_decide (entity_id r ∈ keys))) session.

Definition prune (session : list Row) : list Row := [].

(** [uuid4] and [utc_now] are what [uuid4()] and [utc_now()] return when
    the call is made.  The caller's dictionary is filled in place: it comes
    back beside the entity built from it. *)
Definition new_entity (uuid4 utc_now : scalar) (data : list (string * scalar))
  : list (string * scalar) * Result Row :=
  let current_datetime := utc_now in
  let data :=
    foldl (fun data fv =>
             if negb (py_truthy (default SNone (dict_get data (fst fv))))
             then dict_set data (fst fv) (snd fv)
             else data)
          data
          [("id", uuid4); ("created_at", current_datetime); ("updated_at", current_datetime)] in
  (data, model_construct (model self) data).
End RepositoryWrites.

End RepositoryWrites.

(** ** The creating operations of the facade *)

Module FacadeCreate.

Section FacadeCreate.
Context `{Constraints} {DtoT : Type}.
Variable self : SqlAlchemyCrudFacade DtoT.

(** A create DTO is represented by the dictionary [model_dump()] gives. *)
Definition _mapping_from_dto_create_to_entity (uuid4 utc_now : scalar)
    (data : list (string * scalar)) : Result Row :=
  snd (RepositoryWrites.new_entity (_repository self) uuid4 utc_now data).

Definition create_raw (session : list Row) (uuid4 utc_now : scalar)
    (data : list (string * scalar)) : option (list Row) * Result Row :=
  match snd (RepositoryWrites.new_entity (_repository self) uuid4 utc_now data) with
  | inl error => (Some session, Facade.decorated self (raise error))
  | inr entity =>
      match RepositoryWrites.add session entity with
      | (session, inl error) => (session, Facade.decorated self (raise error))
      | (session, inr entity) =>
          (session, Facade.decorated self (mret (Facade._mapping_from_entity_to_dict entity)))
      end
  end.

Definition create (session : list Row) (uuid4 utc_now : scalar)
    (data : list (string * scalar)) : option (list Row) * Result DtoT :=
  match _mapping_from_dto_create_to_entity uuid4 utc_now data with
  | inl error => (Some session, Facade.decorated self (raise error))
  | inr entity =>
      match RepositoryWrites.add session entity with
      | (session, inl error) => (session, Facade.decorated self (raise error))
      | (session, inr entity) =>
          (session, Facade.decorated self (Facade._mapping_from_entity_to_dto self entity))
      end
  end.

(** The entities of a list of dictionaries: the [i]-th call of [uuid4()]
    and of [utc_now()] serves the [i]-th entry; the first constructor to
    raise ends the comprehension. *)
Fixpoint new_entities (uuid4 utc_now : nat → scalar) (i : nat)
    (data : list (list (string * scalar))) : Result (list Row) :=
  match data with
  | [] => mret []
  | entry :: rest =>
      entity ← snd (RepositoryWrites.new_entity (_repository self) (uuid4 i) (utc_now i) entry);
      entities ← new_entities uuid4 utc_now (S i) rest;
      mret (entity :: entities)
  end.

Definition create_raw_paginated (session : list Row) (uuid4 utc_now : nat → scalar)
    (data : list (list (string * scalar))) : option (list Row) * Result (Pagination Row) :=
  match new_entities uuid4 utc_now 0 data with
  | inl error => (Some session, Facade.decorated self (raise error))
  | inr entities =>
      match RepositoryWrites.add_all session entities with
      | (session, inl error) => (session, Facade.decorated self (raise error))
      | (session, inr _) =>
          let data := Facade._mapping_from_entity_to_dict <$> entities in
          (session,
           Facade.decorated self
             (mret {| pag_offset := 0; pag_limit := Z.of_nat (length data);
                      pag_total_count := Z.of_nat (length entities); pag_data := data |}))
      end
  end.

(** The comprehension that maps the entities back: the first mapping to
    raise ends it. *)
Fixpoint map_entities (entities : list Row) : Result (list DtoT) :=
  match entities with
  | [] => mret []
  | entity :: rest =>
      dto ← Facade._mapping_from_entity_to_dto self entity;
      dtos ← map_entities rest;
      mret (dto :: dtos)
  end.

Definition create_paginated (session : list Row) (uuid4 utc_now : nat → scalar)
    (data : list (list (string * scalar))) : option (list Row) * Result (Pagination DtoT) :=
  match new_entities uuid4 utc_now 0 data with
  | inl error => (Some session, Facade.decorated self (raise error))
  | inr entities =>
      match RepositoryWrites.add_all session entities with
      | (session, inl error) => (session, Facade.decorated self (raise error))
      | (session, inr _) =>
          (session,
           Facade.decorated self
             (data ← map_entities entities;
              mret {| pag_offset := 0; pag_limit := Z.of_nat (length data);
                      pag_total_count := Z.of_nat (length entities); pag_data := data |}))
      end
  end.
End FacadeCreate.

End FacadeCreate.

(** ** The wording of the specification, for comparison *)

(** The registered operator set of section 4.1. *)
Definition registered_operators : gset string :=
  {[ "neq"; "gt"; "gte"; "lt"; "lte"; "in"; "not_in"; "isnull"; "isempty";
     "like"; "ilike"; "not" ]}.

(** The part of a filter key after its first [__], if it has one. *)
Fixpoint after_first_dunder (key : string) : option string :=
  match key with
  | "" => None
  | String c rest =>
      match rest with
      | String c' rest' =>
          if (Ascii.eqb c "_" && Ascii.eqb c' "_")%bool then Some rest'
          else after_first_dunder rest
      | "" => None
      end
  end.




(** Sort compilation as a function of how a token is turned into a field
    name: unknown fields are dropped, the direction is descending for a
    leading [-] and ascending otherwise. *)
Definition compile_sort_with (field_of : string → string) (model : Model)
    (tokens : list string) : list UnaryExpression :=
  omap (fun token =>
          let name := field_of token in
          if has_attribute model name
          then Some {| ue_element := {| attr_class := class_name model; attr_name := name |};
                       ue_modifier := if py_startswith token "-" then DESC else ASC |}
          else None)
       tokens.



(** ** A small engine to run examples on *)

Definition scalar_leb (x y : scalar) : bool :=
  match x, y with
  | SNone, _ => true
  | _, SNone => false
  | SBool a, SBool b => implb a b
  | SBool _, _ => true
  | _, SBool _ => false
  | SInt a, SInt b => a <=? b
  | SInt _, _ => true
  | _, SInt _ => false
  | SStr a, SStr b => String.leb a b
  end.

Definition scalar_ltb (x y : scalar) : bool := scalar_leb x y && negb (bool_decide (x = y)).

Definition column_of (b : BinaryExpression) (r : Row) : scalar :=
  default SNone (r !! attr_name (be_left b)).

(** An engine that reads every criterion on the row itself. *)
Section RowWise.
Variable holds : BinaryExpression → Row → bool.

(** A conjunction or disjunction on one row.  A clause list without
    elements renders as no criterion at all, for [or_] as for [and_]. *)
Definition eval_clause (c : ColumnElement) (r : Row) : bool :=
  match c with
  | and_ clauses => forallb (fun b => holds b r) clauses
  | or_ [] => true
  | or_ clauses => existsb (fun b => holds b r) clauses
  end.

Definition matches (criteria : list ColumnElement) (r : Row) : bool :=
  forallb (fun c => eval_clause c r) criteria.
End RowWise.

(** Comparisons on the columns of the row itself; a comparison with [NULL]
    is not true, [LIKE] and [ILIKE] are left out. *)
Definition sample_holds (b : BinaryExpression) (r : Row) : bool :=
  let x := column_of b r in
  let known := negb (bool_decide (x = SNone)) in
  match be_right b with
  | Scalar y =>
      if String.eqb (be_operator b) "__eq__" then known && bool_decide (x = y)
      else if String.eqb (be_operator b) "__ne__" then known && negb (bool_decide (x = y))
      else if String.eqb (be_operator b) "__lt__" then known && scalar_ltb x y
      else if String.eqb (be_operator b) "__le__" then known && scalar_leb x y
      else if String.eqb (be_operator b) "__gt__" then known && scalar_ltb y x
      else if String.eqb (be_operator b) "__ge__" then known && scalar_leb y x
      else if String.eqb (be_operator b) "is_" then bool_decide (x = y)
      else if String.eqb (be_operator b) "is_not" then negb (bool_decide (x = y))
      else false
  | Seq ys =>
      if String.eqb (be_operator b) "in_" then known && bool_decide (x ∈ ys)
      else if String.eqb (be_operator b) "not_in" then known && negb (bool_decide (x ∈ ys))
      else false
  end.

(** [r1] may come before [r2] under the clauses, read left to right. *)
Fixpoint row_leb (clauses : list UnaryExpression) (r1 r2 : Row) : bool :=
  match clauses with
  | [] => true
  | clause :: rest =>
      let x := default SNone (r1 !! attr_name (ue_element clause)) in
      let y := default SNone (r2 !! attr_name (ue_element clause)) in
      if bool_decide (x = y) then row_leb rest r1 r2
      else match ue_modifier clause with
           | ASC => scalar_leb x y
           | DESC => scalar_leb y x
           end
  end.

Definition row_le (clauses : list UnaryExpression) (r1 r2 : Row) : Prop :=
  row_leb clauses r1 r2 = true.

Global Instance row_le_dec clauses r1 r2 : Decision (row_le clauses r1 r2).
Proof. unfold row_le. apply _. Defined.

Definition sample_order_rows (clauses : list UnaryExpression) (rows : list Row) : list Row :=
  merge_sort (row_le clauses) rows.

Definition sample_engine : Engine := {|
  where_rows := fun criteria => List.filter (matches sample_holds criteria);
  order_rows := sample_order_rows;
  order_rows_perm := fun clauses rows => merge_sort_Permutation _ rows;
|}.

(** [models/user/db_model.py]. *)
Definition DBUser : Model :=
  MkModel "DBUser"
    ["created_at"; "updated_at"; "id"; "first_name"; "last_name"; "telegram_id"; "role"; "viewed_at"]
    [].

Definition UserCrudRepository : SqlAlchemyRepository :=
  {| resource := "user"; model := DBUser |}.

Definition user (id first_name role : string) (stamp : Z) : Row :=
  list_to_map [("id", SStr id); ("first_name", SStr first_name); ("last_name", SStr "Martinez");
               ("telegram_id", SStr "12345"); ("role", SStr role);
               ("created_at", SInt stamp); ("updated_at", SInt stamp); ("viewed_at", SInt stamp)].

Definition ana : Row := user "u1" "Ana" "admin" 10.
Definition bea : Row := user "u2" "Bea" "employee" 20.
Definition cleo : Row := user "u3" "Cleo" "employee" 30.

Definition users : list Row := [ana; bea; cleo].

(** A read DTO that requires a first name: the validated row, or a
    [ValidationError]. *)
Definition validate_user (entity : Row) : Result Row :=
  match entity !! "first_name" with
  | Some (SStr name) =>
      if String.eqb name "" then raise (Py (ValidationError "first_name: empty"))
      else mret entity
  | _ => raise (Py (ValidationError "first_name: Input should be a valid string"))
  end.

Definition UserCrudFacade : SqlAlchemyCrudFacade Row :=
  {| _repository := UserCrudRepository; _dto := validate_user |}.

(** An engine that reads every criterion on the row itself, whatever a
    comparison is taken to mean. *)
Definition row_wise_engine (holds : BinaryExpression → Row → bool) : Engine := {|
  where_rows := fun criteria => List.filter (matches holds criteria);
  order_rows := sample_order_rows;
  order_rows_perm := fun clauses rows => merge_sort_Permutation _ rows;
|}.

(** A table whose only constraint is its primary key. *)
Definition primary_key_violation (session : list Row) (entity : Row) : option string :=
  match session_get session (entity_id entity) with
  | Some _ => Some "duplicate key value violates unique constraint"
  | None => None
  end.

Definition primary_key_only : Constraints.
Proof.
  refine {| violation := primary_key_violation |}.
  intros session entity [row Hrow]. unfold primary_key_violation. rewrite Hrow. eauto.
Defined.

(** What a caller hands to [create]: the fields of a new user. *)
Definition new_user (first_name role : string) : list (string * scalar) :=
  [("first_name", SStr first_name); ("last_name", SStr "Martinez");
   ("telegram_id", SStr "12345"); ("role", SStr role); ("viewed_at", SInt 50)].

(** [models/oil_collection/db_model.py]: [DBUserJoin] with its
    relationships.  Of the related classes, which the sources do not hold,
    only the columns of [Base] are written. *)
Definition DBInsuranceProviderQuote : Model :=
  MkModel "DBInsuranceProviderQuote" ["created_at"; "updated_at"; "id"] [].

Definition DBUserCoverJoin : Model :=
  MkModel "DBUserCoverJoin" ["created_at"; "updated_at"; "id"] [].

Definition DBUserPauseJoin : Model :=
  MkModel "DBUserPauseJoin" ["created_at"; "updated_at"; "id"] [].

Definition DBUserJoin : Model :=
  MkModel "DBUserJoin"
    ["created_at"; "updated_at"; "id"; "status"; "state"; "contract_type";
     "pause_start_date"; "pause_end_date"; "cancellation_date"; "active_date";
     "expiration_date"; "provider_reference"; "quote_id"; "user_id"; "viewed_at";
     "notified"; "revision"; "payload"; "stripe_subscription_id"]
    [MkRelationship "covers" "selectin" DBUserCoverJoin;
     MkRelationship "pauses" "selectin" DBUserPauseJoin;
     MkRelationship "insurance_provider_quote" "joined" DBInsuranceProviderQuote].

(** A class whose relationship keeps the default loading strategy of
    SQLAlchemy, [lazy="select"]. *)
Definition DBNote : Model :=
  MkModel "DBNote" ["created_at"; "updated_at"; "id"; "text"]
    [MkRelationship "author" "select" DBUser].

(** Criteria on the role, and the statement [_get_filter_query] builds for
    them under a combinator (no mandatory criteria). *)
Definition role_is (role : string) : list (string * Any) := [("role", Scalar (SStr role))].

Definition role_query (combine : list BinaryExpression → ColumnElement) (role : string)
  : Select :=
  q_filter
    (q_filter (q_options (select DBUser) [])
       (combine [ {| be_left := {| attr_class := "DBUser"; attr_name := "role" |};
                     be_operator := "__eq__"; be_right := Scalar (SStr role) |} ]))
    (combine []).

(** Criteria that no user meets together: the admin is Ana, not Bea. *)
Definition admin_named_bea : list (string * Any) :=
  [("role", Scalar (SStr "admin")); ("first_name", Scalar (SStr "Bea"))].

Definition admin_named_bea_criteria : list BinaryExpression :=
  [ {| be_left := {| attr_class := "DBUser"; attr_name := "role" |};
       be_operator := "__eq__"; be_right := Scalar (SStr "admin") |};
    {| be_left := {| attr_class := "DBUser"; attr_name := "first_name" |};
       be_operator := "__eq__"; be_right := Scalar (SStr "Bea") |} ].

(** An update that sets the first name and, needlessly, [updated_at];
    the role is declared by the DTO but left unset. *)
Definition rename_bea : UpdateDto :=
  {| model_fields := list_to_map [("first_name", SStr "Beatriz"); ("role", SNone);
                                  ("updated_at", SInt 1)];
     model_fields_set := {[ "first_name"; "updated_at" ]} |}.

(** A stored user whose first name is empty, which the read DTO refuses. *)
Definition dora : Row := user "u4" "" "employee" 40.

Definition users_with_dora : list Row := [ana; dora; bea; cleo].

(** ** Vocabulary of the statements *)

(** The DTO a row maps to, if its mapping raises nothing. *)
Definition dto_of {DtoT : Type} (self : SqlAlchemyCrudFacade DtoT) (entity : Row)
  : option DtoT :=
  match _dto self entity with
  | inr dto => Some dto
  | inl _ => None
  end.

(** The row fails DTO validation: its mapping raises [ValidationError]. *)
Definition fails_validation {DtoT : Type} (self : SqlAlchemyCrudFacade DtoT) (entity : Row)
  : bool :=
  match _dto self entity with
  | inl (Py (ValidationError _)) => true
  | _ => false
  end.

(** The warning logged for a row that fails validation. *)
Definition validation_warning {DtoT : Type} (self : SqlAlchemyCrudFacade DtoT) (entity : Row)
  : option warning :=
  match _dto self entity with
  | inl (Py (ValidationError msg)) =>
      Some {| w_entity := entity; w_error := Py (ValidationError msg) |}
  | _ => None
  end.

(** How [get_sort_criteria] turns a token into a field name. *)
Definition sort_field_name (sort_name : string) : string :=
  py_replace (py_replace sort_name "-" "") "+" "".

Section Vocabulary.
Context `{Engine}.

(** The rows of the session that satisfy the criteria of a statement:
    the unpaginated, filtered set. *)
Definition matching_rows (session : list Row) (q : Select) : list Row :=
  where_rows (sel_where q) session.

(** [ORDER BY] the clauses; without clauses the rows stay as they are. *)
Definition ordered (clauses : list UnaryExpression) (rows : list Row) : list Row :=
  match clauses with
  | [] => rows
  | _ => order_rows clauses rows
  end.

(** [OFFSET] when it is positive, then [LIMIT] when it is at least 1. *)
Definition page (offset limit : Z) (rows : list Row) : list Row :=
  let rows := if 0 <? offset then drop (Z.to_nat offset) rows else rows in
  if 1 <=? limit then take (Z.to_nat limit) rows else rows.
End Vocabulary.

(** A statement with the pagination and the ordering of
    [_apply_paginated_query] put on. *)
Definition paginated (q : Select) (offset limit : Z) (clauses : list UnaryExpression)
  : Select :=
  {| sel_entity := sel_entity q; sel_options := sel_options q;
     sel_where := sel_where q;
     sel_offset := if 0 <? offset then Some offset else sel_offset q;
     sel_limit := if 1 <=? limit then Some limit else sel_limit q;
     sel_order_by := sel_order_by q ++ clauses |}.


(** * Properties *)

(** ** Splitting a filter key *)

Lemma py_split_go_cons (sep : string) (c : ascii) (rest : string) :
  py_split_go sep 0 (String c rest)
  = if String.prefix sep (String c rest)
    then "" :: py_split_go sep (String.length sep - 1) rest
    else cons_head c (py_split_go sep 0 rest).
Proof. reflexivity. Qed.


Lemma prefix_cons (a b : ascii) (s1 s2 : string) :
  String.prefix (String a s1) (String b s2)
  = if ascii_dec a b then String.prefix s1 s2 else false.
Proof. reflexivity. Qed.








(** [after_first_dunder] does cut the key at a [__]. *)
Lemma after_first_dunder_app (key suffix : string) :
  after_first_dunder key = Some suffix → ∃ name, key = name +:+ "__" +:+ suffix.
Proof.
  induction key as [|c rest IH]; [done|].
  cbn [after_first_dunder]. destruct rest as [|c' rest']; [done|].
  destruct (Ascii.eqb c "_" && Ascii.eqb c' "_")%bool eqn:E.
  - apply andb_true_iff in E as [->%Ascii.eqb_eq ->%Ascii.eqb_eq].
    intros [= ->]. by exists "".
  - intros Hs. destruct (IH Hs) as [name Hname]. exists (String c name).
    by rewrite Hname.
Qed.

Lemma registered_operators_dom : dom orm_operator_transformer = registered_operators.
Proof. reflexivity. Qed.


(** A key with two separators does not reach the operator table. *)
Example get_operator_two_separators :
  get_operator "created_at__gt__x" (SInt 3)
  = raise (Py (ValueError "too many values to unpack (expected 2)")).
Proof. reflexivity. Qed.

(** The [like] family wraps a value without wildcard and leaves one with a
    wildcard as it is. *)
Example get_operator_ilike :
  get_operator "first_name__ilike" (SStr "an")
  = mret ("ilike", "first_name", Scalar (SStr "%an%"))
  ∧ get_operator "first_name__ilike" (SStr "an%")
    = mret ("ilike", "first_name", Scalar (SStr "an%")).
Proof. split; reflexivity. Qed.


(** ** Sort compilation *)

Lemma prefix_nil (s : string) : String.prefix "" s = true.
Proof. by destruct s. Qed.



Lemma sort_clause_eq (model : Model) (sort_name : string) :
  sort_clause model sort_name
  = if has_attribute model (sort_field_name sort_name)
    then mret {| ue_element := {| attr_class := class_name model;
                                  attr_name := sort_field_name sort_name |};
                 ue_modifier := if py_startswith sort_name "-" then DESC else ASC |}
    else raise (Py (AttributeError
           ("type object '" +:+ class_name model +:+ "' has no attribute '"
              +:+ sort_field_name sort_name +:+ "'"))).
Proof.
  unfold sort_clause, getattr_model. fold (sort_field_name sort_name).
  by destruct (has_attribute model (sort_field_name sort_name)).
Qed.

Lemma get_sort_criteria_loop_eq (model : Model) (ordering_values : list string)
    (sorting : list UnaryExpression) :
  get_sort_criteria_loop model ordering_values sorting
  = mret (sorting ++ compile_sort_with sort_field_name model ordering_values)%list.
Proof.
  revert sorting. induction ordering_values as [|sort_name rest IH]; intros sorting.
  - simpl. by rewrite app_nil_r.
  - cbn [get_sort_criteria_loop]. rewrite sort_clause_eq.
    unfold compile_sort_with. cbn [omap list_omap]. fold (compile_sort_with sort_field_name model rest).
    destruct (has_attribute model (sort_field_name sort_name)); simpl.
    + rewrite IH. by rewrite <- app_assoc.
    + apply IH.
Qed.

(** Sort compilation never raises. *)
Lemma get_sort_criteria_eq (model : Model) (ordering_values : list string) :
  get_sort_criteria model ordering_values
  = mret (compile_sort_with sort_field_name model ordering_values).
Proof. unfold get_sort_criteria. by rewrite get_sort_criteria_loop_eq. Qed.







(** ** Queries *)

Section QueryProperties.
Context `{Engine}.
Variable self : SqlAlchemyRepository.

(** What [_get_filter_query] builds: the filter group, then the mandatory
    group, both combined by the same operator, [OR] when none is given. *)
Lemma _get_filter_query_inv mandatory filters operator query :
  _get_filter_query self mandatory filters operator = mret query →
  ∃ criteria joins mcriteria mjoins,
    get_criteria (model self) (default [] filters) = mret (criteria, joins)
    ∧ get_criteria (model self) (default [] mandatory) = mret (mcriteria, mjoins)
    ∧ query =
        q_filter
          (q_filter (q_options (select (model self)) (mjoins ++ joins))
             (if bool_decide (operator_or operator OR = OR) then or_ criteria else and_ criteria))
          (if bool_decide (operator_or operator OR = OR) then or_ mcriteria else and_ mcriteria).
Proof.
  unfold _get_filter_query, get_filter_criteria.
  destruct (get_criteria (model self) (default [] mandatory)) as [e|[mcriteria mjoins]];
    [done|].
  destruct (get_criteria (model self) (default [] filters)) as [e|[criteria joins]];
    [done|].
  simpl. intros [= <-]. by exists criteria, joins, mcriteria, mjoins.
Qed.

Lemma _get_filter_query_unpaginated mandatory filters operator query :
  _get_filter_query self mandatory filters operator = mret query →
  sel_offset query = None ∧ sel_limit query = None ∧ sel_order_by query = [].
Proof.
  intros Hquery. apply _get_filter_query_inv in Hquery.
  destruct Hquery as (? & ? & ? & ? & _ & _ & Hquery). by rewrite Hquery.
Qed.

Lemma _apply_paginated_query_eq query offset limit sort_by :
  _apply_paginated_query self query (Some offset) (Some limit) sort_by
  = mret (paginated query offset limit
            (compile_sort_with sort_field_name (model self) (default [] sort_by))).
Proof.
  unfold _apply_paginated_query. rewrite get_sort_criteria_eq.
  generalize (compile_sort_with sort_field_name (model self) (default [] sort_by)).
  intros clauses. unfold paginated, int_and_lt, int_truthy. destruct query. simpl.
  destruct (Z.eqb_spec offset 0), (Z.ltb_spec offset 0), (Z.ltb_spec 0 offset);
    try lia;
    destruct (Z.eqb_spec limit 0), (Z.ltb_spec limit 1), (Z.leb_spec 1 limit);
    try lia; simpl;
    repeat match goal with
           | |- context [Z.eqb ?x 0] => destruct (Z.eqb_spec x 0); try lia
           end;
    destruct clauses; simpl; by rewrite ?app_nil_r.
Qed.

Lemma session_scalars_all_unpaginated session query :
  sel_offset query = None → sel_limit query = None → sel_order_by query = [] →
  session_scalars_all session query = matching_rows session query.
Proof. unfold session_scalars_all. intros Ho Hl Hs. by rewrite Ho, Hl, Hs. Qed.

Lemma session_scalars_all_paginated session query offset limit clauses :
  sel_offset query = None → sel_limit query = None → sel_order_by query = [] →
  session_scalars_all session (paginated query offset limit clauses)
  = page offset limit (ordered clauses (matching_rows session query)).
Proof.
  unfold session_scalars_all, paginated, page, ordered, matching_rows.
  intros Ho Hl Hs. simpl. rewrite Ho, Hl, Hs. simpl.
  by destruct clauses, (0 <? offset), (1 <=? limit).
Qed.

Lemma ordered_perm clauses (rows : list Row) : ordered clauses rows ≡ₚ rows.
Proof. destruct clauses; [done|]. apply order_rows_perm. Qed.

(** The rows a repository query fetches: the matching rows, ordered, then
    cut to the page. *)
Lemma _get_query_rows session mandatory filters operator offset limit sort_by query :
  _get_filter_query self mandatory filters operator = mret query →
  ∃ paginated_query,
    _get_query self mandatory filters operator (Some offset) (Some limit) sort_by
    = mret paginated_query
    ∧ _apply_paginated_query self query (Some offset) (Some limit) sort_by
      = mret paginated_query
    ∧ sel_offset paginated_query = (if 0 <? offset then Some offset else None)
    ∧ sel_limit paginated_query = (if 1 <=? limit then Some limit else None)
    ∧ session_scalars_all session paginated_query
      = page offset limit
          (ordered (compile_sort_with sort_field_name (model self) (default [] sort_by))
             (matching_rows session query)).
Proof.
  intros Hquery. destruct (_get_filter_query_unpaginated _ _ _ _ Hquery) as (Ho & Hl & Hs).
  eexists. unfold _get_query. rewrite Hquery. simpl.
  rewrite _apply_paginated_query_eq. split; [done|]. split; [done|].
  rewrite session_scalars_all_paginated by done.
  unfold paginated. simpl. rewrite Ho, Hl. done.
Qed.
End QueryProperties.

Section PageProperties.
Context `{Engine}.

Lemma page_no_offset offset limit (rows : list Row) :
  offset ≤ 0 →
  page offset limit rows = if 1 <=? limit then take (Z.to_nat limit) rows else rows.
Proof. intros Ho. unfold page. destruct (Z.ltb_spec 0 offset); [lia|done]. Qed.




Lemma page_covering offset limit (rows : list Row) :
  offset ≤ 0 → limit < 1 ∨ Z.of_nat (length rows) ≤ limit → page offset limit rows = rows.
Proof.
  intros Ho Hl. rewrite page_no_offset by done.
  destruct (Z.leb_spec 1 limit); [|done]. apply take_ge. lia.
Qed.

Lemma head_page_no_offset offset limit (rows : list Row) :
  offset ≤ 0 → head (page offset limit rows) = head rows.
Proof.
  intros Ho. rewrite page_no_offset by done.
  destruct (Z.leb_spec 1 limit); [|done].
  destruct (Z.to_nat limit) eqn:E; [lia|]. by destruct rows.
Qed.
End PageProperties.

(** ** The repository *)

Section RepositoryTheorems.
Context `{Engine}.
Variable self : SqlAlchemyRepository.



End RepositoryTheorems.




(** With [limit=1], as [get_latest_by] calls it, [get_one_by_or_fail]
    returns the first of several matching rows: the newest here. *)
Example get_one_by_or_fail_limit_1 :
  get_one_by_or_fail (H:=sample_engine) UserCrudRepository users 0 1
    (Some ["-created_at"; "-updated_at"]) None None (role_is "employee")
  = mret cleo.
Proof. reflexivity. Qed.

(** With an offset past the matching rows [get_one_by] returns [None]. *)
Example get_one_by_offset_past_rows :
  Repository.get_one_by (H:=sample_engine) UserCrudRepository users 2 15
    None None None (role_is "employee")
  = mret None.
Proof. reflexivity. Qed.

(** ** The default combinator *)

Section DefaultCombinator.
Context `{Engine}.
Variable self : SqlAlchemyRepository.

(** C7, as the code has it.  Without a combinator argument the list paths
    ([get_all], [get_and_count], [count_by]) behave as with [OR], and the
    single-row paths ([get_one_by], [get_one_by_or_fail]) as with [AND].  The
    statement built has two criteria, the filter group and the mandatory
    group, each combined by that operator ([or_] when none is given), and
    both must hold. *)
Theorem default_combinator_by_path session offset limit sort_by mandatory kwargs :
  get_all self session offset limit sort_by None mandatory kwargs
  = get_all self session offset limit sort_by (Some OR) mandatory kwargs
  ∧ get_and_count self session offset limit sort_by None mandatory kwargs
    = get_and_count self session offset limit sort_by (Some OR) mandatory kwargs
  ∧ count_by self session None mandatory kwargs
    = count_by self session (Some OR) mandatory kwargs
  ∧ Repository.get_one_by self session offset limit sort_by None mandatory kwargs
    = Repository.get_one_by self session offset limit sort_by (Some AND) mandatory kwargs
  ∧ get_one_by_or_fail self session offset limit sort_by None mandatory kwargs
    = get_one_by_or_fail self session offset limit sort_by (Some AND) mandatory kwargs
  ∧ (∀ operator criteria joins mcriteria mjoins,
       get_criteria (model self) kwargs = mret (criteria, joins) →
       get_criteria (model self) (default [] mandatory) = mret (mcriteria, mjoins) →
       sel_where <$> _get_filter_query self mandatory (Some kwargs) operator
       = mret (match operator with
               | Some AND => [and_ criteria; and_ mcriteria]
               | Some OR | None => [or_ criteria; or_ mcriteria]
               end)).
Proof.
  repeat split; try reflexivity.
  intros operator criteria joins mcriteria mjoins Hcriteria Hmandatory.
  unfold _get_filter_query, get_filter_criteria.
  change (default [] (Some kwargs)) with kwargs.
  rewrite Hcriteria, Hmandatory. by destruct operator as [[]|].
Qed.
End DefaultCombinator.

Lemma default_combinator_by_path_witness :
  get_criteria DBUser admin_named_bea = mret (admin_named_bea_criteria, [])
  ∧ get_criteria DBUser (default [] None) = mret ([], [])
  ∧ sel_where <$> _get_filter_query UserCrudRepository None (Some admin_named_bea) None
    = mret [or_ admin_named_bea_criteria; or_ []].
Proof.
  split; [reflexivity|]. split; [reflexivity|].
  destruct (default_combinator_by_path (H:=sample_engine) UserCrudRepository users 0 15 None None
              admin_named_bea) as (_ & _ & _ & _ & _ & Hwhere).
  exact (Hwhere None admin_named_bea_criteria [] [] [] eq_refl eq_refl).
Defined.

(** In the row-wise reading an [and_] group holds when every predicate
    does, and an [or_] group with a predicate in it when one does. *)
Lemma eval_clause_and holds (clauses : list BinaryExpression) (row : Row) :
  eval_clause holds (and_ clauses) row = forallb (fun b => holds b row) clauses.
Proof. reflexivity. Qed.

Lemma eval_clause_or holds (clause : BinaryExpression) (clauses : list BinaryExpression)
    (row : Row) :
  eval_clause holds (or_ (clause :: clauses)) row
  = existsb (fun b => holds b row) (clause :: clauses).
Proof. reflexivity. Qed.

(** C7 as worded fails on the list paths: with criteria that no row meets
    together and no combinator given, [count_by], [get_all] and
    [get_and_count] answer with the rows that meet one of them, where the
    [AND] combination has none. *)
Lemma default_combinator_counterexample :
  sel_where <$> _get_filter_query UserCrudRepository None (Some admin_named_bea) None
  = mret [or_ admin_named_bea_criteria; or_ []]
  ∧ count_by (H:=sample_engine) UserCrudRepository users None None admin_named_bea = mret 2
  ∧ count_by (H:=sample_engine) UserCrudRepository users (Some AND) None admin_named_bea
    = mret 0
  ∧ get_all (H:=sample_engine) UserCrudRepository users 0 15 None None None admin_named_bea
    = mret [ana; bea]
  ∧ get_all (H:=sample_engine) UserCrudRepository users 0 15 None (Some AND) None
      admin_named_bea
    = mret []
  ∧ get_and_count (H:=sample_engine) UserCrudRepository users 0 15 None None None
      admin_named_bea
    = mret ([ana; bea], 2)
  ∧ get_and_count (H:=sample_engine) UserCrudRepository users 0 15 None None None
      admin_named_bea
    ≠ get_and_count (H:=sample_engine) UserCrudRepository users 0 15 None (Some AND) None
        admin_named_bea.
Proof. repeat split; try reflexivity. discriminate. Qed.

(** ** Lookup by key *)

Lemma get_by_key_or_fail_found (session : list Row) (key : scalar) (entity : Row) :
  get_by_key session key = Some entity → get_by_key_or_fail session key = mret entity.
Proof. unfold get_by_key_or_fail. by intros ->. Qed.

Lemma get_by_key_Some (session : list Row) (key : scalar) (entity : Row) :
  get_by_key session key = Some entity → entity ∈ session ∧ entity_id entity = key.
Proof.
  unfold get_by_key, session_get. intros Hfind. apply find_some in Hfind as [Hin Hid].
  split; [by apply list_elem_of_In|]. by apply bool_decide_eq_true in Hid.
Qed.

(** C3, where the code departs from it.  For a key with no row
    [get_by_key_or_fail] raises a [TypeError] (its [raise] is given a tuple,
    not a [ResourceMissingError]), so no [ResourceMissingError] comes out of
    it, and the facade's [get] reports the generic [ResourceError]. *)
Theorem get_by_key_or_fail_missing_raises_TypeError
    {DtoT : Type} (facade : SqlAlchemyCrudFacade DtoT) (session : list Row) (key : scalar) :
  get_by_key session key = None →
  get_by_key_or_fail session key
  = raise (Py (TypeError "exceptions must derive from BaseException"))
  ∧ (∀ resource params,
       get_by_key_or_fail session key ≠ raise (ResourceMissingError resource params))
  ∧ Facade.get facade session key
    = raise (ResourceError (resource (_repository facade))
               "exceptions must derive from BaseException").
Proof.
  intros Hmissing. unfold Facade.get, Facade.decorated, db_catch_exception,
    Facade._mapping_key_from_dto_to_entity, get_by_key_or_fail.
  rewrite Hmissing. done.
Qed.

Lemma get_by_key_or_fail_missing_raises_TypeError_witness :
  get_by_key users (SStr "u9") = None
  ∧ get_by_key_or_fail users (SStr "u9")
    = raise (Py (TypeError "exceptions must derive from BaseException"))
  ∧ Facade.get UserCrudFacade users (SStr "u9")
    = raise (ResourceError "user" "exceptions must derive from BaseException").
Proof.
  split; [reflexivity|].
  destruct (get_by_key_or_fail_missing_raises_TypeError UserCrudFacade users (SStr "u9") eq_refl)
    as (Hraise & _ & Hfacade).
  split; [exact Hraise|exact Hfacade].
Defined.

(** ** The error boundary *)



Section FacadeBoundary.
Context `{Engine} {DtoT : Type}.
Variable self : SqlAlchemyCrudFacade DtoT.

Lemma decorated_eq {T : Type} (body : Result T) :
  Facade.decorated self body
  = match body with
    | inr result => mret result
    | inl error =>
        if isinstance_ArqueaError error then raise error
        else raise (ResourceError (resource (_repository self)) (py_str_exn error))
    end.
Proof. reflexivity. Qed.

Lemma decorated_raises_only_ArqueaError {T : Type} (body : Result T) (error : exn) :
  Facade.decorated self body = raise error → isinstance_ArqueaError error = true.
Proof.
  rewrite decorated_eq. destruct body as [e|result]; [|done].
  destruct (isinstance_ArqueaError e) eqn:Harquea; intros [= <-]; done.
Qed.

(** Every facade operation of the model raises [ArqueaError]s only. *)
Lemma facade_operations_raise_only_ArqueaError session utc_now key data pagination sort_by
    operator mandatory kwargs (error : exn) :
  (Facade.get self session key = raise error
   ∨ Facade.get_raw_list self session pagination sort_by operator mandatory kwargs = raise error
   ∨ Facade.get_raw_paginated self session pagination sort_by operator mandatory kwargs
     = raise error
   ∨ Facade.get_one_by self session kwargs = raise error
   ∨ Facade.get_latest_by self session kwargs = raise error
   ∨ (Facade.get_list self session pagination sort_by operator mandatory kwargs).1 = raise error
   ∨ (Facade.get_paginated self session pagination sort_by operator mandatory kwargs).1
     = raise error
   ∨ (Facade.update self session utc_now key data).2 = raise error
   ∨ (Facade.update_one_by self session utc_now data kwargs).2 = raise error
   ∨ (Facade.delete self session key).2 = raise error
   ∨ (Facade.delete_one_by self session kwargs).2 = raise error
   ∨ (Facade.delete_paginated self session operator kwargs).1.2 = raise error) →
  isinstance_ArqueaError error = true.
Proof.
  intros Hraise.
  repeat (destruct Hraise as [Hraise|Hraise]);
    revert Hraise;
    unfold Facade.get, Facade.get_raw_list, Facade.get_raw_paginated,
      Facade.get_one_by, Facade.get_latest_by, Facade.get_list,
      Facade.get_paginated, Facade.update, Facade.update_one_by, Facade.delete,
      Facade.delete_one_by, Facade.delete_paginated;
    repeat match goal with
           | |- context [let '(_, _) := ?x in _] => destruct x
           | |- context [match ?x with _ => _ end] =>
               lazymatch x with
               | Facade.decorated _ _ => fail
               | _ => destruct x
               end
           end;
    cbn [fst snd]; apply decorated_raises_only_ArqueaError.
Qed.
End FacadeBoundary.

(** ** Partial update *)

Lemma model_dump_exclude_unset_unset (data : UpdateDto) (field : string) :
  field ∉ model_fields_set data → model_dump_exclude_unset data !! field = None.
Proof.
  intros Hunset. unfold model_dump_exclude_unset.
  apply map_lookup_filter_None_2. right. intros v _. exact Hunset.
Qed.

Lemma model_dump_exclude_unset_set (data : UpdateDto) (field : string) (v : scalar) :
  field ∈ model_fields_set data → model_fields data !! field = Some v →
  model_dump_exclude_unset data !! field = Some v.
Proof.
  intros Hset Hfield. unfold model_dump_exclude_unset.
  by apply map_lookup_filter_Some_2.
Qed.

Lemma model_dump_exclude_unset_Some (data : UpdateDto) (field : string) (v : scalar) :
  model_dump_exclude_unset data !! field = Some v → field ∈ model_fields_set data.
Proof.
  unfold model_dump_exclude_unset. intros Hfield.
  by apply map_lookup_filter_Some_1_2 in Hfield.
Qed.

Lemma unconsumed_nil (model : Model) (kwargs : gmap string scalar) :
  (∀ field, is_Some (kwargs !! field) → field ∈ columns model) →
  unconsumed model kwargs = [].
Proof.
  intros Hcolumns. unfold unconsumed.
  assert (Forall (fun k => k ∈ columns model) (map_to_list kwargs).*1) as Hkeys.
  { apply Forall_forall. intros k Hk. apply Hcolumns.
    apply list_elem_of_fmap in Hk as [[k' v] [-> Hkv]].
    apply elem_of_map_to_list in Hkv. eauto. }
  induction Hkeys as [|k keys Hk _ IH]; [done|].
  cbn [List.filter]. rewrite IH.
  assert (existsb (String.eqb k) (columns model) = true) as ->; [|done].
  apply existsb_exists. exists k. split; [by apply list_elem_of_In|apply String.eqb_refl].
Qed.

Lemma execute_update_rows (model : Model) (session : list Row) (key : scalar)
    (kwargs : gmap string scalar) :
  (execute_update model session key kwargs).1
  = match unconsumed model kwargs with
    | [] => (fun r => if bool_decide (entity_id r = key) then kwargs ∪ r else r) <$> session
    | _ => session
    end.
Proof. unfold execute_update. by destruct (unconsumed model kwargs). Qed.

Lemma update_by_key_rows (self : SqlAlchemyRepository) (session : list Row)
    (utc_now key : scalar) (data : gmap string scalar) :
  (update_by_key self session utc_now key data).1
  = (execute_update (model self) session key (<["updated_at" := utc_now]> data)).1.
Proof.
  unfold update_by_key.
  by destruct (execute_update (model self) session key (<["updated_at" := utc_now]> data))
    as [session' [e|[]]].
Qed.

Section PartialUpdate.
Context {DtoT : Type}.
Variable self : SqlAlchemyCrudFacade DtoT.

(** C8. After [update(key, data)] the table has the same rows in the same
    places, and in every row every field that [data] did not set, other
    than [updated_at], has the value it had; rows with another key are not
    touched at all.  When the fields set are columns of the entity the
    write goes through: the row with the key has [updated_at] at the
    current time, whatever [data] holds for it, and every other field that
    was set has the value given. *)
Theorem update_writes_only_set_fields (session : list Row) (utc_now key : scalar)
    (data : UpdateDto) :
  let session' := (Facade.update self session utc_now key data).1 in
  length session' = length session
  ∧ ∀ i row, session !! i = Some row →
      ∃ row', session' !! i = Some row'
        ∧ (∀ field, field ∉ model_fields_set data → field ≠ "updated_at" →
             row' !! field = row !! field)
        ∧ (entity_id row ≠ key → row' = row)
        ∧ (entity_id row = key →
           "updated_at" ∈ columns (model (_repository self)) →
           (∀ field, field ∈ model_fields_set data →
              field ∈ columns (model (_repository self))) →
           row' !! "updated_at" = Some utc_now
           ∧ ∀ field v, field ∈ model_fields_set data → field ≠ "updated_at" →
               model_fields data !! field = Some v → row' !! field = Some v).
Proof.
  intros session'.
  assert (session' = (execute_update (model (_repository self)) session key
                        (<["updated_at" := utc_now]> (model_dump_exclude_unset data))).1)
    as Hsession.
  { unfold session', Facade.update, Facade._mapping_from_dto_update_to_dict,
      Facade._mapping_key_from_dto_to_entity.
    rewrite <- update_by_key_rows.
    by destruct (update_by_key (_repository self) session utc_now key
                   (model_dump_exclude_unset data)). }
  rewrite execute_update_rows in Hsession.
  set (kwargs := <["updated_at" := utc_now]> (model_dump_exclude_unset data)) in *.
  assert (∀ field, field ∉ model_fields_set data → field ≠ "updated_at" →
            kwargs !! field = None) as Hframe.
  { intros field Hunset Hfield. unfold kwargs.
    rewrite lookup_insert_ne by done. by apply model_dump_exclude_unset_unset. }
  destruct (unconsumed (model (_repository self)) kwargs) as [|name names] eqn:Hunconsumed.
  - rewrite Hsession. split; [by rewrite length_fmap|].
    intros i row Hrow. rewrite list_lookup_fmap, Hrow. simpl.
    eexists. split; [done|].
    destruct (bool_decide_reflect (entity_id row = key)) as [Hkey|Hkey].
    + split; [|split; [done|]].
      * intros field Hunset Hfield. by rewrite lookup_union_r by auto.
      * intros _ _ _. split.
        -- apply lookup_union_Some_l. unfold kwargs. apply lookup_insert_eq.
        -- intros field v Hset Hfield Hvalue. apply lookup_union_Some_l.
           unfold kwargs. rewrite lookup_insert_ne by done.
           by apply model_dump_exclude_unset_set.
    + split; [done|]. split; [done|]. done.
  - rewrite Hsession. split; [done|].
    intros i row Hrow. exists row. split; [done|]. split; [done|]. split; [done|].
    intros _ Hstamp Hcolumns. exfalso.
    assert (unconsumed (model (_repository self)) kwargs = []) as Hnil; [|congruence].
    apply unconsumed_nil. intros field [v Hfield]. unfold kwargs in Hfield.
    destruct (decide (field = "updated_at")) as [->|Hne]; [done|].
    rewrite lookup_insert_ne in Hfield by done.
    eapply Hcolumns, model_dump_exclude_unset_Some, Hfield.
Qed.
End PartialUpdate.

Lemma update_writes_only_set_fields_witness :
  users !! 1%nat = Some bea
  ∧ entity_id bea = SStr "u2"
  ∧ "updated_at" ∈ columns DBUser
  ∧ (∀ field, field ∈ model_fields_set rename_bea → field ∈ columns DBUser)
  ∧ ∃ row',
      (Facade.update UserCrudFacade users (SInt 99) (SStr "u2") rename_bea).1 !! 1%nat
      = Some row'
      ∧ (∀ field, field ∉ model_fields_set rename_bea → field ≠ "updated_at" →
           row' !! field = bea !! field)
      ∧ row' !! "updated_at" = Some (SInt 99)
      ∧ row' !! "first_name" = Some (SStr "Beatriz").
Proof.
  assert ("updated_at" ∈ columns DBUser) as Hstamp.
  { apply (bool_decide_unpack _). reflexivity. }
  assert (∀ field, field ∈ model_fields_set rename_bea → field ∈ columns DBUser)
    as Hcolumns.
  { intros field Hfield. unfold rename_bea in Hfield. simpl in Hfield.
    apply elem_of_union in Hfield as [Hfield|Hfield];
      apply elem_of_singleton in Hfield; subst field;
      apply (bool_decide_unpack _); reflexivity. }
  split; [reflexivity|]. split; [reflexivity|]. split; [exact Hstamp|].
  split; [exact Hcolumns|].
  destruct (update_writes_only_set_fields UserCrudFacade users (SInt 99) (SStr "u2") rename_bea)
    as [_ Hrows].
  destruct (Hrows 1%nat bea eq_refl) as (row' & Hrow' & Hframe & _ & Hwritten).
  destruct (Hwritten eq_refl Hstamp Hcolumns) as [Hnow Hset].
  exists row'. split; [exact Hrow'|]. split; [exact Hframe|]. split; [exact Hnow|].
  apply Hset; [|done|reflexivity].
  apply elem_of_union_l, elem_of_singleton. reflexivity.
Defined.

(** The same update, run: only the first name and the time stamp change. *)
Example update_rename_bea :
  (Facade.update UserCrudFacade users (SInt 99) (SStr "u2") rename_bea).1
  = [ana; <["updated_at" := SInt 99]> (<["first_name" := SStr "Beatriz"]> bea); cleo].
Proof. vm_compute. reflexivity. Qed.

(** ** Tolerant list mapping *)


Section TolerantMapping.
Context `{Engine} {DtoT : Type}.
Variable self : SqlAlchemyCrudFacade DtoT.

Lemma get_and_count_eq session offset limit sort_by operator mandatory kwargs query :
  _get_filter_query (_repository self) mandatory (Some kwargs) operator = mret query →
  get_and_count (_repository self) session offset limit sort_by operator mandatory kwargs
  = mret (page offset limit
            (ordered (compile_sort_with sort_field_name (model (_repository self))
                        (default [] sort_by))
               (matching_rows session query)),
          Z.of_nat (length (matching_rows session query))).
Proof.
  intros Hquery.
  destruct (_get_query_rows (_repository self) session _ _ _ offset limit sort_by _ Hquery)
    as (pq & _ & Hpq & _ & _ & Hrows).
  destruct (_get_filter_query_unpaginated (_repository self) _ _ _ _ Hquery)
    as (Hbo & Hbl & Hbs).
  unfold get_and_count. rewrite Hquery. simpl. rewrite Hpq. simpl.
  unfold session_scalar_count.
  by rewrite Hrows, (session_scalars_all_unpaginated session query Hbo Hbl Hbs).
Qed.

(** When mapping raises nothing but [ValidationError], the comprehension
    of [get_list] yields the DTOs of the rows that validate, in order, and
    logs one warning for each of the others. *)
Lemma map_entities_or_none_tolerant (entities : list Row) :
  Forall (fun r => is_Some (dto_of self r) ∨ fails_validation self r = true) entities →
  Facade.map_entities_or_none self entities
  = (mret (omap (dto_of self) entities), omap (validation_warning self) entities).
Proof.
  induction 1 as [|entity rest Hentity _ IH]; [done|].
  cbn [Facade.map_entities_or_none omap list_omap].
  unfold Facade._mapping_from_entity_to_dto_or_none, Facade._mapping_from_entity_to_dto.
  unfold dto_of, fails_validation, validation_warning in *.
  destruct (_dto self entity) as [[[]| | | |]|dto]; rewrite IH;
    try done; by destruct Hentity as [[? ?]|?].
Qed.

Lemma validated_and_failed_length (entities : list Row) :
  Forall (fun r => is_Some (dto_of self r) ∨ fails_validation self r = true) entities →
  (length (omap (dto_of self) entities)
   + length (List.filter (fails_validation self) entities))%nat
  = length entities.
Proof.
  induction 1 as [|entity rest Hentity _ IH]; [done|].
  cbn [omap list_omap List.filter]. unfold dto_of, fails_validation in *.
  destruct (_dto self entity) as [[[]| | | |]|dto]; simpl; try lia;
    by destruct Hentity as [[? ?]|?].
Qed.


(** On any page: the DTOs of the rows of the page that validate, one
    warning for each of the others, and the count of all matching rows. *)
Lemma get_list_page session pagination sort_by operator mandatory kwargs query entities total :
  _get_filter_query (_repository self) mandatory (Some kwargs) operator = mret query →
  get_and_count (_repository self) session
    (pf_offset (default Facade._default_pagination pagination))
    (pf_limit (default Facade._default_pagination pagination))
    (Some (sort (match sort_by with
                 | None => Facade._default_sort_by
                 | Some s => match sort s with [] => Facade._default_sort_by | _ => s end
                 end)))
    operator mandatory kwargs
  = mret (entities, total) →
  Forall (fun r => is_Some (dto_of self r) ∨ fails_validation self r = true) entities →
  Facade.get_list self session pagination sort_by operator mandatory kwargs
  = (mret (omap (dto_of self) entities, Z.of_nat (length (matching_rows session query))),
     omap (validation_warning self) entities)
  ∧ (length (omap (dto_of self) entities)
     + length (List.filter (fails_validation self) entities))%nat
    = length entities.
Proof.
  intros Hquery Hfetch Hmapping. split; [|by apply validated_and_failed_length].
  unfold Facade.get_list. rewrite Hfetch.
  rewrite (get_and_count_eq _ _ _ _ _ _ _ _ Hquery) in Hfetch.
  injection Hfetch as _ <-.
  cbv beta iota delta [mret Result_ret].
  by rewrite (map_entities_or_none_tolerant entities Hmapping).
Qed.

End TolerantMapping.


(** The list of the example, run: three employees match, Dora is dropped
    and logged, and the total stays 3. *)
Example get_list_users_with_dora :
  Facade.get_list (H:=sample_engine) UserCrudFacade users_with_dora None None None None
    (role_is "employee")
  = (mret ([cleo; bea], 3),
     [ {| w_entity := dora; w_error := Py (ValidationError "first_name: empty") |} ]).
Proof. vm_compute. reflexivity. Qed.

(** On a page of one row the list holds what that page holds: here the
    only row fetched is the invalid one, and the total is still 3. *)
Example get_list_page_of_one :
  Facade.get_list (H:=sample_engine) UserCrudFacade users_with_dora
    (Some {| pf_offset := 0; pf_limit := 1 |}) None None None (role_is "employee")
  = (mret ([], 3),
     [ {| w_entity := dora; w_error := Py (ValidationError "first_name: empty") |} ]).
Proof. vm_compute. reflexivity. Qed.

(** * Further properties of the code *)

(** ** Keys with a separator in them *)

Lemma append_nil (b : string) : "" +:+ b = b.
Proof. reflexivity. Qed.

Lemma append_cons (x : ascii) (a b : string) : String x a +:+ b = String x (a +:+ b).
Proof. reflexivity. Qed.

Lemma append_assoc (a b c : string) : (a +:+ b) +:+ c = a +:+ (b +:+ c).
Proof.
  induction a as [|x a IH]; [done|]. rewrite !append_cons. f_equal. exact IH.
Qed.

Lemma length_append (a b : string) :
  String.length (a +:+ b) = (String.length a + String.length b)%nat.
Proof.
  induction a as [|x a IH]; [done|]. rewrite append_cons. simpl. f_equal. exact IH.
Qed.

Lemma prefix_append (sep rest : string) : String.prefix sep (sep +:+ rest) = true.
Proof.
  induction sep as [|c sep IH]; [apply prefix_nil|].
  rewrite append_cons, prefix_cons. by destruct (ascii_dec c c).
Qed.

(** Whether [sep] starts a text is settled by the first [length sep]
    characters of the text. *)
Lemma prefix_append_long (sep x y : string) :
  (String.length sep ≤ String.length x)%nat →
  String.prefix sep (x +:+ y) = String.prefix sep x.
Proof.
  revert x. induction sep as [|c sep IH]; intros x Hlen.
  - by rewrite !prefix_nil.
  - destruct x as [|d x]; [simpl in Hlen; lia|].
    rewrite append_cons, !prefix_cons.
    destruct (ascii_dec c d); [|done]. apply IH. simpl in Hlen. lia.
Qed.

Lemma py_split_go_skip (sep passed rest : string) :
  py_split_go sep (String.length passed) (passed +:+ rest) = py_split_go sep 0 rest.
Proof. induction passed as [|c passed IH]; [done|]. exact IH. Qed.

Lemma py_in_cons (sep : string) (c : ascii) (s : string) :
  py_in sep (String c s) = String.prefix sep (String c s) || py_in sep s.
Proof. reflexivity. Qed.

Lemma py_in_append (sep before after : string) :
  py_in sep (before +:+ sep +:+ after) = true.
Proof.
  induction before as [|c before IH].
  - rewrite append_nil. destruct (sep +:+ after) eqn:E.
    + destruct sep; [done|discriminate].
    + rewrite py_in_cons, <- E, prefix_append. done.
  - rewrite append_cons, py_in_cons, IH. apply orb_true_r.
Qed.

(** A key splits at the separator where it first occurs: when no separator
    starts inside [before], not even one that runs into the separator
    written after it, the first part is [before]. *)
Lemma py_split_append (sep_init : string) (last : ascii) (before after : string) :
  py_in (sep_init +:+ String last "") (before +:+ sep_init) = false →
  py_split (before +:+ (sep_init +:+ String last "") +:+ after) (sep_init +:+ String last "")
  = before :: py_split after (sep_init +:+ String last "").
Proof.
  set (sep := sep_init +:+ String last "").
  assert (String.length sep = S (String.length sep_init)) as Hlen.
  { unfold sep. rewrite length_append. simpl. lia. }
  unfold py_split. induction before as [|c before IH]; intros Hfree.
  - rewrite append_nil.
    destruct sep as [|s0 sep'] eqn:Esep; [simpl in Hlen; lia|].
    rewrite append_cons, py_split_go_cons, <- append_cons, prefix_append. f_equal.
    replace (String.length (String s0 sep') - 1)%nat with (String.length sep')
      by (simpl; lia).
    apply py_split_go_skip.
  - rewrite append_cons in Hfree. rewrite py_in_cons in Hfree.
    apply orb_false_elim in Hfree as [Hhere Hfree].
    rewrite append_cons, py_split_go_cons.
    assert (String.prefix sep (String c (before +:+ sep +:+ after)) = false) as ->.
    { rewrite <- Hhere. unfold sep at 2.
      replace (String c (before +:+ (sep_init +:+ String last "") +:+ after))
        with (String c (before +:+ sep_init) +:+ (String last "" +:+ after))
        by (by rewrite append_cons, !append_assoc).
      apply prefix_append_long. simpl. rewrite length_append. lia. }
    by rewrite (IH Hfree).
Qed.

Lemma py_split_no_sep (sep s : string) : py_in sep s = false → py_split s sep = [s].
Proof.
  unfold py_split. induction s as [|c s IH]; [done|].
  rewrite py_in_cons. intros [Hp Hin]%orb_false_elim.
  rewrite py_split_go_cons, Hp, (IH Hin). done.
Qed.

Lemma py_in_percent_wrapped (s : string) : py_in "%" ("%" +:+ s +:+ "%") = true.
Proof.
  change ("%" +:+ s +:+ "%") with (String "%" (s +:+ "%")).
  rewrite py_in_cons, prefix_cons. simpl. by rewrite prefix_nil.
Qed.

(** ** The operator table *)

(** X1. The wildcard helper of [like] and [ilike] is idempotent: what it
    returns it returns unchanged when applied again, and a text it returns
    holds a wildcard. *)
Theorem like_value_idempotent (value value' : Any) :
  _backward_compatible_value_for_like_and_ilike value = mret value' →
  _backward_compatible_value_for_like_and_ilike value' = mret value'
  ∧ (∀ s, value' = Scalar (SStr s) → py_in "%" s = true).
Proof.
  destruct value as [[| b | n | s] | xs]; simpl; try done.
  - destruct (py_in "%" s) eqn:Hin; simpl; intros [= <-].
    + simpl. rewrite Hin. simpl. split; [done|]. by intros ? [= <-].
    + cbn [_backward_compatible_value_for_like_and_ilike].
      rewrite py_in_percent_wrapped. simpl. split; [done|].
      intros ? [= <-]. apply py_in_percent_wrapped.
  - destruct (bool_decide (SStr "%" ∈ xs)) eqn:Hin; simpl; intros [= <-].
    + simpl. rewrite Hin. simpl. split; [done|]. by intros ? [=].
    + cbn [_backward_compatible_value_for_like_and_ilike].
      rewrite py_in_percent_wrapped. simpl. split; [done|].
      intros ? [= <-]. apply py_in_percent_wrapped.
Qed.

Lemma like_value_idempotent_witness :
  _backward_compatible_value_for_like_and_ilike (Scalar (SStr "an"))
  = mret (Scalar (SStr "%an%"))
  ∧ _backward_compatible_value_for_like_and_ilike (Scalar (SStr "%an%"))
    = mret (Scalar (SStr "%an%"))
  ∧ py_in "%" "%an%" = true.
Proof.
  split; [reflexivity|].
  destruct (like_value_idempotent (Scalar (SStr "an")) (Scalar (SStr "%an%")) eq_refl)
    as [Hagain Hwild].
  split; [exact Hagain|]. exact (Hwild "%an%" eq_refl).
Defined.

Lemma registered_operator_no_dunder (op : string) :
  op ∈ registered_operators → py_in "__" op = false.
Proof.
  unfold registered_operators. rewrite !elem_of_union, !elem_of_singleton.
  intros H. repeat (destruct H as [H|H]); by subst.
Qed.

(** A key made of a field name, the separator and an operator splits into
    the two, when no separator starts inside the name or at its end. *)
Lemma py_split_name_operator (name op : string) :
  py_in "__" (name +:+ "_") = false →
  py_in "__" op = false →
  py_in "__" (name +:+ "__" +:+ op) = true
  ∧ py_split (name +:+ "__" +:+ op) "__" = [name; op].
Proof.
  intros Hname Hop. split; [apply py_in_append|].
  assert (py_split (name +:+ "__" +:+ op) "__" = name :: py_split op "__") as ->
    by exact (py_split_append "_" "_" name op Hname).
  by rewrite (py_split_no_sep "__" op Hop).
Qed.

(** X2. On a key [name__op] whose operator is registered, and whose name
    holds no separator and does not end in an underscore, [get_operator]
    hands the value to the operator's entry of the table and returns the
    name as the field.  Only [like] and [ilike] can raise; the comparison,
    membership and negation operators return the value as given. *)
Theorem get_operator_registered (name op : string) (value : Any)
    (transform : Any → Result (string * Any)) :
  py_in "__" (name +:+ "_") = false →
  orm_operator_transformer !! op = Some transform →
  get_operator (name +:+ "__" +:+ op) value
  = ('(method, v) ← transform value; mret (method, name, v))
  ∧ (op ∉ ["like"; "ilike"] →
     ∃ method v, get_operator (name +:+ "__" +:+ op) value = mret (method, name, v))
  ∧ (op ∈ ["neq"; "gt"; "gte"; "lt"; "lte"; "in"; "not"; "not_in"] →
     ∃ method, get_operator (name +:+ "__" +:+ op) value = mret (method, name, value)).
Proof.
  intros Hname Hop.
  assert (op ∈ registered_operators) as Hreg.
  { rewrite <- registered_operators_dom. by apply elem_of_dom_2 in Hop. }
  destruct (py_split_name_operator name op Hname (registered_operator_no_dunder op Hreg))
    as [Hin Hsplit].
  assert (get_operator (name +:+ "__" +:+ op) value
          = ('(method, v) ← transform value; mret (method, name, v))) as Hget.
  { unfold get_operator. rewrite Hin, Hsplit. simpl. rewrite Hop.
    by destruct (transform value) as [e|[method v]]. }
  split; [exact Hget|]. rewrite Hget. clear Hget Hin Hsplit Hname Hreg.
  unfold orm_operator_transformer in Hop. apply elem_of_list_to_map_2 in Hop.
  rewrite !elem_of_cons, elem_of_nil in Hop.
  split.
  - intros Hlike.
    repeat (destruct Hop as [Hop|Hop]); try done; injection Hop as -> ->;
      try (by eexists _, _);
      try (destruct (is_True value); by eexists _, _);
      exfalso; apply Hlike; rewrite !elem_of_cons; auto.
  - intros Hplain.
    repeat (destruct Hop as [Hop|Hop]); try done; injection Hop as -> ->;
      try (by eexists);
      exfalso; revert Hplain; rewrite !elem_of_cons, elem_of_nil; intros H;
      repeat (destruct H as [H|H]); done.
Qed.

Lemma get_operator_registered_witness :
  py_in "__" ("created_at" +:+ "_") = false
  ∧ get_operator "created_at__gte" (SInt 3) = mret ("__ge__", "created_at", Scalar (SInt 3))
  ∧ ∃ method, get_operator "created_at__gte" (SInt 3) = mret (method, "created_at", Scalar (SInt 3)).
Proof.
  split; [reflexivity|].
  destruct (get_operator_registered "created_at" "gte" (SInt 3)
              (fun value => mret ("__ge__", value)) eq_refl eq_refl)
    as (Hget & _ & Hplain).
  split; [exact Hget|]. apply Hplain. rewrite !elem_of_cons. auto.
Defined.

(** ** Compiling a collection of filters *)

Lemma get_criteria_loop_acc (model : Model) (filters : list (string * Any))
    (criteria : list BinaryExpression) (joins : list Load) :
  get_criteria_loop model filters criteria joins
  = ('(c, j) ← get_criteria_loop model filters [] [];
     mret ((criteria ++ c)%list, (joins ++ j)%list)).
Proof.
  revert criteria joins. induction filters as [|[name value] rest IH]; intros criteria joins.
  - simpl. by rewrite !app_nil_r.
  - cbn [get_criteria_loop]. destruct (py_in "___" name).
    + destruct (get_join_column_criteria model name value) as [e|[cc cl]]; [done|].
      simpl. rewrite (IH (criteria ++ [cc])%list (joins ++ [cl])%list), (IH [cc] [cl]).
      destruct (get_criteria_loop model rest [] []) as [e|[c j]]; [done|].
      simpl. by rewrite <- !app_assoc.
    + destruct (get_column_criteria model name value) as [e|cc]; [done|].
      simpl. rewrite (IH (criteria ++ [cc])%list joins), (IH [cc] []).
      destruct (get_criteria_loop model rest [] []) as [e|[c j]]; [done|].
      simpl. by rewrite <- !app_assoc.
Qed.

(** X3. Filters compile one after the other: the criteria of two
    collections put end to end are the criteria of the first followed by
    those of the second, and likewise the loader options; an error in the
    first collection is raised before the second is looked at. *)
Theorem get_criteria_app (model : Model) (filters1 filters2 : list (string * Any)) :
  get_criteria model (filters1 ++ filters2)
  = ('(c1, j1) ← get_criteria model filters1;
     '(c2, j2) ← get_criteria model filters2;
     mret ((c1 ++ c2)%list, (j1 ++ j2)%list)).
Proof.
  unfold get_criteria. induction filters1 as [|[name value] rest IH].
  - simpl. by destruct (get_criteria_loop model filters2 [] []) as [e|[c j]].
  - change (((name, value) :: rest) ++ filters2)%list
      with ((name, value) :: (rest ++ filters2))%list.
    cbn [get_criteria_loop]. destruct (py_in "___" name).
    + destruct (get_join_column_criteria model name value) as [e|[cc cl]]; [done|].
      simpl. rewrite (get_criteria_loop_acc model (rest ++ filters2)), IH.
      rewrite (get_criteria_loop_acc model rest [cc] [cl]).
      destruct (get_criteria_loop model rest [] []) as [e|[c1 j1]]; [done|]. simpl.
      destruct (get_criteria_loop model filters2 [] []) as [e|[c2 j2]]; [done|]. simpl.
      by rewrite <- ?app_assoc.
    + destruct (get_column_criteria model name value) as [e|cc]; [done|].
      simpl. rewrite (get_criteria_loop_acc model (rest ++ filters2)), IH.
      rewrite (get_criteria_loop_acc model rest [cc] []).
      destruct (get_criteria_loop model rest [] []) as [e|[c1 j1]]; [done|]. simpl.
      destruct (get_criteria_loop model filters2 [] []) as [e|[c2 j2]]; [done|]. simpl.
      by rewrite <- ?app_assoc.
Qed.

(** X4. A collection of filters that compiles gives one criterion per
    filter, in the order of the filters, and one loader option per filter
    whose key holds the join separator. *)
Theorem get_criteria_lengths (model : Model) (filters : list (string * Any))
    (criteria : list BinaryExpression) (joins : list Load) :
  get_criteria model filters = mret (criteria, joins) →
  length criteria = length filters
  ∧ length joins = length (List.filter (fun kv => py_in "___" (fst kv)) filters).
Proof.
  unfold get_criteria. revert criteria joins.
  induction filters as [|[name value] rest IH]; intros criteria joins.
  - by intros [= <- <-].
  - cbn [get_criteria_loop List.filter fst]. destruct (py_in "___" name).
    + destruct (get_join_column_criteria model name value) as [e|[cc cl]]; [done|].
      simpl. rewrite get_criteria_loop_acc.
      destruct (get_criteria_loop model rest [] []) as [e|[c j]]; [done|].
      simpl. intros [= <- <-]. destruct (IH c j eq_refl) as [Hc Hj].
      simpl. by rewrite Hc, Hj.
    + destruct (get_column_criteria model name value) as [e|cc]; [done|].
      simpl. rewrite get_criteria_loop_acc.
      destruct (get_criteria_loop model rest [] []) as [e|[c j]]; [done|].
      simpl. intros [= <- <-]. destruct (IH c j eq_refl) as [Hc Hj].
      simpl. by rewrite Hc, Hj.
Qed.

Lemma get_criteria_lengths_witness :
  ∃ criteria joins,
    get_criteria DBUserJoin
      [("status", Scalar (SStr "active"));
       ("insurance_provider_quote___id__in", Seq [SStr "q1"; SStr "q2"]);
       ("revision__gte", Scalar (SInt 2))]
    = mret (criteria, joins)
    ∧ length criteria = 3%nat ∧ length joins = 1%nat.
Proof.
  eexists _, _. split; [reflexivity|].
  exact (get_criteria_lengths DBUserJoin
           [("status", Scalar (SStr "active"));
            ("insurance_provider_quote___id__in", Seq [SStr "q1"; SStr "q2"]);
            ("revision__gte", Scalar (SInt 2))] _ _ eq_refl).
Defined.

(** ** Filters on a related class *)

(** X5. A key [rel___key] filters on the class related through [rel]:
    [rel] has to be a relationship of the model, or [AttributeError] is
    raised, and its loading strategy has to be [joined] or [selectin], or
    [KeyError] is raised on the strategy (the default strategy, [select],
    among them).  Otherwise [key] compiles against the related class and the
    relationship's loader option comes with the criterion. *)
Theorem get_join_column_criteria_relationship (model : Model) (rel key : string)
    (value : Any) :
  py_in "___" (rel +:+ "__") = false →
  py_in "___" key = false →
  (lookup_relationship model rel = None →
   get_join_column_criteria model (rel +:+ "___" +:+ key) value
   = raise (Py (AttributeError ("Invalid filtering attribute: " +:+ rel))))
  ∧ (∀ r, lookup_relationship model rel = Some r →
       (rel_lazy r ∉ ["joined"; "selectin"] →
        get_join_column_criteria model (rel +:+ "___" +:+ key) value
        = raise (Py (KeyError (rel_lazy r))))
       ∧ (rel_lazy r ∈ ["joined"; "selectin"] →
          get_join_column_criteria model (rel +:+ "___" +:+ key) value
          = (criteria ← get_column_criteria (rel_mapper_class r) key value;
             mret (criteria,
                   (if String.eqb (rel_lazy r) "joined" then joinedload else selectinload)
                     {| attr_class := class_name model; attr_name := rel |})))).
Proof.
  intros Hrel Hkey.
  assert (py_split (rel +:+ "___" +:+ key) "___" = [rel; key]) as Hsplit.
  { assert (py_split (rel +:+ "___" +:+ key) "___" = rel :: py_split key "___") as ->
      by exact (py_split_append "__" "_" rel key Hrel).
    by rewrite (py_split_no_sep "___" key Hkey). }
  unfold get_join_column_criteria, get_lazy_load. rewrite Hsplit. simpl.
  split; [by intros ->|]. intros r ->. split.
  - intros Hlazy. rewrite !elem_of_cons, elem_of_nil in Hlazy.
    unfold orm_lazy_load.
    destruct (list_to_map (M:=gmap string (InstrumentedAttribute → Load))
                [("joined", joinedload); ("selectin", selectinload)] !! rel_lazy r)
      as [loader|] eqn:E; [|done].
    apply elem_of_list_to_map_2 in E. rewrite !elem_of_cons, elem_of_nil in E.
    exfalso. apply Hlazy. destruct E as [[= -> _]|[[= -> _]|[]]]; auto.
  - rewrite !elem_of_cons, elem_of_nil. intros [->|[->|[]]].
    + change (orm_lazy_load !! "joined") with (Some joinedload). simpl.
      by destruct (get_column_criteria (rel_mapper_class r) key value).
    + change (orm_lazy_load !! "selectin") with (Some selectinload). simpl.
      by destruct (get_column_criteria (rel_mapper_class r) key value).
Qed.

Lemma get_join_column_criteria_relationship_witness :
  py_in "___" ("insurance_provider_quote" +:+ "__") = false
  ∧ py_in "___" "id__in" = false
  ∧ get_join_column_criteria DBUserJoin "owner___id__in" (Seq [SStr "q1"])
    = raise (Py (AttributeError "Invalid filtering attribute: owner"))
  ∧ get_join_column_criteria DBNote "author___role" (Scalar (SStr "admin"))
    = raise (Py (KeyError "select"))
  ∧ get_join_column_criteria DBUserJoin "insurance_provider_quote___id__in" (Seq [SStr "q1"])
    = mret ({| be_left := {| attr_class := "DBInsuranceProviderQuote"; attr_name := "id" |};
               be_operator := "in_"; be_right := Seq [SStr "q1"] |},
            joinedload {| attr_class := "DBUserJoin"; attr_name := "insurance_provider_quote" |}).
Proof.
  split; [reflexivity|]. split; [reflexivity|]. split.
  { exact (proj1 (get_join_column_criteria_relationship DBUserJoin "owner" "id__in"
                    (Seq [SStr "q1"]) eq_refl eq_refl) eq_refl). }
  split.
  { apply (proj2 (get_join_column_criteria_relationship DBNote "author" "role"
                    (Scalar (SStr "admin")) eq_refl eq_refl)
             (MkRelationship "author" "select" DBUser) eq_refl).
    rewrite !elem_of_cons, elem_of_nil. by intros [|[|]]. }
  { apply (proj2 (get_join_column_criteria_relationship DBUserJoin "insurance_provider_quote"
                    "id__in" (Seq [SStr "q1"]) eq_refl eq_refl)
             (MkRelationship "insurance_provider_quote" "joined" DBInsuranceProviderQuote)
             eq_refl).
    rewrite !elem_of_cons. auto. }
Defined.

(** ** What compilation raises *)

(** The errors of Python and SQLAlchemy, as opposed to those of
    [exc/exc.py]. *)
Lemma like_value_raises_Py (value : Any) (e : exn) :
  _backward_compatible_value_for_like_and_ilike value = raise e →
  isinstance_ArqueaError e = false.
Proof.
  destruct value as [[| b | n | s] | xs]; simpl; try by intros [= <-].
  - by destruct (py_in "%" s).
  - by destruct (bool_decide (SStr "%" ∈ xs)).
Qed.

Lemma unpack2_raises_Py (parts : list string) (e : exn) :
  unpack2 parts = raise e → isinstance_ArqueaError e = false.
Proof. destruct parts as [|a [|b [|c rest]]]; simpl; by intros [= <-]. Qed.

Lemma get_operator_raises_Py (filter_name : string) (filter_value : Any) (e : exn) :
  get_operator filter_name filter_value = raise e → isinstance_ArqueaError e = false.
Proof.
  unfold get_operator. destruct (py_in "__" filter_name); [|done].
  destruct (unpack2 (py_split filter_name "__")) as [e'|[name op]] eqn:Hparts; simpl.
  { intros [= <-]. by eapply unpack2_raises_Py. }
  destruct (orm_operator_transformer !! op) as [transform|] eqn:Hop; [|by intros [= <-]].
  unfold orm_operator_transformer in Hop. apply elem_of_list_to_map_2 in Hop.
  rewrite !elem_of_cons, elem_of_nil in Hop.
  repeat (destruct Hop as [Hop|Hop]); try done; injection Hop as -> ->; simpl;
    try done; try (by destruct (is_True filter_value));
    destruct (_backward_compatible_value_for_like_and_ilike filter_value) as [e'|v] eqn:Hlike;
    try done; simpl; intros [= <-]; by eapply like_value_raises_Py.
Qed.

Lemma get_column_criteria_raises_Py (model : Model) (filter_name : string)
    (filter_value : Any) (e : exn) :
  get_column_criteria model filter_name filter_value = raise e →
  isinstance_ArqueaError e = false.
Proof.
  unfold get_column_criteria.
  destruct (get_operator filter_name filter_value) as [e'|[[op name] v]] eqn:Hop; simpl.
  { intros [= <-]. by eapply get_operator_raises_Py. }
  unfold getattr_model. destruct (has_attribute model name); simpl; [done|].
  by intros [= <-].
Qed.

Lemma get_join_column_criteria_raises_Py (model : Model) (filter_name : string)
    (filter_value : Any) (e : exn) :
  get_join_column_criteria model filter_name filter_value = raise e →
  isinstance_ArqueaError e = false.
Proof.
  unfold get_join_column_criteria.
  destruct (unpack2 (py_split filter_name "___")) as [e'|[rel name]] eqn:Hparts; simpl.
  { intros [= <-]. by eapply unpack2_raises_Py. }
  unfold get_lazy_load. destruct (lookup_relationship model rel) as [r|]; [|by intros [= <-]].
  destruct (orm_lazy_load !! rel_lazy r) as [loader|]; [|by intros [= <-]]. simpl.
  destruct (get_column_criteria (rel_mapper_class r) name filter_value) as [e'|c] eqn:Hc;
    [|done].
  simpl. intros [= <-]. by eapply get_column_criteria_raises_Py.
Qed.

Lemma get_criteria_loop_raises_Py (model : Model) (filters : list (string * Any))
    (criteria : list BinaryExpression) (joins : list Load) (e : exn) :
  get_criteria_loop model filters criteria joins = raise e →
  isinstance_ArqueaError e = false.
Proof.
  revert criteria joins. induction filters as [|[name value] rest IH]; intros criteria joins.
  - done.
  - cbn [get_criteria_loop]. destruct (py_in "___" name).
    + destruct (get_join_column_criteria model name value) as [e'|[cc cl]] eqn:Hc; simpl.
      * intros [= <-]. by eapply get_join_column_criteria_raises_Py.
      * apply IH.
    + destruct (get_column_criteria model name value) as [e'|cc] eqn:Hc; simpl.
      * intros [= <-]. by eapply get_column_criteria_raises_Py.
      * apply IH.
Qed.

Lemma get_filter_criteria_raises_Py (model : Model) (filters : list (string * Any))
    (operator : FilterOperator) (e : exn) :
  get_filter_criteria model filters operator = raise e → isinstance_ArqueaError e = false.
Proof.
  unfold get_filter_criteria, get_criteria.
  destruct (get_criteria_loop model filters [] []) as [e'|[c j]] eqn:Hc; [|done].
  simpl. intros [= <-]. by eapply get_criteria_loop_raises_Py.
Qed.

Section QueryRaises.
Context `{Engine}.
Variable self : SqlAlchemyRepository.

Lemma _get_filter_query_raises_Py mandatory filters operator e :
  _get_filter_query self mandatory filters operator = raise e →
  isinstance_ArqueaError e = false.
Proof.
  unfold _get_filter_query.
  destruct (get_filter_criteria (model self) (default [] mandatory) (operator_or operator OR))
    as [e'|[mc mj]] eqn:Hm; simpl.
  { intros [= <-]. by eapply get_filter_criteria_raises_Py. }
  destruct (get_filter_criteria (model self) (default [] filters) (operator_or operator OR))
    as [e'|[c j]] eqn:Hf; simpl; [|done].
  intros [= <-]. by eapply get_filter_criteria_raises_Py.
Qed.

Lemma _get_query_raises_Py mandatory filters operator offset limit sort_by e :
  _get_query self mandatory filters operator (Some offset) (Some limit) sort_by = raise e →
  isinstance_ArqueaError e = false.
Proof.
  unfold _get_query.
  destruct (_get_filter_query self mandatory filters operator) as [e'|query] eqn:Hquery; simpl.
  { intros [= <-]. by eapply _get_filter_query_raises_Py. }
  by rewrite _apply_paginated_query_eq.
Qed.
End QueryRaises.
(** ** Reading lists and pages *)

Section PageLemmas.
Context `{Engine}.

Lemma page_sublist offset limit (rows : list Row) : page offset limit rows `sublist_of` rows.
Proof.
  unfold page. destruct (0 <? offset), (1 <=? limit); try done.
  - etrans; [apply sublist_take|apply sublist_drop].
  - apply sublist_drop.
  - apply sublist_take.
Qed.

Lemma page_length_limit offset limit (rows : list Row) :
  1 ≤ limit → Z.of_nat (length (page offset limit rows)) ≤ limit.
Proof.
  intros Hlimit. unfold page. destruct (Z.leb_spec 1 limit); [|lia].
  rewrite length_take. lia.
Qed.


Lemma page_consecutive offset limit limit' (rows : list Row) :
  0 ≤ offset → 1 ≤ limit → 1 ≤ limit' →
  (page offset limit rows ++ page (offset + limit) limit' rows)%list
  = page offset (limit + limit') rows.
Proof.
  intros Hoffset Hlimit Hlimit'. unfold page.
  destruct (Z.leb_spec 1 limit); [|lia]. destruct (Z.leb_spec 1 limit'); [|lia].
  destruct (Z.leb_spec 1 (limit + limit')); [|lia].
  destruct (Z.ltb_spec 0 (offset + limit)); [|lia].
  assert ((if 0 <? offset then drop (Z.to_nat offset) rows else rows)
          = drop (Z.to_nat offset) rows) as ->.
  { destruct (Z.ltb_spec 0 offset); [done|]. by replace offset with 0 by lia. }
  replace (Z.to_nat (offset + limit)) with (Z.to_nat offset + Z.to_nat limit)%nat by lia.
  replace (Z.to_nat (limit + limit')) with (Z.to_nat limit + Z.to_nat limit')%nat by lia.
  rewrite <- drop_drop. apply take_take_drop.
Qed.
End PageLemmas.

Section RepositoryReads.
Context `{Engine}.
Variable self : SqlAlchemyRepository.

Lemma get_all_eq session offset limit sort_by operator mandatory kwargs query :
  _get_filter_query self mandatory (Some kwargs) operator = mret query →
  get_all self session offset limit sort_by operator mandatory kwargs
  = mret (page offset limit
            (ordered (compile_sort_with sort_field_name (model self) (default [] sort_by))
               (matching_rows session query))).
Proof.
  intros Hquery.
  destruct (_get_query_rows self session _ _ _ offset limit sort_by _ Hquery)
    as (pq & Hpq & _ & _ & _ & Hrows).
  unfold get_all. rewrite Hpq. simpl. by rewrite Hrows.
Qed.

Lemma get_all_raise session offset limit sort_by operator mandatory kwargs e :
  _get_filter_query self mandatory (Some kwargs) operator = raise e →
  get_all self session offset limit sort_by operator mandatory kwargs = raise e.
Proof. intros Hquery. unfold get_all, _get_query. by rewrite Hquery. Qed.

Lemma count_by_eq session operator mandatory kwargs query :
  _get_filter_query self mandatory (Some kwargs) operator = mret query →
  count_by self session operator mandatory kwargs
  = mret (Z.of_nat (length (matching_rows session query))).
Proof.
  intros Hquery.
  destruct (_get_filter_query_unpaginated self _ _ _ _ Hquery) as (Hbo & Hbl & Hbs).
  unfold count_by, session_scalar_count. rewrite Hquery. simpl.
  by rewrite (session_scalars_all_unpaginated session query Hbo Hbl Hbs).
Qed.

(** X6. [get_and_count] answers with what [get_all] and [count_by] answer
    when called one after the other with the same arguments, and raises what
    they raise. *)
Theorem get_and_count_is_get_all_and_count_by
    session offset limit sort_by operator mandatory kwargs :
  get_and_count self session offset limit sort_by operator mandatory kwargs
  = (entities ← get_all self session offset limit sort_by operator mandatory kwargs;
     count ← count_by self session operator mandatory kwargs;
     mret (entities, count)).
Proof.
  unfold get_and_count, get_all, count_by, _get_query.
  destruct (_get_filter_query self mandatory (Some kwargs) operator) as [e|query]; [done|].
  simpl. by rewrite _apply_paginated_query_eq.
Qed.



(** X9. Consecutive pages fit together: on the same table, and with the
    engine arranging the rows of a statement the same way each time, the
    page of [limit] rows at [offset] followed by the page of [limit'] rows
    at [offset + limit] is the page of [limit + limit'] rows at [offset]; no
    row is skipped and none comes twice. *)
Theorem get_all_consecutive_pages
    session offset limit limit' sort_by operator mandatory kwargs rows1 rows2 :
  0 ≤ offset → 1 ≤ limit → 1 ≤ limit' →
  get_all self session offset limit sort_by operator mandatory kwargs = mret rows1 →
  get_all self session (offset + limit) limit' sort_by operator mandatory kwargs = mret rows2 →
  get_all self session offset (limit + limit') sort_by operator mandatory kwargs
  = mret (rows1 ++ rows2)%list.
Proof.
  intros Hoffset Hlimit Hlimit'.
  destruct (_get_filter_query self mandatory (Some kwargs) operator) as [e|query] eqn:Hquery.
  { by rewrite (get_all_raise _ _ _ _ _ _ _ _ Hquery). }
  rewrite !(get_all_eq _ _ _ _ _ _ _ _ Hquery). intros [= <-] [= <-].
  by rewrite page_consecutive.
Qed.

(** X10. The two single-row lookups agree, whatever the pagination: the
    row [get_one_by_or_fail] returns is the one [get_one_by] returns;
    [get_one_by] returns [None] exactly when [get_one_by_or_fail] raises
    [ResourceMissingError]; where [get_one_by_or_fail] finds several rows,
    [get_one_by] returns the first of them; and an error of [get_one_by] is
    raised by [get_one_by_or_fail] too. *)
Theorem get_one_by_agrees_with_get_one_by_or_fail
    session offset limit sort_by operator mandatory kwargs :
  (∀ row,
     get_one_by_or_fail self session offset limit sort_by operator mandatory kwargs = mret row →
     get_one_by self session offset limit sort_by operator mandatory kwargs = mret (Some row))
  ∧ (get_one_by self session offset limit sort_by operator mandatory kwargs = mret None
     ↔ get_one_by_or_fail self session offset limit sort_by operator mandatory kwargs
       = raise (ResourceMissingError (resource self)
                  ("Resource not found: " +:+ py_str_dict kwargs)))
  ∧ (get_one_by_or_fail self session offset limit sort_by operator mandatory kwargs
     = raise (ResourceUniqueError (resource self)
                ("Multiple entities found: " +:+ py_str_dict kwargs)) →
     ∃ row, get_one_by self session offset limit sort_by operator mandatory kwargs
            = mret (Some row))
  ∧ (∀ e,
       get_one_by self session offset limit sort_by operator mandatory kwargs = raise e →
       get_one_by_or_fail self session offset limit sort_by operator mandatory kwargs
       = raise e).
Proof.
  unfold get_one_by, get_one_by_or_fail, session_scalar, session_scalars_one.
  destruct (_get_query self mandatory (Some kwargs) (Some (operator_or operator AND))
              (Some offset) (Some limit) sort_by) as [e|query] eqn:Hquery; simpl.
  { apply _get_query_raises_Py in Hquery.
    split; [done|]. split; [split; [done|]|split].
    - intros [= ->]. done.
    - intros [= ->]. done.
    - by intros ? [= <-]. }
  destruct (session_scalars_all session query) as [|r1 [|r2 rest]]; simpl.
  - split; [done|]. split; [done|]. split; [done|]. done.
  - split; [by intros ? [= <-]|]. split; [by split|]. split; [done|]. done.
  - split; [done|]. split; [by split|]. split; [by eexists|]. done.
Qed.

(** X11. With a limit of 1, as [get_latest_by] calls it,
    [get_one_by_or_fail] can not find several rows: it returns the row
    [get_one_by] returns and raises [ResourceMissingError] where
    [get_one_by] returns [None]. *)
Theorem get_one_by_or_fail_limit_one
    session offset sort_by operator mandatory kwargs :
  get_one_by_or_fail self session offset 1 sort_by operator mandatory kwargs
  = (found ← get_one_by self session offset 1 sort_by operator mandatory kwargs;
     match found with
     | Some row => mret row
     | None => raise (ResourceMissingError (resource self)
                        ("Resource not found: " +:+ py_str_dict kwargs))
     end).
Proof.
  unfold get_one_by, get_one_by_or_fail, _get_query.
  destruct (_get_filter_query self mandatory (Some kwargs) (Some (operator_or operator AND)))
    as [e|query] eqn:Hquery; [done|].
  destruct (_get_query_rows self session _ _ _ offset 1 sort_by _ Hquery)
    as (pq & _ & Hpq & _ & _ & Hrows).
  simpl. rewrite Hpq. simpl. unfold session_scalar, session_scalars_one. rewrite Hrows.
  pose proof (page_length_limit offset 1
                (ordered (compile_sort_with sort_field_name (model self) (default [] sort_by))
                   (matching_rows session query))) as Hlen.
  destruct (page offset 1 _) as [|r1 [|r2 rest]]; [done|done|].
  simpl in Hlen. lia.
Qed.
End RepositoryReads.



Lemma get_all_consecutive_pages_witness :
  0 ≤ 0 ∧ 1 ≤ 1
  ∧ get_all (H:=sample_engine) UserCrudRepository users 0 1 None None None (role_is "employee")
    = mret [bea]
  ∧ get_all (H:=sample_engine) UserCrudRepository users (0 + 1) 1 None None None
      (role_is "employee")
    = mret [cleo]
  ∧ get_all (H:=sample_engine) UserCrudRepository users 0 (1 + 1) None None None
      (role_is "employee")
    = mret [bea; cleo].
Proof.
  assert (0 ≤ 0) as Hoffset by lia. assert (1 ≤ 1) as Hlimit by lia.
  split; [exact Hoffset|]. split; [exact Hlimit|].
  split; [reflexivity|]. split; [reflexivity|].
  exact (get_all_consecutive_pages (H:=sample_engine) UserCrudRepository users 0 1 1
           None None None (role_is "employee") [bea] [cleo] Hoffset Hlimit Hlimit
           eq_refl eq_refl).
Defined.

Lemma get_one_by_agrees_with_get_one_by_or_fail_witness :
  get_one_by_or_fail (H:=sample_engine) UserCrudRepository users 0 15 None None None
    (role_is "admin")
  = mret ana
  ∧ get_one_by (H:=sample_engine) UserCrudRepository users 0 15 None None None
      (role_is "admin")
    = mret (Some ana)
  ∧ get_one_by_or_fail (H:=sample_engine) UserCrudRepository users 0 15 None None None
      (role_is "employee")
    = raise (ResourceUniqueError "user"
               ("Multiple entities found: " +:+ py_str_dict (role_is "employee")))
  ∧ ∃ row, get_one_by (H:=sample_engine) UserCrudRepository users 0 15 None None None
             (role_is "employee")
           = mret (Some row).
Proof.
  split; [reflexivity|]. split.
  - exact (proj1 (get_one_by_agrees_with_get_one_by_or_fail (H:=sample_engine)
                    UserCrudRepository users 0 15 None None None (role_is "admin"))
             ana eq_refl).
  - split; [reflexivity|].
    exact (proj1 (proj2 (proj2 (get_one_by_agrees_with_get_one_by_or_fail (H:=sample_engine)
                    UserCrudRepository users 0 15 None None None (role_is "employee"))))
             eq_refl).
Defined.

(** ** Deleting by key *)

Lemma session_get_cons (row : Row) (session : list Row) (key : scalar) :
  session_get (row :: session) key
  = if bool_decide (entity_id row = key) then Some row else session_get session key.
Proof. reflexivity. Qed.

Lemma delete_by_key_cons (row : Row) (session : list Row) (key : scalar) :
  delete_by_key (row :: session) key
  = if bool_decide (entity_id row = key) then delete_by_key session key
    else row :: delete_by_key session key.
Proof. unfold delete_by_key. cbn [List.filter]. by destruct (bool_decide _). Qed.

Lemma session_get_delete_by_key (session : list Row) (key key' : scalar) :
  session_get (delete_by_key session key) key'
  = if bool_decide (key' = key) then None else session_get session key'.
Proof.
  induction session as [|row rest IH]; [by destruct (bool_decide _)|].
  rewrite delete_by_key_cons, session_get_cons.
  destruct (bool_decide_reflect (entity_id row = key)) as [Hrow|Hrow].
  - rewrite IH. repeat case_bool_decide; by simplify_eq.
  - rewrite session_get_cons, IH. repeat case_bool_decide; by simplify_eq.
Qed.

Lemma delete_by_key_missing (session : list Row) (key : scalar) :
  session_get session key = None → delete_by_key session key = session.
Proof.
  induction session as [|row rest IH]; [done|].
  rewrite session_get_cons, delete_by_key_cons.
  destruct (bool_decide (entity_id row = key)); [done|]. intros Hrest. by rewrite IH.
Qed.

(** X12. After [delete_by_key] no row has the key, and looking up any
    other key gives what it gave before; deleting a key that is not there
    changes nothing, so that deleting twice is deleting once. *)
Theorem delete_by_key_removes_the_key (session : list Row) (key : scalar) :
  get_by_key (delete_by_key session key) key = None
  ∧ (∀ key', key' ≠ key →
       get_by_key (delete_by_key session key) key' = get_by_key session key')
  ∧ (get_by_key session key = None → delete_by_key session key = session)
  ∧ delete_by_key (delete_by_key session key) key = delete_by_key session key.
Proof.
  unfold get_by_key.
  assert (session_get (delete_by_key session key) key = None) as Hgone.
  { by rewrite session_get_delete_by_key, bool_decide_true. }
  split; [exact Hgone|]. split; [|split].
  - intros key' Hother. by rewrite session_get_delete_by_key, bool_decide_false.
  - apply delete_by_key_missing.
  - by apply delete_by_key_missing.
Qed.

Lemma delete_by_key_removes_the_key_witness :
  SStr "u1" ≠ SStr "u2"
  ∧ get_by_key (delete_by_key users (SStr "u2")) (SStr "u1") = Some ana
  ∧ get_by_key users (SStr "u9") = None
  ∧ delete_by_key users (SStr "u9") = users.
Proof.
  assert (SStr "u1" ≠ SStr "u2") as Hother by discriminate.
  split; [exact Hother|]. split.
  - exact (proj1 (proj2 (delete_by_key_removes_the_key users (SStr "u2")))
             (SStr "u1") Hother).
  - split; [reflexivity|].
    exact (proj1 (proj2 (proj2 (delete_by_key_removes_the_key users (SStr "u9")))) eq_refl).
Defined.

Lemma delete_all_by_keys_cons (session : list Row) (key : scalar) (keys : list scalar) :
  RepositoryWrites.delete_all_by_keys session (key :: keys)
  = RepositoryWrites.delete_all_by_keys (delete_by_key session key) keys.
Proof.
  unfold RepositoryWrites.delete_all_by_keys, delete_by_key.
  induction session as [|row rest IH]; [done|].
  cbn [List.filter]. rewrite IH.
  destruct (bool_decide_reflect (entity_id row = key)) as [Hrow|Hrow]; simpl.
  - rewrite bool_decide_true; [done|]. rewrite Hrow. apply list_elem_of_here.
  - destruct (bool_decide_reflect (entity_id row ∈ keys)) as [Hin|Hin].
    + rewrite bool_decide_true; [done|]. by apply list_elem_of_further.
    + rewrite bool_decide_false; [done|]. rewrite elem_of_cons. by intros [|].
Qed.

(** X13. [delete_all_by_keys] does what [delete_by_key] does for one key
    after the other: afterwards a key of the list has no row, another key
    has the row it had, and an empty list of keys deletes nothing. *)
Theorem delete_all_by_keys_is_repeated_delete_by_key (session : list Row)
    (keys : list scalar) :
  RepositoryWrites.delete_all_by_keys session keys = foldl delete_by_key session keys
  ∧ (∀ key,
       get_by_key (RepositoryWrites.delete_all_by_keys session keys) key
       = if bool_decide (key ∈ keys) then None else get_by_key session key)
  ∧ RepositoryWrites.delete_all_by_keys session [] = session.
Proof.
  assert (∀ s, RepositoryWrites.delete_all_by_keys s [] = s) as Hnil.
  { intros s. unfold RepositoryWrites.delete_all_by_keys.
    induction s as [|row rest IH]; [done|]. cbn [List.filter].
    rewrite bool_decide_false by apply not_elem_of_nil. cbn [negb]. f_equal. exact IH. }
  split; [|split; [|apply Hnil]].
  - revert session. induction keys as [|key keys IH]; intros session; [apply Hnil|].
    rewrite delete_all_by_keys_cons. apply IH.
  - unfold get_by_key. revert session.
    induction keys as [|key keys IH]; intros session key'.
    + rewrite Hnil. rewrite bool_decide_false by apply not_elem_of_nil. done.
    + rewrite delete_all_by_keys_cons, IH, session_get_delete_by_key.
      repeat case_bool_decide; try done; exfalso;
        match goal with
        | Hin : _ ∈ _ :: _ |- _ => apply elem_of_cons in Hin as [|]; by simplify_eq
        | Hout : _ ∉ _ :: _ |- _ => apply Hout; rewrite elem_of_cons; auto
        end.
Qed.
(** ** Updating by key *)

Lemma entity_id_union (kwargs row : Row) :
  kwargs !! "id" = None → entity_id (kwargs ∪ row) = entity_id row.
Proof. intros Hid. unfold entity_id. by rewrite lookup_union_r. Qed.

Lemma session_get_updated (session : list Row) (key key' : scalar) (kwargs : Row) :
  kwargs !! "id" = None →
  session_get ((fun r => if bool_decide (entity_id r = key) then kwargs ∪ r else r)
                 <$> session) key'
  = (fun r => if bool_decide (entity_id r = key) then kwargs ∪ r else r)
      <$> session_get session key'.
Proof.
  intros Hid. induction session as [|row rest IH]; [done|].
  rewrite fmap_cons, !session_get_cons, IH.
  assert (entity_id (if bool_decide (entity_id row = key) then kwargs ∪ row else row)
          = entity_id row) as ->.
  { destruct (bool_decide (entity_id row = key)); [by apply entity_id_union|done]. }
  by destruct (bool_decide (entity_id row = key')).
Qed.

Lemma unconsumed_not_nil (model : Model) (kwargs : gmap string scalar) (field : string) :
  is_Some (kwargs !! field) → field ∉ columns model → unconsumed model kwargs ≠ [].
Proof.
  intros [v Hfield] Hcolumn. unfold unconsumed.
  assert (In field (List.filter (fun k => negb (existsb (String.eqb k) (columns model)))
                      (map_to_list kwargs).*1)) as Hin.
  { apply filter_In. split.
    - apply list_elem_of_In, list_elem_of_fmap. exists (field, v).
      split; [done|]. by apply elem_of_map_to_list.
    - apply negb_true_iff, not_true_is_false. intros Hex.
      apply existsb_exists in Hex as (c & Hc & Heq). apply String.eqb_eq in Heq.
      subst c. by apply Hcolumn, list_elem_of_In. }
  intros Hnil. by rewrite Hnil in Hin.
Qed.

Section UpdateByKey.
Variable self : SqlAlchemyRepository.

Lemma update_by_key_present (session : list Row) (utc_now key : scalar)
    (data : gmap string scalar) (row : Row) :
  get_by_key session key = Some row →
  data !! "id" = None →
  "updated_at" ∈ columns (model self) →
  (∀ field, is_Some (data !! field) → field ∈ columns (model self)) →
  ∃ session',
    update_by_key self session utc_now key data
    = (session', mret (<["updated_at" := utc_now]> data ∪ row))
    ∧ get_by_key session' key = Some (<["updated_at" := utc_now]> data ∪ row)
    ∧ (∀ key', key' ≠ key → get_by_key session' key' = get_by_key session key').
Proof.
  intros Hrow Hid Hstamp Hcolumns.
  set (kwargs := <["updated_at" := utc_now]> data).
  assert (kwargs !! "id" = None) as Hkid by (unfold kwargs; by rewrite lookup_insert_ne).
  assert (unconsumed (model self) kwargs = []) as Hnil.
  { apply unconsumed_nil. intros field [v Hfield]. unfold kwargs in Hfield.
    destruct (decide (field = "updated_at")) as [->|Hne]; [done|].
    rewrite lookup_insert_ne in Hfield by done. eauto. }
  assert (∀ key', get_by_key
            ((fun r => if bool_decide (entity_id r = key) then kwargs ∪ r else r) <$> session)
            key'
          = (fun r => if bool_decide (entity_id r = key) then kwargs ∪ r else r)
              <$> get_by_key session key') as Hget.
  { intros key'. unfold get_by_key. by apply session_get_updated. }
  destruct (get_by_key_Some _ _ _ Hrow) as [_ Hkey].
  eexists. unfold update_by_key, execute_update. fold kwargs. rewrite Hnil.
  cbv beta iota. unfold get_by_key_or_fail. rewrite Hget, Hrow. simpl.
  rewrite bool_decide_true by done. split; [done|]. split.
  - rewrite Hget, Hrow. simpl. by rewrite bool_decide_true.
  - intros key' Hother. rewrite Hget.
    destruct (get_by_key session key') as [row'|] eqn:Hrow'; [|done]. simpl.
    destruct (get_by_key_Some _ _ _ Hrow') as [_ Hkey'].
    rewrite bool_decide_false; [done|]. by rewrite Hkey'.
Qed.

(** X14. [update_by_key] returns the row as it is stored afterwards.  For
    a key that has a row and data that name columns and leave the key
    alone, the row returned is the old row with the data and the current
    time in [updated_at] written over it, a lookup of the key gives the same
    row, and a lookup of any other key gives what it gave before. *)
Theorem update_by_key_returns_the_stored_row (session : list Row) (utc_now key : scalar)
    (data : gmap string scalar) (row : Row) :
  get_by_key session key = Some row →
  data !! "id" = None →
  "updated_at" ∈ columns (model self) →
  (∀ field, is_Some (data !! field) → field ∈ columns (model self)) →
  ∃ session' row',
    update_by_key self session utc_now key data = (session', mret row')
    ∧ get_by_key session' key = Some row'
    ∧ row' !! "updated_at" = Some utc_now
    ∧ (∀ field v, field ≠ "updated_at" → data !! field = Some v → row' !! field = Some v)
    ∧ (∀ field, field ≠ "updated_at" → data !! field = None → row' !! field = row !! field)
    ∧ (∀ key', key' ≠ key → get_by_key session' key' = get_by_key session key').
Proof.
  intros Hrow Hid Hstamp Hcolumns.
  destruct (update_by_key_present session utc_now key data row Hrow Hid Hstamp Hcolumns)
    as (session' & Hupdate & Hget & Hothers).
  exists session', (<["updated_at" := utc_now]> data ∪ row).
  split; [done|]. split; [done|]. split; [|split; [|split; [|done]]].
  - apply lookup_union_Some_l, lookup_insert_eq.
  - intros field v Hfield Hv. apply lookup_union_Some_l. by rewrite lookup_insert_ne.
  - intros field Hfield Hv. rewrite lookup_union_r; [done|]. by rewrite lookup_insert_ne.
Qed.

(** X15. An update that fails leaves the table as it was: for a key
    without a row nothing is written and an error of Python is raised, never
    [ResourceMissingError]; for data that name something that is no column
    the statement is refused with [CompileError]. *)
Theorem update_by_key_failure_leaves_the_table (session : list Row) (utc_now key : scalar)
    (data : gmap string scalar) :
  (get_by_key session key = None →
   ∃ error, update_by_key self session utc_now key data = (session, raise (Py error)))
  ∧ (∀ field, is_Some (data !! field) → field ∉ columns (model self) →
       ∃ msg, update_by_key self session utc_now key data
              = (session, raise (Py (CompileError msg)))).
Proof.
  unfold update_by_key, execute_update.
  set (kwargs := <["updated_at" := utc_now]> data). split.
  - intros Hmissing.
    destruct (unconsumed (model self) kwargs) as [|name names]; [|by eexists].
    assert ((fun r => if bool_decide (entity_id r = key) then kwargs ∪ r else r) <$> session
            = session) as ->.
    { revert Hmissing. unfold get_by_key. induction session as [|row rest IH]; [done|].
      rewrite session_get_cons, fmap_cons.
      destruct (bool_decide (entity_id row = key)); [done|]. intros Hrest. by rewrite IH. }
    unfold get_by_key_or_fail. rewrite Hmissing. by eexists.
  - intros field [v Hfield] Hcolumn.
    assert (field ≠ "updated_at" → is_Some (kwargs !! field)) as Hkwargs.
    { intros Hne. unfold kwargs. rewrite lookup_insert_ne by done. eauto. }
    assert (is_Some (kwargs !! field)) as Hsome.
    { destruct (decide (field = "updated_at")) as [->|Hne]; [|by apply Hkwargs].
      unfold kwargs. rewrite lookup_insert_eq. eauto. }
    pose proof (unconsumed_not_nil (model self) kwargs field Hsome Hcolumn) as Hne.
    destruct (unconsumed (model self) kwargs) as [|name names]; [done|]. by eexists.
Qed.
End UpdateByKey.

Lemma update_by_key_returns_the_stored_row_witness :
  get_by_key users (SStr "u2") = Some bea
  ∧ ({[ "role" := SStr "admin" ]} : gmap string scalar) !! "id" = None
  ∧ "updated_at" ∈ columns (model UserCrudRepository)
  ∧ (∀ field, is_Some (({[ "role" := SStr "admin" ]} : gmap string scalar) !! field)
       → field ∈ columns (model UserCrudRepository))
  ∧ ∃ session' row',
      update_by_key UserCrudRepository users (SInt 99) (SStr "u2") {[ "role" := SStr "admin" ]}
      = (session', mret row')
      ∧ get_by_key session' (SStr "u2") = Some row'
      ∧ row' !! "updated_at" = Some (SInt 99)
      ∧ row' !! "role" = Some (SStr "admin")
      ∧ row' !! "first_name" = Some (SStr "Bea").
Proof.
  assert ("updated_at" ∈ columns (model UserCrudRepository)) as Hstamp.
  { apply (bool_decide_unpack _). reflexivity. }
  assert (∀ field, is_Some (({[ "role" := SStr "admin" ]} : gmap string scalar) !! field)
            → field ∈ columns (model UserCrudRepository)) as Hcolumns.
  { intros field [v Hfield]. apply lookup_singleton_Some in Hfield as [<- _].
    apply (bool_decide_unpack _). reflexivity. }
  assert (({[ "role" := SStr "admin" ]} : gmap string scalar) !! "id" = None) as Hid
    by reflexivity.
  assert (get_by_key users (SStr "u2") = Some bea) as Hrow by reflexivity.
  split; [exact Hrow|]. split; [exact Hid|]. split; [exact Hstamp|].
  split; [exact Hcolumns|].
  destruct (update_by_key_returns_the_stored_row UserCrudRepository users (SInt 99)
              (SStr "u2") {[ "role" := SStr "admin" ]} bea Hrow Hid Hstamp Hcolumns)
    as (session' & row' & Hupdate & Hget & Hnow & Hset & Hkept & _).
  exists session', row'. split; [exact Hupdate|]. split; [exact Hget|].
  split; [exact Hnow|]. split.
  - apply Hset; [discriminate|reflexivity].
  - rewrite Hkept; [reflexivity|discriminate|reflexivity].
Defined.

Lemma update_by_key_failure_leaves_the_table_witness :
  get_by_key users (SStr "u9") = None
  ∧ (∃ error,
       update_by_key UserCrudRepository users (SInt 99) (SStr "u9") {[ "role" := SStr "admin" ]}
       = (users, raise (Py error)))
  ∧ is_Some (({[ "nickname" := SStr "B" ]} : gmap string scalar) !! "nickname")
  ∧ ("nickname" ∉ columns (model UserCrudRepository))
  ∧ ∃ msg,
      update_by_key UserCrudRepository users (SInt 99) (SStr "u2") {[ "nickname" := SStr "B" ]}
      = (users, raise (Py (CompileError msg))).
Proof.
  assert (is_Some (({[ "nickname" := SStr "B" ]} : gmap string scalar) !! "nickname"))
    as Hsome by (by eexists).
  assert ("nickname" ∉ columns (model UserCrudRepository)) as Hcolumn.
  { apply (bool_decide_eq_false_1 _). reflexivity. }
  split; [reflexivity|]. split.
  - exact (proj1 (update_by_key_failure_leaves_the_table UserCrudRepository users (SInt 99)
                    (SStr "u9") {[ "role" := SStr "admin" ]}) eq_refl).
  - split; [exact Hsome|]. split; [exact Hcolumn|].
    exact (proj2 (update_by_key_failure_leaves_the_table UserCrudRepository users (SInt 99)
                    (SStr "u2") {[ "nickname" := SStr "B" ]}) "nickname" Hsome Hcolumn).
Defined.

(** ** Updating an entity *)

Lemma list_to_map_tabulate (f : string → scalar) (names : list string) (k : string) :
  (list_to_map ((fun name => (name, f name)) <$> names) : gmap string scalar) !! k
  = if bool_decide (k ∈ names) then Some (f k) else None.
Proof.
  induction names as [|name names IH].
  - rewrite bool_decide_false by apply not_elem_of_nil. apply lookup_empty.
  - rewrite fmap_cons, list_to_map_cons. simpl.
    destruct (decide (name = k)) as [->|Hne].
    + rewrite lookup_insert_eq, bool_decide_true; [done|apply list_elem_of_here].
    + rewrite lookup_insert_ne, IH by done.
      destruct (bool_decide_reflect (k ∈ names)) as [Hin|Hout].
      * rewrite bool_decide_true; [done|]. by apply list_elem_of_further.
      * rewrite bool_decide_false; [done|]. rewrite elem_of_cons. by intros [|].
Qed.

Section UpdateEntity.
Variable self : SqlAlchemyRepository.

Lemma entity_to_dict_lookup (entity : Row) (exclude : option (list string))
    (column : string) :
  RepositoryWrites.entity_to_dict self entity exclude !! column
  = if bool_decide (column ∈ columns (model self) ∧ column ∉ default [] exclude)
    then Some (default SNone (entity !! column))
    else None.
Proof.
  unfold RepositoryWrites.entity_to_dict.
  rewrite (list_to_map_tabulate (fun column => default SNone (entity !! column))).
  rewrite (bool_decide_ext _ (column ∈ columns (model self) ∧ column ∉ default [] exclude));
    [done|].
  rewrite !list_elem_of_In, filter_In, negb_true_iff.
  rewrite <- not_true_iff_false, existsb_exists.
  split; intros [Hcolumn Hexclude]; (split; [done|]).
  - intros Hin. apply Hexclude. exists column. split; [done|apply String.eqb_refl].
  - intros (other & Hin & Heq). apply String.eqb_eq in Heq. by subst other.
Qed.

(** X16. [update] of an entity writes every column of the entity but its
    key over the row that has the key, with the current time in
    [updated_at] whatever the entity holds there, and returns the row as it
    is stored; what the row has beyond the columns stays. *)
Theorem update_entity_writes_every_column (session : list Row) (utc_now : scalar)
    (entity row : Row) :
  get_by_key session (entity_id entity) = Some row →
  "updated_at" ∈ columns (model self) →
  ∃ session' row',
    RepositoryWrites.update self session utc_now entity = (session', mret row')
    ∧ get_by_key session' (entity_id entity) = Some row'
    ∧ row' !! "updated_at" = Some utc_now
    ∧ row' !! "id" = row !! "id"
    ∧ (∀ column, column ∈ columns (model self) → column ≠ "id" → column ≠ "updated_at" →
         row' !! column = Some (default SNone (entity !! column)))
    ∧ (∀ field, field ∉ columns (model self) → row' !! field = row !! field).
Proof.
  intros Hrow Hstamp. unfold RepositoryWrites.update.
  set (kwargs := RepositoryWrites.entity_to_dict self entity (Some ["id"])).
  assert (∀ field, kwargs !! field
          = if bool_decide (field ∈ columns (model self) ∧ field ∉ ["id"])
            then Some (default SNone (entity !! field)) else None) as Hkwargs.
  { intros field. apply entity_to_dict_lookup. }
  assert (kwargs !! "id" = None) as Hid.
  { rewrite Hkwargs, bool_decide_false; [done|]. intros [_ Hout]. apply Hout.
    apply list_elem_of_here. }
  assert (∀ field, is_Some (kwargs !! field) → field ∈ columns (model self)) as Hcolumns.
  { intros field [v Hfield]. rewrite Hkwargs in Hfield. by case_bool_decide as Hd; [destruct Hd|]. }
  destruct (update_by_key_present self session utc_now (entity_id entity) kwargs row
              Hrow Hid Hstamp Hcolumns) as (session' & Hupdate & Hget & _).
  exists session', (<["updated_at" := utc_now]> kwargs ∪ row).
  split; [done|]. split; [done|]. split; [|split; [|split]].
  - apply lookup_union_Some_l, lookup_insert_eq.
  - rewrite lookup_union_r; [done|]. by rewrite lookup_insert_ne.
  - intros column Hcolumn Hkey Hnot. apply lookup_union_Some_l.
    rewrite lookup_insert_ne by done. rewrite Hkwargs, bool_decide_true; [done|].
    split; [done|]. rewrite elem_of_cons, elem_of_nil. by intros [|].
  - intros field Hfield. rewrite lookup_union_r; [done|].
    rewrite lookup_insert_ne by (by intros <-).
    rewrite Hkwargs, bool_decide_false; [done|]. by intros [].
Qed.
End UpdateEntity.

Lemma update_entity_writes_every_column_witness :
  get_by_key users (entity_id (user "u2" "Beatriz" "admin" 5)) = Some bea
  ∧ "updated_at" ∈ columns (model UserCrudRepository)
  ∧ ∃ session' row',
      RepositoryWrites.update UserCrudRepository users (SInt 99)
        (user "u2" "Beatriz" "admin" 5)
      = (session', mret row')
      ∧ get_by_key session' (SStr "u2") = Some row'
      ∧ row' !! "updated_at" = Some (SInt 99)
      ∧ row' !! "first_name" = Some (SStr "Beatriz").
Proof.
  assert (get_by_key users (entity_id (user "u2" "Beatriz" "admin" 5)) = Some bea) as Hrow
    by reflexivity.
  assert ("updated_at" ∈ columns (model UserCrudRepository)) as Hstamp.
  { apply (bool_decide_unpack _). reflexivity. }
  assert ("first_name" ∈ columns (model UserCrudRepository)) as Hname.
  { apply (bool_decide_unpack _). reflexivity. }
  split; [exact Hrow|]. split; [exact Hstamp|].
  destruct (update_entity_writes_every_column UserCrudRepository users (SInt 99)
              (user "u2" "Beatriz" "admin" 5) bea Hrow Hstamp)
    as (session' & row' & Hupdate & Hget & Hnow & _ & Hwritten & _).
  exists session', row'. split; [exact Hupdate|]. split; [exact Hget|].
  split; [exact Hnow|].
  rewrite (Hwritten "first_name" Hname); [reflexivity|discriminate|discriminate].
Defined.

(** ** Building a new entity *)







Section NewEntity.
Variable self : SqlAlchemyRepository.

End NewEntity.


(** ** Inserting *)

Lemma session_get_app (session1 session2 : list Row) (key : scalar) :
  session_get (session1 ++ session2) key
  = match session_get session1 key with
    | Some row => Some row
    | None => session_get session2 key
    end.
Proof.
  induction session1 as [|row rest IH]; [done|].
  rewrite <- app_comm_cons, !session_get_cons.
  by destruct (bool_decide (entity_id row = key)).
Qed.

Section Inserting.
Context `{Constraints}.

Lemma violation_None_fresh (session : list Row) (entity : Row) :
  violation session entity = None → session_get session (entity_id entity) = None.
Proof.
  intros Hnone. destruct (session_get session (entity_id entity)) as [row|] eqn:Hrow; [|done].
  destruct (violation_primary_key session entity) as [msg Hmsg]; [by eexists|]. congruence.
Qed.

(** What [add_all] has done when it returns. *)
Lemma add_all_returns (session : list Row) (entities : list Row) (session' : list Row) :
  (RepositoryWrites.add_all session entities).1 = Some session' →
  RepositoryWrites.add_all session entities = (Some (session ++ entities)%list, mret ())
  ∧ Forall (fun entity => get_by_key session (entity_id entity) = None) entities
  ∧ NoDup (entity_id <$> entities).
Proof.
  revert session. induction entities as [|entity rest IH]; intros session.
  - simpl. intros _. rewrite app_nil_r. split; [done|]. split; constructor.
  - cbn [RepositoryWrites.add_all].
    destruct (violation session entity) as [msg|] eqn:Hviolation; [done|].
    pose proof (violation_None_fresh _ _ Hviolation) as Hfresh.
    intros Hsession'. destruct (IH _ Hsession') as (Hall & Hkeys & Hdistinct).
    rewrite Hall, <- app_assoc. split; [done|]. unfold get_by_key in *.
    assert (Forall (fun e => session_get session (entity_id e) = None
                             ∧ entity_id entity ≠ entity_id e) rest) as Hrest.
    { eapply Forall_impl; [exact Hkeys|]. intros e. simpl.
      rewrite session_get_app. destruct (session_get session (entity_id e)); [done|].
      rewrite session_get_cons. by case_bool_decide. }
    split; [|rewrite fmap_cons; constructor; [|done]].
    + constructor; [done|]. eapply Forall_impl; [exact Hrest|]. by intros e [].
    + intros Hin. apply list_elem_of_fmap in Hin as (e & Heq & Hin).
      rewrite Forall_forall in Hrest. by destruct (Hrest e Hin).
Qed.

End Inserting.


(** ** Creating through the facade *)

Section Creating.
Context `{Constraints} {DtoT : Type}.
Variable self : SqlAlchemyCrudFacade DtoT.

Lemma decorated_mret {T : Type} (body : Result T) (result : T) :
  Facade.decorated self body = mret result → body = mret result.
Proof.
  rewrite decorated_eq. destruct body as [e|r]; [|done].
  by destruct (isinstance_ArqueaError e).
Qed.

(** X19. What [create] returns is what [get] returns for the new key: a
    [create] that returns has put one row at the end of the table, under a
    key no row had, and [get] of that key on the new table returns the DTO
    [create] returned; the rows that were there are looked up as before. *)
Theorem create_then_get (session : list Row) (uuid4 utc_now : scalar)
    (data : list (string * scalar)) (session' : list Row) (dto : DtoT) :
  FacadeCreate.create self session uuid4 utc_now data = (Some session', mret dto) →
  ∃ entity,
    (RepositoryWrites.new_entity (_repository self) uuid4 utc_now data).2 = mret entity
    ∧ session' = (session ++ [entity])%list
    ∧ get_by_key session (entity_id entity) = None
    ∧ Facade.get self session' (entity_id entity) = mret dto
    ∧ (∀ key row, get_by_key session key = Some row → get_by_key session' key = Some row).
Proof.
  unfold FacadeCreate.create, FacadeCreate._mapping_from_dto_create_to_entity,
    RepositoryWrites.add, session_insert.
  destruct (RepositoryWrites.new_entity (_repository self) uuid4 utc_now data).2
    as [e|entity].
  { intros [= _ Hraise]. by destruct (isinstance_ArqueaError e). }
  destruct (violation session entity) as [msg|] eqn:Hviolation; [done|].
  intros [= <- Hdto]. apply decorated_mret in Hdto.
  pose proof (violation_None_fresh _ _ Hviolation) as Hfresh.
  exists entity. split; [done|]. split; [done|]. split; [done|]. split.
  - unfold Facade.get, Facade._mapping_key_from_dto_to_entity, get_by_key_or_fail, get_by_key.
    rewrite session_get_app, Hfresh, session_get_cons, bool_decide_true by done.
    simpl. unfold Facade._mapping_from_entity_to_dto in *. by rewrite Hdto.
  - intros key row. unfold get_by_key. rewrite session_get_app. by intros ->.
Qed.
End Creating.

Lemma create_then_get_witness :
  FacadeCreate.create (H:=primary_key_only) UserCrudFacade users (SStr "u7") (SInt 70)
    (new_user "Eva" "admin")
  = (Some (users ++ [list_to_map (new_user "Eva" "admin" ++
                                    [("id", SStr "u7"); ("created_at", SInt 70);
                                     ("updated_at", SInt 70)])])%list,
     mret (list_to_map (new_user "Eva" "admin" ++
                          [("id", SStr "u7"); ("created_at", SInt 70);
                           ("updated_at", SInt 70)])))
  ∧ Facade.get UserCrudFacade
      (users ++ [list_to_map (new_user "Eva" "admin" ++
                                [("id", SStr "u7"); ("created_at", SInt 70);
                                 ("updated_at", SInt 70)])])%list
      (SStr "u7")
    = mret (list_to_map (new_user "Eva" "admin" ++
                           [("id", SStr "u7"); ("created_at", SInt 70);
                            ("updated_at", SInt 70)])).
Proof.
  assert (FacadeCreate.create (H:=primary_key_only) UserCrudFacade users (SStr "u7") (SInt 70)
            (new_user "Eva" "admin")
          = (Some (users ++ [list_to_map (new_user "Eva" "admin" ++
                                            [("id", SStr "u7"); ("created_at", SInt 70);
                                             ("updated_at", SInt 70)])])%list,
             mret (list_to_map (new_user "Eva" "admin" ++
                                  [("id", SStr "u7"); ("created_at", SInt 70);
                                   ("updated_at", SInt 70)])))) as Hcreate
    by reflexivity.
  split; [exact Hcreate|].
  destruct (create_then_get (H:=primary_key_only) UserCrudFacade users (SStr "u7") (SInt 70)
              (new_user "Eva" "admin") _ _ Hcreate)
    as (entity & Hentity & _ & _ & Hget & _).
  injection Hentity as <-. exact Hget.
Defined.

(** ** The boundary, twice *)

(** X20. Decorating twice is decorating once: an error that has passed
    the boundary passes it again unchanged, so a facade method that calls
    another one reports the error the inner one reported. *)
Theorem db_catch_exception_idempotent {T : Type} (resource resource' : string)
    (run_func : list receiver → Result T) (args : list receiver) :
  db_catch_exception resource (db_catch_exception resource' run_func) args
  = db_catch_exception resource' run_func args.
Proof.
  unfold db_catch_exception. destruct (run_func args) as [e|result]; [|done].
  destruct (isinstance_ArqueaError e) eqn:Harquea; simpl; [by rewrite Harquea|done].
Qed.

(** ** Pages of DTOs *)

Section FacadeReads.
Context `{Engine} {DtoT : Type}.
Variable self : SqlAlchemyCrudFacade DtoT.

(** Every entity of a list that maps gives a DTO or a warning. *)
Lemma map_entities_or_none_length (entities : list Row) (data : list DtoT)
    (log : list warning) :
  Facade.map_entities_or_none self entities = (mret data, log) →
  (length data + length log)%nat = length entities.
Proof.
  revert data log. induction entities as [|entity rest IH]; intros data log.
  - by intros [= <- <-].
  - cbn [Facade.map_entities_or_none].
    unfold Facade._mapping_from_entity_to_dto_or_none, Facade._mapping_from_entity_to_dto.
    destruct (Facade.map_entities_or_none self rest) as [[e|data'] log'].
    + by destruct (_dto self entity) as [[[]| | | |]|dto].
    + specialize (IH data' log' eq_refl).
      destruct (_dto self entity) as [[[]| | | |]|dto]; try done;
        intros [= <- <-]; simpl; lia.
Qed.

Lemma get_and_count_raise session offset limit sort_by operator mandatory kwargs e :
  _get_filter_query (_repository self) mandatory (Some kwargs) operator = raise e →
  get_and_count (_repository self) session offset limit sort_by operator mandatory kwargs
  = raise e.
Proof. intros Hquery. unfold get_and_count. by rewrite Hquery. Qed.

(** A decorated call that goes on from a decorated call returns only when
    both do. *)
Lemma decorated_bind_mret {T U : Type} (body : Result T) (f : T → Result U) (result : U) :
  Facade.decorated self (Facade.decorated self body ≫= f) = mret result →
  ∃ x, body = mret x ∧ f x = mret result.
Proof.
  rewrite !decorated_eq. destruct body as [e|x]; simpl.
  - destruct (isinstance_ArqueaError e) eqn:He; simpl; [by rewrite He|done].
  - intros Hf. exists x. split; [done|]. by destruct (f x) as [e|y]; [destruct (isinstance_ArqueaError e)|].
Qed.

(** What a page that [get_paginated] returns is made of. *)
Lemma get_paginated_inv session pagination sort_by operator mandatory kwargs
    (result : Pagination DtoT) (log : list warning) :
  Facade.get_paginated self session pagination sort_by operator mandatory kwargs
  = (mret result, log) →
  ∃ query entities,
    _get_filter_query (_repository self) mandatory (Some kwargs) operator = mret query
    ∧ entities `sublist_of`
        ordered (compile_sort_with sort_field_name (model (_repository self))
                   (sort (match sort_by with
                          | None => Facade._default_sort_by
                          | Some s => match sort s with
                                      | [] => Facade._default_sort_by
                                      | _ => s
                                      end
                          end)))
          (matching_rows session query)
    ∧ entities = page (pf_offset (default Facade._default_pagination pagination))
                   (pf_limit (default Facade._default_pagination pagination))
                   (ordered (compile_sort_with sort_field_name (model (_repository self))
                               (sort (match sort_by with
                                      | None => Facade._default_sort_by
                                      | Some s => match sort s with
                                                  | [] => Facade._default_sort_by
                                                  | _ => s
                                                  end
                                      end)))
                      (matching_rows session query))
    ∧ Facade.map_entities_or_none self entities = (mret (pag_data result), log)
    ∧ pag_offset result = pf_offset (default Facade._default_pagination pagination)
    ∧ pag_limit result = pf_limit (default Facade._default_pagination pagination)
    ∧ pag_total_count result = Z.of_nat (length (matching_rows session query)).
Proof.
  unfold Facade.get_paginated, Facade.get_list.
  set (_pagination := default Facade._default_pagination pagination).
  change (default Facade._default_pagination (Some _pagination)) with _pagination.
  destruct (_get_filter_query (_repository self) mandatory (Some kwargs) operator)
    as [e|query] eqn:Hquery.
  { rewrite (get_and_count_raise _ _ _ _ _ _ _ _ Hquery). unfold raise. cbv beta iota.
    intros Hpage. apply (f_equal fst) in Hpage. cbn [fst] in Hpage.
    by apply decorated_bind_mret in Hpage as (x & ? & _). }
  rewrite (get_and_count_eq self _ _ _ _ _ _ _ _ Hquery).
  cbv beta iota delta [mret Result_ret].
  match goal with
  | |- context [Facade.map_entities_or_none self ?l] =>
      set (entities := l); destruct (Facade.map_entities_or_none self entities)
        as [[e|data] log'] eqn:Hmap
  end.
  { intros Hpage. apply (f_equal fst) in Hpage. cbn [fst] in Hpage.
    by apply decorated_bind_mret in Hpage as (x & ? & _). }
  intros Hpage. pose proof (f_equal snd Hpage) as Hlog.
  apply (f_equal fst) in Hpage. cbn [fst snd] in Hpage, Hlog.
  apply decorated_bind_mret in Hpage as (x & [= <-] & [= <-]). subst log'. simpl.
  exists query, entities. split; [done|]. split; [apply page_sublist|]. done.
Qed.

(** X21. The envelope of [get_paginated]: the offset and the limit are
    the ones asked for (0 and 1000000 when none is); the total is what
    [count_by] counts, whatever the page; the DTOs and the warnings
    together are as many as the rows of the page, which are no more than
    the total and, for a limit of at least 1, no more than the limit. *)
Theorem get_paginated_envelope session pagination sort_by operator mandatory kwargs
    (result : Pagination DtoT) (log : list warning) :
  Facade.get_paginated self session pagination sort_by operator mandatory kwargs
  = (mret result, log) →
  pag_offset result = pf_offset (default Facade._default_pagination pagination)
  ∧ pag_limit result = pf_limit (default Facade._default_pagination pagination)
  ∧ count_by (_repository self) session operator mandatory kwargs
    = mret (pag_total_count result)
  ∧ Z.of_nat (length (pag_data result) + length log) ≤ pag_total_count result
  ∧ (1 ≤ pag_limit result →
     Z.of_nat (length (pag_data result) + length log) ≤ pag_limit result)
  ∧ (pag_offset result ≤ 0 → pag_limit result < 1 →
     Z.of_nat (length (pag_data result) + length log) = pag_total_count result).
Proof.
  intros Hpage.
  destruct (get_paginated_inv _ _ _ _ _ _ _ _ Hpage)
    as (query & entities & Hquery & Hsub & Hentities & Hmap & Hoffset & Hlimit & Htotal).
  apply map_entities_or_none_length in Hmap. rewrite Hmap, Hoffset, Hlimit, Htotal.
  split; [done|]. split; [done|]. split; [by apply count_by_eq|].
  split; [|split].
  - apply sublist_length in Hsub. rewrite ordered_perm in Hsub. lia.
  - intros Hone. rewrite Hentities. by apply page_length_limit.
  - intros Hno_offset Hno_limit. rewrite Hentities, page_covering by lia.
    by rewrite ordered_perm.
Qed.

(** X22. [delete] returns the DTO [get] returns for the key and removes
    the rows with the key; where [get] raises, for a key without a row or a
    row that does not map to a DTO, it raises the same error and removes
    nothing. *)
Theorem delete_gets_then_removes (session : list Row) (key : scalar) :
  (∀ dto,
     Facade.get self session key = mret dto →
     Facade.delete self session key = (delete_by_key session key, mret dto)
     ∧ get_by_key (Facade.delete self session key).1 key = None)
  ∧ (∀ error,
       Facade.get self session key = raise error →
       Facade.delete self session key = (session, raise error)).
Proof.
  unfold Facade.delete. split.
  - intros dto ->. split; [done|]. simpl. unfold get_by_key.
    by rewrite session_get_delete_by_key, bool_decide_true.
  - intros error Hget. rewrite Hget. unfold raise. cbv beta iota. rewrite decorated_eq.
    unfold Facade.get in Hget.
    by rewrite (decorated_raises_only_ArqueaError self _ _ Hget).
Qed.

(** X23. [delete_paginated] lists under the combinator it is given and
    deletes under [AND]: the DTOs are those of every row the criteria match
    under the combinator, the limit of the envelope is the total, and the
    rows deleted are those [delete_by] deletes, which combines the criteria
    with [AND] whatever the combinator. *)
Theorem delete_paginated_lists_then_deletes (session : list Row)
    (operator : option FilterOperator) (kwargs : list (string * Any))
    (session' : list Row) (result : Pagination DtoT) (log : list warning) :
  Facade.delete_paginated self session operator kwargs = (session', mret result, log) →
  Facade.get_paginated self session (Some {| pf_offset := 0; pf_limit := 0 |}) None operator
    None kwargs
  = (mret {| pag_offset := 0; pag_limit := 0; pag_total_count := pag_total_count result;
             pag_data := pag_data result |}, log)
  ∧ delete_by (_repository self) session kwargs = (session', mret ())
  ∧ pag_offset result = 0
  ∧ pag_limit result = pag_total_count result
  ∧ count_by (_repository self) session operator None kwargs = mret (pag_total_count result)
  ∧ Z.of_nat (length (pag_data result) + length log) = pag_total_count result.
Proof.
  unfold Facade.delete_paginated.
  destruct (Facade.get_paginated self session (Some {| pf_offset := 0; pf_limit := 0 |}) None
              operator None kwargs) as [[e|dtos] log'] eqn:Hpage.
  { intros [= _ Hraise _]. by destruct (isinstance_ArqueaError e). }
  destruct (get_paginated_inv _ _ _ _ _ _ _ _ Hpage)
    as (query & entities & Hquery & _ & Hentities & Hmap & Hoffset & Hlimit & Htotal).
  simpl in Hoffset, Hlimit, Hentities.
  destruct (delete_by (_repository self) session kwargs) as [session'' [e|[]]] eqn:Hdelete.
  { intros [= _ Hraise _]. by destruct (isinstance_ArqueaError e). }
  rewrite decorated_eq. simpl. intros [= <- <- <-]. simpl.
  rewrite Hoffset, Hlimit, Htotal.
  split; [destruct dtos; simpl in *; by subst|]. split; [done|]. split; [done|].
  split; [lia|]. split; [by apply count_by_eq|].
  apply map_entities_or_none_length in Hmap. rewrite Hmap, Hentities.
  rewrite page_covering by lia. by rewrite ordered_perm.
Qed.
End FacadeReads.

Lemma get_paginated_envelope_witness :
  Facade.get_paginated (H:=sample_engine) UserCrudFacade users_with_dora
    (Some {| pf_offset := 0; pf_limit := 2 |}) None None None (role_is "employee")
  = (mret {| pag_offset := 0; pag_limit := 2; pag_total_count := 3; pag_data := [cleo] |},
     [{| w_entity := dora; w_error := Py (ValidationError "first_name: empty") |}])
  ∧ count_by (H:=sample_engine) UserCrudRepository users_with_dora None None
      (role_is "employee")
    = mret 3
  ∧ Z.of_nat (length [cleo] + length [dora]) ≤ 2.
Proof.
  assert (Facade.get_paginated (H:=sample_engine) UserCrudFacade users_with_dora
            (Some {| pf_offset := 0; pf_limit := 2 |}) None None None (role_is "employee")
          = (mret {| pag_offset := 0; pag_limit := 2; pag_total_count := 3;
                     pag_data := [cleo] |},
             [{| w_entity := dora; w_error := Py (ValidationError "first_name: empty") |}]))
    as Hpage by reflexivity.
  split; [exact Hpage|].
  destruct (get_paginated_envelope (H:=sample_engine) UserCrudFacade users_with_dora
              (Some {| pf_offset := 0; pf_limit := 2 |}) None None None (role_is "employee")
              _ _ Hpage) as (_ & _ & Hcount & _ & Hlimit & _).
  split; [exact Hcount|]. apply Hlimit. simpl. lia.
Defined.

Lemma delete_gets_then_removes_witness :
  Facade.get UserCrudFacade users_with_dora (SStr "u2") = mret bea
  ∧ Facade.delete UserCrudFacade users_with_dora (SStr "u2") = ([ana; dora; cleo], mret bea)
  ∧ Facade.get UserCrudFacade users_with_dora (SStr "u4")
    = raise (ResourceError "user" "first_name: empty")
  ∧ Facade.delete UserCrudFacade users_with_dora (SStr "u4")
    = (users_with_dora, raise (ResourceError "user" "first_name: empty")).
Proof.
  split; [reflexivity|]. split.
  - exact (proj1 (proj1 (delete_gets_then_removes UserCrudFacade users_with_dora (SStr "u2"))
                    bea eq_refl)).
  - split; [reflexivity|].
    exact (proj2 (delete_gets_then_removes UserCrudFacade users_with_dora (SStr "u4"))
             (ResourceError "user" "first_name: empty") eq_refl).
Defined.

(** Listed under [OR], deleted under [AND]: the two users that meet one of
    the criteria are returned, and none is deleted, as none meets both. *)
Lemma delete_paginated_lists_then_deletes_witness :
  Facade.delete_paginated (H:=sample_engine) UserCrudFacade users (Some OR) admin_named_bea
  = (users,
     mret {| pag_offset := 0; pag_limit := 2; pag_total_count := 2; pag_data := [bea; ana] |},
     [])
  ∧ delete_by (H:=sample_engine) UserCrudRepository users admin_named_bea = (users, mret ())
  ∧ count_by (H:=sample_engine) UserCrudRepository users (Some OR) None admin_named_bea
    = mret 2.
Proof.
  assert (Facade.delete_paginated (H:=sample_engine) UserCrudFacade users (Some OR)
            admin_named_bea
          = (users,
             mret {| pag_offset := 0; pag_limit := 2; pag_total_count := 2;
                     pag_data := [bea; ana] |},
             [])) as Hdelete by reflexivity.
  split; [exact Hdelete|].
  destruct (delete_paginated_lists_then_deletes (H:=sample_engine) UserCrudFacade users
              (Some OR) admin_named_bea _ _ _ Hdelete) as (_ & Hdeleted & _ & _ & Hcount & _).
  split; [exact Hdeleted|]. exact Hcount.
Defined.

(** ** Deleting by criteria *)

Lemma filter_not_in_filter (f : Row → bool) (rows : list Row) :
  List.filter (fun r => bool_decide (r ∉ List.filter f rows)) rows
  = List.filter (fun r => negb (f r)) rows.
Proof.
  apply filter_ext_in. intros r Hr.
  destruct (f r) eqn:Hf; simpl.
  - apply bool_decide_eq_false. intros Hout. apply Hout.
    apply list_elem_of_In, filter_In. done.
  - apply bool_decide_eq_true. rewrite list_elem_of_In, filter_In. intros [_ Hfr]. congruence.
Qed.

Lemma filter_singleton_split (f : Row → bool) (rows : list Row) (row : Row) :
  List.filter f rows = [row] →
  ∃ before after,
    rows = (before ++ row :: after)%list
    ∧ List.filter (fun r => negb (f r)) rows = (before ++ after)%list.
Proof.
  induction rows as [|r rest IH]; [done|]. cbn [List.filter].
  destruct (f r) eqn:Hf; simpl.
  - intros [= -> Hrest]. exists [], rest. split; [done|]. simpl.
    clear IH. induction rest as [|r' rest IH]; [done|].
    cbn [List.filter] in *. destruct (f r'); [done|]. simpl. f_equal. by apply IH.
  - intros Hrest. destruct (IH Hrest) as (before & after & -> & Hkept).
    exists (r :: before), after. split; [done|]. simpl. by rewrite Hkept.
Qed.

Section DeleteByCriteria.
Variable holds : BinaryExpression → Row → bool.
Variable repository : SqlAlchemyRepository.

Lemma matches_and (criteria : list BinaryExpression) (r : Row) :
  matches holds [and_ criteria] r = forallb (fun b => holds b r) criteria.
Proof. unfold matches. simpl. apply andb_true_r. Qed.

Lemma delete_by_row_wise (session : list Row) (kwargs : list (string * Any))
    (criteria : list BinaryExpression) (joins : list Load) :
  get_criteria (model repository) kwargs = mret (criteria, joins) →
  delete_by (H:=row_wise_engine holds) repository session kwargs
  = (List.filter (fun r => negb (forallb (fun b => holds b r) criteria)) session, mret ()).
Proof.
  intros Hcriteria. unfold delete_by, get_filter_criteria. rewrite Hcriteria. simpl.
  f_equal. rewrite filter_not_in_filter. apply filter_ext. intros r. by rewrite matches_and.
Qed.

(** X24. Where the criteria are read on the row itself, [delete_by] removes
    the rows that meet every criterion and keeps the others in their order;
    without criteria it removes every row; criteria that do not compile
    remove nothing. *)
Theorem delete_by_removes_the_rows_meeting_every_criterion (session : list Row)
    (kwargs : list (string * Any)) :
  (∀ criteria joins,
     get_criteria (model repository) kwargs = mret (criteria, joins) →
     delete_by (H:=row_wise_engine holds) repository session kwargs
     = (List.filter (fun r => negb (forallb (fun b => holds b r) criteria)) session, mret ()))
  ∧ delete_by (H:=row_wise_engine holds) repository session [] = ([], mret ())
  ∧ (∀ error,
       get_criteria (model repository) kwargs = raise error →
       delete_by (H:=row_wise_engine holds) repository session kwargs
       = (session, raise error)).
Proof.
  split; [apply delete_by_row_wise|]. split.
  - rewrite (delete_by_row_wise session [] [] []) by done. f_equal.
    induction session as [|r rest IH]; [done|]. exact IH.
  - intros error Hcriteria. unfold delete_by, get_filter_criteria. by rewrite Hcriteria.
Qed.
End DeleteByCriteria.

Lemma delete_by_removes_the_rows_meeting_every_criterion_witness :
  get_criteria DBUser (role_is "employee")
  = mret ([ {| be_left := {| attr_class := "DBUser"; attr_name := "role" |};
               be_operator := "__eq__"; be_right := Scalar (SStr "employee") |} ], [])
  ∧ delete_by (H:=row_wise_engine sample_holds) UserCrudRepository users (role_is "employee")
    = ([ana], mret ())
  ∧ get_criteria DBUser [("role__between", Scalar (SInt 3))] = raise (Py (KeyError "between"))
  ∧ delete_by (H:=row_wise_engine sample_holds) UserCrudRepository users
      [("role__between", Scalar (SInt 3))]
    = (users, raise (Py (KeyError "between"))).
Proof.
  split; [reflexivity|]. split.
  - exact (proj1 (delete_by_removes_the_rows_meeting_every_criterion sample_holds
                    UserCrudRepository users (role_is "employee")) _ _ eq_refl).
  - split; [reflexivity|].
    exact (proj2 (proj2 (delete_by_removes_the_rows_meeting_every_criterion sample_holds
                    UserCrudRepository users [("role__between", Scalar (SInt 3))]))
             _ eq_refl).
Defined.

Section DeleteOneBy.
Variable holds : BinaryExpression → Row → bool.
Context {DtoT : Type}.
Variable self : SqlAlchemyCrudFacade DtoT.

(** X25. Where the criteria are read on the row itself, a [delete_one_by]
    that returns has removed one row, the only one that met every
    criterion, and returns its DTO; the other rows stay in their order. *)
Theorem delete_one_by_removes_the_one_row (session : list Row)
    (kwargs : list (string * Any)) (session' : list Row) (dto : DtoT) :
  Facade.delete_one_by (H:=row_wise_engine holds) self session kwargs = (session', mret dto) →
  ∃ before row after,
    session = (before ++ row :: after)%list
    ∧ session' = (before ++ after)%list
    ∧ _dto self row = mret dto
    ∧ ∃ criteria joins,
        get_criteria (model (_repository self)) kwargs = mret (criteria, joins)
        ∧ List.filter (fun r => forallb (fun b => holds b r) criteria) session = [row].
Proof.
  unfold Facade.delete_one_by.
  destruct (Facade.get_one_by (H:=row_wise_engine holds) self session kwargs)
    as [e|dto'] eqn:Hget.
  { intros [= _ Hraise]. by destruct (isinstance_ArqueaError e). }
  unfold Facade.get_one_by in Hget. apply decorated_mret in Hget.
  destruct (get_one_by_or_fail (H:=row_wise_engine holds) (_repository self) session
              default_offset default_limit None None None kwargs) as [e|row] eqn:Hone;
    [done|]. simpl in Hget.
  destruct (_get_filter_query (_repository self) None (Some kwargs)
              (Some (operator_or None AND))) as [e|query] eqn:Hquery.
  { unfold get_one_by_or_fail, _get_query in Hone. by rewrite Hquery in Hone. }
  pose proof Hquery as Hinv. apply _get_filter_query_inv in Hinv
    as (criteria & joins & mcriteria & mjoins & Hcriteria & Hmandatory & ->).
  simpl in Hcriteria, Hmandatory. injection Hmandatory as <- <-.
  destruct (_get_query_rows (H:=row_wise_engine holds) (_repository self) session
              _ _ _ default_offset default_limit None _ Hquery)
    as (pq & Hpq & _ & _ & _ & Hrows).
  unfold get_one_by_or_fail in Hone. rewrite Hpq in Hone. simpl in Hone.
  unfold session_scalars_one in Hone. rewrite Hrows in Hone.
  assert (List.filter (fun r => forallb (fun b => holds b r) criteria) session = [row])
    as Hfound.
  { revert Hone. unfold matching_rows, page, ordered, default_offset, default_limit. simpl.
    assert (List.filter (matches holds [and_ criteria; and_ []]) session
            = List.filter (fun r => forallb (fun b => holds b r) criteria) session) as ->.
    { apply filter_ext. intros r. unfold matches. simpl. by rewrite !andb_true_r. }
    destruct (List.filter _ session) as [|r1 [|r2 rest]]; simpl; try done.
    by intros [= ->]. }
  rewrite (delete_by_row_wise holds (_repository self) session kwargs criteria joins Hcriteria).
  destruct (filter_singleton_split _ _ _ Hfound) as (before & after & Hsession & Hkept).
  rewrite decorated_eq. simpl. intros [= <- <-].
  exists before, row, after. split; [done|]. split; [done|]. split; [done|].
  by exists criteria, joins.
Qed.
End DeleteOneBy.

Lemma delete_one_by_removes_the_one_row_witness :
  Facade.delete_one_by (H:=row_wise_engine sample_holds) UserCrudFacade users
    (role_is "admin")
  = ([bea; cleo], mret ana)
  ∧ ∃ before row after,
      users = (before ++ row :: after)%list
      ∧ [bea; cleo] = (before ++ after)%list
      ∧ _dto UserCrudFacade row = mret ana.
Proof.
  assert (Facade.delete_one_by (H:=row_wise_engine sample_holds) UserCrudFacade users
            (role_is "admin")
          = ([bea; cleo], mret ana)) as Hdelete by reflexivity.
  split; [exact Hdelete|].
  destruct (delete_one_by_removes_the_one_row sample_holds UserCrudFacade users
              (role_is "admin") _ _ Hdelete)
    as (before & row & after & Hsession & Hkept & Hdto & _).
  by exists before, row, after.
Defined.

(** ** The latest row *)

Section Latest.
Context `{Engine} {DtoT : Type}.
Variable self : SqlAlchemyCrudFacade DtoT.

(** X26. [get_latest_by] returns the DTO of the first of the matching rows
    when they are ordered by [created_at] and then [updated_at], both
    descending, and raises [ResourceMissingError] when no row matches;
    several matching rows are no error. *)
Theorem get_latest_by_first_of_the_newest (session : list Row) (kwargs : list (string * Any))
    (query : Select) :
  _get_filter_query (_repository self) None (Some kwargs) (Some AND) = mret query →
  Facade.get_latest_by self session kwargs
  = Facade.decorated self
      (match head (ordered (compile_sort_with sort_field_name (model (_repository self))
                              ["-created_at"; "-updated_at"])
                     (matching_rows session query)) with
       | Some row => _dto self row
       | None => raise (ResourceMissingError (resource (_repository self))
                          ("Resource not found: " +:+ py_str_dict kwargs))
       end).
Proof.
  intros Hquery. unfold Facade.get_latest_by. f_equal.
  destruct (_get_query_rows (_repository self) session _ _ _ default_offset 1
              (Some (sort Facade._sort_latest)) _ Hquery) as (pq & Hpq & _ & _ & _ & Hrows).
  unfold get_one_by_or_fail. change (operator_or None AND) with AND. rewrite Hpq. simpl.
  unfold session_scalars_one. rewrite Hrows.
  change (default [] (Some (sort Facade._sort_latest))) with ["-created_at"; "-updated_at"].
  set (rows := ordered _ (matching_rows session query)).
  assert (1 ≤ 1) as Hone by lia.
  pose proof (page_length_limit default_offset 1 rows Hone) as Hlen.
  assert (default_offset ≤ 0) as Hoffset by (unfold default_offset; lia).
  pose proof (head_page_no_offset default_offset 1 rows Hoffset) as Hhead.
  destruct (page default_offset 1 rows) as [|r1 [|r2 rest]]; simpl in Hlen, Hhead.
  - by rewrite <- Hhead.
  - by rewrite <- Hhead.
  - lia.
Qed.
End Latest.

Lemma get_latest_by_first_of_the_newest_witness :
  _get_filter_query UserCrudRepository None (Some (role_is "employee")) (Some AND)
  = mret (role_query and_ "employee")
  ∧ Facade.get_latest_by (H:=sample_engine) UserCrudFacade users (role_is "employee")
    = mret cleo.
Proof.
  split; [reflexivity|].
  rewrite (get_latest_by_first_of_the_newest (H:=sample_engine) UserCrudFacade users
             (role_is "employee") (role_query and_ "employee") eq_refl).
  reflexivity.
Defined.

(** ** Creating many *)

Section CreatingMany.
Context `{Constraints} {DtoT : Type}.
Variable self : SqlAlchemyCrudFacade DtoT.

Lemma new_entities_length (uuid4 utc_now : nat → scalar) (i : nat)
    (data : list (list (string * scalar))) (entities : list Row) :
  FacadeCreate.new_entities self uuid4 utc_now i data = mret entities →
  length entities = length data.
Proof.
  revert i entities. induction data as [|entry rest IH]; intros i entities.
  - by intros [= <-].
  - cbn [FacadeCreate.new_entities].
    destruct (RepositoryWrites.new_entity (_repository self) (uuid4 i) (utc_now i) entry).2
      as [e|entity]; [done|]. simpl.
    destruct (FacadeCreate.new_entities self uuid4 utc_now (S i) rest) as [e|entities']
      eqn:Hrest; [done|].
    simpl. intros [= <-]. simpl. f_equal. by eapply IH.
Qed.

Lemma map_entities_length (entities : list Row) (dtos : list DtoT) :
  FacadeCreate.map_entities self entities = mret dtos →
  length dtos = length entities ∧ Forall2 (fun entity dto => _dto self entity = mret dto) entities dtos.
Proof.
  revert dtos. induction entities as [|entity rest IH]; intros dtos.
  - intros [= <-]. split; [done|constructor].
  - cbn [FacadeCreate.map_entities]. unfold Facade._mapping_from_entity_to_dto.
    destruct (_dto self entity) as [e|dto] eqn:Hdto; [done|]. simpl.
    destruct (FacadeCreate.map_entities self rest) as [e|dtos'] eqn:Hrest; [done|].
    simpl. intros [= <-]. destruct (IH dtos' eq_refl) as [Hlen Hall].
    split; [simpl; by rewrite Hlen|by constructor].
Qed.

(** X27. [create_paginated] creates all or nothing.  When it returns, the
    table is the old one followed by one new row for every entry, in the
    order of the entries, under keys that were not in the table and differ
    from one another; the DTOs are those of the new rows, and the envelope
    counts them: offset 0, limit and total the number of entries.  When an
    entry does not make an entity, the table is as it was. *)
Theorem create_paginated_all_or_nothing (session : list Row) (uuid4 utc_now : nat → scalar)
    (data : list (list (string * scalar))) :
  (∀ session' result,
     FacadeCreate.create_paginated self session uuid4 utc_now data
     = (Some session', mret result) →
     ∃ entities,
       FacadeCreate.new_entities self uuid4 utc_now 0 data = mret entities
       ∧ session' = (session ++ entities)%list
       ∧ length entities = length data
       ∧ Forall (fun entity => get_by_key session (entity_id entity) = None) entities
       ∧ NoDup (entity_id <$> entities)
       ∧ Forall2 (fun entity dto => _dto self entity = mret dto) entities (pag_data result)
       ∧ pag_offset result = 0
       ∧ pag_limit result = Z.of_nat (length data)
       ∧ pag_total_count result = Z.of_nat (length data))
  ∧ (∀ error,
       FacadeCreate.new_entities self uuid4 utc_now 0 data = raise error →
       ∃ error',
         FacadeCreate.create_paginated self session uuid4 utc_now data
         = (Some session, raise error')).
Proof.
  unfold FacadeCreate.create_paginated. split.
  - intros session' result.
    destruct (FacadeCreate.new_entities self uuid4 utc_now 0 data) as [e|entities]
      eqn:Hentities.
    { intros [= _ Hraise]. by destruct (isinstance_ArqueaError e). }
    pose proof (new_entities_length _ _ _ _ _ Hentities) as Hlen.
    destruct (RepositoryWrites.add_all session entities) as [session'' [e|[]]] eqn:Hadd.
    { intros [= _ Hraise]. by destruct (isinstance_ArqueaError e). }
    intros Hcreate. pose proof (f_equal fst Hcreate) as Hsession.
    apply (f_equal snd) in Hcreate. cbn [fst snd] in Hsession, Hcreate. subst session''.
    apply decorated_mret in Hcreate.
    destruct (FacadeCreate.map_entities self entities) as [e|dtos] eqn:Hdtos; [done|].
    simpl in Hcreate. injection Hcreate as <-. simpl.
    destruct (map_entities_length _ _ Hdtos) as [Hdlen Hall].
    assert ((RepositoryWrites.add_all session entities).1 = Some session') as Hsome
      by by rewrite Hadd.
    exists entities. split; [done|].
    destruct (add_all_returns session entities session' Hsome)
      as (Happ & Hfresh & Hdistinct).
    rewrite Hadd in Happ. injection Happ as ->.
    split; [done|]. split; [done|]. split; [done|]. split; [done|]. split; [done|].
    split; [done|]. split; [by rewrite Hdlen, Hlen|by rewrite Hlen].
  - intros error ->. unfold raise. cbv beta iota. rewrite decorated_eq.
    destruct (isinstance_ArqueaError error); by eexists.
Qed.
End CreatingMany.

Lemma create_paginated_all_or_nothing_witness :
  FacadeCreate.create_paginated (H:=primary_key_only) UserCrudFacade users
    (fun i => SStr (if Nat.eqb i 0 then "u7" else "u8")) (fun i => SInt (70 + Z.of_nat i))
    [new_user "Eva" "admin"; new_user "Flor" "employee"]
  = (Some (users ++
           [list_to_map (new_user "Eva" "admin" ++
                           [("id", SStr "u7"); ("created_at", SInt 70); ("updated_at", SInt 70)]);
            list_to_map (new_user "Flor" "employee" ++
                           [("id", SStr "u8"); ("created_at", SInt 71); ("updated_at", SInt 71)])])%list,
     mret {| pag_offset := 0; pag_limit := 2; pag_total_count := 2;
             pag_data :=
               [list_to_map (new_user "Eva" "admin" ++
                               [("id", SStr "u7"); ("created_at", SInt 70);
                                ("updated_at", SInt 70)]);
                list_to_map (new_user "Flor" "employee" ++
                               [("id", SStr "u8"); ("created_at", SInt 71);
                                ("updated_at", SInt 71)])] |})
  ∧ ∃ entities,
      FacadeCreate.new_entities UserCrudFacade
        (fun i => SStr (if Nat.eqb i 0 then "u7" else "u8")) (fun i => SInt (70 + Z.of_nat i)) 0
        [new_user "Eva" "admin"; new_user "Flor" "employee"]
      = mret entities
      ∧ length entities = 2%nat
      ∧ NoDup (entity_id <$> entities).
Proof.
  match goal with
  | |- ?create = ?result ∧ _ => assert (create = result) as Hcreate by reflexivity
  end.
  split; [exact Hcreate|].
  destruct (proj1 (create_paginated_all_or_nothing (H:=primary_key_only) UserCrudFacade users
                     (fun i => SStr (if Nat.eqb i 0 then "u7" else "u8"))
                     (fun i => SInt (70 + Z.of_nat i))
                     [new_user "Eva" "admin"; new_user "Flor" "employee"]) _ _ Hcreate)
    as (entities & Hentities & _ & Hlen & _ & Hdistinct & _).
  exists entities. split; [exact Hentities|]. split; [exact Hlen|exact Hdistinct].
Defined.

(** ** Mandatory criteria *)

Section Mandatory.
Variable holds : BinaryExpression → Row → bool.
Variable self : SqlAlchemyRepository.

(** X28. Where the criteria are read on the row itself, every row
    [get_all] returns is a row of the table that meets the group of the
    filters and the group of the mandatory criteria, each group combined by
    the combinator given ([OR] when none is): the mandatory criteria narrow
    the result whatever the filters are, and a group without criteria lets
    every row pass. *)
Theorem get_all_rows_meet_both_groups (session : list Row) (offset limit : Z)
    (sort_by : option (list string)) (operator : option FilterOperator)
    (mandatory : option (list (string * Any))) (kwargs : list (string * Any))
    (rows : list Row) :
  get_all (H:=row_wise_engine holds) self session offset limit sort_by operator mandatory kwargs
  = mret rows →
  ∃ criteria joins mcriteria mjoins,
    get_criteria (model self) kwargs = mret (criteria, joins)
    ∧ get_criteria (model self) (default [] mandatory) = mret (mcriteria, mjoins)
    ∧ ∀ row, row ∈ rows →
        row ∈ session
        ∧ eval_clause holds
            (if bool_decide (operator_or operator OR = OR) then or_ criteria
             else and_ criteria) row = true
        ∧ eval_clause holds
            (if bool_decide (operator_or operator OR = OR) then or_ mcriteria
             else and_ mcriteria) row = true.
Proof.
  destruct (_get_filter_query self mandatory (Some kwargs) operator) as [e|query] eqn:Hquery.
  { by rewrite (get_all_raise (H:=row_wise_engine holds) _ _ _ _ _ _ _ _ _ Hquery). }
  rewrite (get_all_eq (H:=row_wise_engine holds) _ _ _ _ _ _ _ _ _ Hquery).
  intros [= <-].
  apply _get_filter_query_inv in Hquery
    as (criteria & joins & mcriteria & mjoins & Hcriteria & Hmandatory & ->).
  exists criteria, joins, mcriteria, mjoins. split; [done|]. split; [done|].
  intros row Hrow.
  eapply elem_of_sublist in Hrow; [|apply page_sublist].
  rewrite (ordered_perm (H:=row_wise_engine holds)) in Hrow.
  unfold matching_rows in Hrow. simpl in Hrow.
  apply list_elem_of_In, filter_In in Hrow as [Hin Hmatch].
  unfold matches in Hmatch. simpl in Hmatch.
  apply andb_true_iff in Hmatch as [Hfilters Hmatch].
  apply andb_true_iff in Hmatch as [Hmandatory' _].
  split; [by apply list_elem_of_In|]. done.
Qed.
End Mandatory.

Lemma get_all_rows_meet_both_groups_witness :
  get_all (H:=row_wise_engine sample_holds) UserCrudRepository users 0 15 None None
    (Some (role_is "employee")) [("first_name", Scalar (SStr "Ana")); ("first_name", Scalar (SStr "Bea"))]
  = mret [bea]
  ∧ ∃ criteria joins mcriteria mjoins,
      get_criteria DBUser [("first_name", Scalar (SStr "Ana")); ("first_name", Scalar (SStr "Bea"))]
      = mret (criteria, joins)
      ∧ get_criteria DBUser (role_is "employee") = mret (mcriteria, mjoins)
      ∧ eval_clause sample_holds (or_ criteria) bea = true
      ∧ eval_clause sample_holds (or_ mcriteria) bea = true.
Proof.
  match goal with
  | |- ?call = ?result ∧ _ => assert (call = result) as Hall by reflexivity
  end.
  split; [exact Hall|].
  destruct (get_all_rows_meet_both_groups sample_holds UserCrudRepository users 0 15 None None
              (Some (role_is "employee"))
              [("first_name", Scalar (SStr "Ana")); ("first_name", Scalar (SStr "Bea"))]
              [bea] Hall)
    as (criteria & joins & mcriteria & mjoins & Hcriteria & Hmandatory & Hrows).
  exists criteria, joins, mcriteria, mjoins. split; [exact Hcriteria|].
  split; [exact Hmandatory|].
  destruct (Hrows bea) as (_ & Hfilters & Hgroup); [apply list_elem_of_here|].
  split; [exact Hfilters|exact Hgroup].
Defined.

(** ** Raw pages and pages of DTOs *)

Section RawPages.
Context `{Engine} {DtoT : Type}.
Variable self : SqlAlchemyCrudFacade DtoT.

(** X29. [get_raw_paginated] and [get_paginated] read the same page: with
    the same arguments, the DTOs and the warnings of [get_paginated] are
    those of the rows [get_raw_paginated] returns, mapped one by one, and the
    offset, the limit and the total are the same. *)
Theorem get_paginated_maps_the_raw_page (session : list Row)
    (pagination : option PaginationFilter) (sort_by : option SortBy)
    (operator : option FilterOperator) (mandatory : option (list (string * Any)))
    (kwargs : list (string * Any)) (raw : Pagination Row) :
  Facade.get_raw_paginated self session pagination sort_by operator mandatory kwargs
  = mret raw →
  Facade.get_paginated self session pagination sort_by operator mandatory kwargs
  = (Facade.decorated self
       (data ← (Facade.map_entities_or_none self (pag_data raw)).1;
        mret {| pag_offset := pag_offset raw; pag_limit := pag_limit raw;
                pag_total_count := pag_total_count raw; pag_data := data |}),
     (Facade.map_entities_or_none self (pag_data raw)).2).
Proof.
  unfold Facade.get_raw_paginated, Facade.get_raw_list, Facade.get_paginated, Facade.get_list.
  set (_pagination := default Facade._default_pagination pagination).
  change (default Facade._default_pagination (Some _pagination)) with _pagination.
  intros Hraw. apply decorated_bind_mret in Hraw as ([rows total] & Hrows & [= <-]).
  destruct (get_and_count (_repository self) session (pf_offset _pagination)
              (pf_limit _pagination) _ operator mandatory kwargs) as [e|[entities total']];
    [done|].
  simpl in Hrows. injection Hrows as <- <-. simpl.
  unfold Facade._mapping_from_entity_to_dict. rewrite list_fmap_id.
  destruct (Facade.map_entities_or_none self entities) as [[e|data] log]; simpl.
  - rewrite !decorated_eq. simpl.
    destruct (isinstance_ArqueaError e) eqn:He; simpl; by rewrite ?He.
  - reflexivity.
Qed.
End RawPages.

Lemma get_paginated_maps_the_raw_page_witness :
  Facade.get_raw_paginated (H:=sample_engine) UserCrudFacade users_with_dora
    (Some {| pf_offset := 0; pf_limit := 2 |}) None None None (role_is "employee")
  = mret {| pag_offset := 0; pag_limit := 2; pag_total_count := 3; pag_data := [dora; cleo] |}
  ∧ Facade.get_paginated (H:=sample_engine) UserCrudFacade users_with_dora
      (Some {| pf_offset := 0; pf_limit := 2 |}) None None None (role_is "employee")
    = (mret {| pag_offset := 0; pag_limit := 2; pag_total_count := 3; pag_data := [cleo] |},
       [{| w_entity := dora; w_error := Py (ValidationError "first_name: empty") |}]).
Proof.
  match goal with
  | |- ?call = ?result ∧ _ => assert (call = result) as Hraw by reflexivity
  end.
  split; [exact Hraw|].
  rewrite (get_paginated_maps_the_raw_page (H:=sample_engine) UserCrudFacade users_with_dora
             (Some {| pf_offset := 0; pf_limit := 2 |}) None None None (role_is "employee")
             _ Hraw).
  reflexivity.
Defined.
